(** * usql, Ingres driver: the metadata writer of [drivers/ingres/ingres.go]

    A shallow embedding of [IngresWriter] and of the helpers it calls, with
    the properties of the describe commands proved over it.

    Go strings are byte sequences: they are [string] (a list of 8-bit
    [ascii]).  [int] and [int64] are [Z]; [float64] is [spec_float] at
    precision 53 and maximal exponent 1024.  A function that returns an
    [error] is a computation in the monad [M], which records what the
    writer prints and which catalog queries it issues, in order, and ends
    in an [outcome]. *)

From Stdlib Require Import ZArith String Ascii List Bool Lia SpecFloat.
From stdpp Require Import base strings gmap.
Import ListNotations.

Local Open Scope string_scope.

(** ** Go's [strings] package, as far as the writer uses it *)

Module Strings.

(** [strings.IndexByte]: the index of the first byte [c] of [s]; Go's [-1]
    is [None]. *)
Fixpoint IndexByte (s : string) (c : ascii) : option nat :=
  match s with
  | EmptyString => None
  | String x s' =>
      if Ascii.eqb x c then Some 0
      else match IndexByte s' c with
           | Some i => Some (S i)
           | None => None
           end
  end.

(** [strings.ContainsRune] for a rune below [utf8.RuneSelf], which Go
    answers with [IndexByte(s, c) >= 0]. *)
Definition ContainsRune (s : string) (c : ascii) : bool :=
  match IndexByte s c with Some _ => true | None => false end.

(** [strings.SplitN(s, sep, 2)] for a one-byte separator: [s[:m]] and
    [s[m+1:]] at the first separator, [s] alone when there is none. *)
Definition SplitN2 (s : string) (sep : ascii) : list string :=
  match IndexByte s sep with
  | Some m => [substring 0 m s; substring (S m) (String.length s - S m) s]
  | None => [s]
  end.

(** [strings.ReplaceAll(s, old, new)] for one-byte [old] and [new]. *)
Fixpoint ReplaceAll (s : string) (old new : ascii) : string :=
  match s with
  | EmptyString => EmptyString
  | String x s' =>
      String (if Ascii.eqb x old then new else x) (ReplaceAll s' old new)
  end.

(** [strings.Join(elems, sep)]. *)
Fixpoint Join (elems : list string) (sep : string) : string :=
  match elems with
  | [] => EmptyString
  | [x] => x
  | x :: rest => x +:+ sep +:+ Join rest sep
  end.

(** [strings.HasSuffix(s, suffix)]: [len(s) >= len(suffix)] and the tail of
    [s] of that length is [suffix]. *)
Definition HasSuffix (s suffix : string) : bool :=
  (String.length suffix <=? String.length s)%nat &&
  String.eqb
    (substring (String.length s - String.length suffix) (String.length suffix) s)
    suffix.

End Strings.

(** ** Outcomes of a Go call *)

(** A Go [error] value.  [text.ErrNotSupported] is a sentinel compared by
    identity; [fmt.Errorf("ctx: %w", err)] wraps an error and is never
    identical to the sentinel. *)
Inductive error : Type :=
| ErrNotSupported
| ErrNotSupportedByDriver (cmd driver : string)
| ErrQuery (msg : string)
| ErrWrap (ctx : string) (e : error).

(** [err == text.ErrNotSupported]. *)
Definition isErrNotSupported (e : error) : bool :=
  match e with ErrNotSupported => true | _ => false end.

(** How a call ends: it returns its values with a [nil] error, it returns
    an error, or a run-time panic (an index out of range, a failed type
    assertion, a nil dereference) unwinds it. *)
Inductive outcome (A : Type) : Type :=
| Returned (a : A)
| Failed (e : error)
| Panicked.
Arguments Returned {A} a.
Arguments Failed {A} e.
Arguments Panicked {A}.

(** ** parsePattern *)

Definition star (s : string) : string := Strings.ReplaceAll s "*" "%".

(** [parts[i]] on a Go slice: a panic when [i] is out of range. *)
Definition index {A : Type} (l : list A) (i : nat) : outcome A :=
  match nth_error l i with
  | Some x => Returned x
  | None => Panicked
  end.

Definition parsePattern (pattern : string) : outcome (string * string) :=
  if Strings.ContainsRune pattern "." then
    let parts := Strings.SplitN2 pattern "." in
    match index parts 0, index parts 1 with
    | Returned p0, Returned p1 => Returned (star p0, star p1)
    | _, _ => Panicked
    end
  else Returned (EmptyString, star pattern).

(** ** Go's [fmt] and [float64], as far as the writer uses them *)

Module Fmt.

Definition float64 : Type := spec_float.

Definition prec : Z := 53.
Definition emax : Z := 1024.

(** The conversion [float64(n)] of an integer: the nearest double, ties to
    even. *)
Definition of_int64 (n : Z) : float64 := binary_normalize prec emax n 0 false.

(** The quotient [x / y] of two doubles. *)
Definition div (x y : float64) : float64 := SFdiv prec emax x y.

(** The constant [1.0]. *)
Definition one : float64 := SFone prec emax.

(** The decimal digits of a natural number. *)
Definition digit (n : N) : ascii := ascii_of_N (48 + n).

Fixpoint digits_fuel (fuel : nat) (n : N) (acc : string) : string :=
  match fuel with
  | O => acc
  | S fuel' =>
      let acc' := String (digit (n mod 10)) acc in
      if (n / 10 =? 0)%N then acc' else digits_fuel fuel' (n / 10)%N acc'
  end.

Definition decimal (n : N) : string :=
  digits_fuel (S (N.to_nat (N.log2 n))) n EmptyString.

(** Four digits after the point: [n < 10000] printed with leading zeros. *)
Definition frac4 (n : N) : string :=
  String (digit (n / 1000 mod 10))
    (String (digit (n / 100 mod 10))
       (String (digit (n / 10 mod 10))
          (String (digit (n mod 10)) EmptyString))).

(** The integer nearest to [m * 2^e * 10^4], ties to the even one: what
    [strconv]'s exact decimal conversion keeps of a finite double for
    [%.4f]. *)
Definition scaled4 (m : positive) (e : Z) : N :=
  let num := (Z.pos m * 10000)%Z in
  match e with
  | Zneg p =>
      let den := Z.pow 2 (Z.pos p) in
      let q := (num / den)%Z in
      let r := (num mod den)%Z in
      let up := (den <? 2 * r)%Z || ((den =? 2 * r)%Z && Z.odd q) in
      Z.to_N (if up then q + 1 else q)
  | _ => Z.to_N (num * Z.pow 2 e)
  end.

Definition sign (s : bool) : string := if s then "-" else EmptyString.

(** [fmt.Sprintf("%.4f", x)]. *)
Definition Sprintf4 (x : float64) : string :=
  match x with
  | S754_zero s => sign s +:+ "0.0000"
  | S754_infinity s => if s then "-Inf" else "+Inf"
  | S754_nan => "NaN"
  | S754_finite s m e =>
      let n := scaled4 m e in
      sign s +:+ decimal (n / 10000) +:+ "." +:+ frac4 (n mod 10000)
  end.

End Fmt.

(** [fmt.Sprintf] with [%s] verbs is string concatenation; the one byte a
    literal cannot hold is the double quote. *)
Definition dquote : string := String (ascii_of_nat 34) EmptyString.
Definition quoted (s : string) : string := dquote +:+ s +:+ dquote.
Definition newline : string := String (ascii_of_nat 10) EmptyString.

(** ** The metadata package [md]: entities, filters, result sets, readers *)

(** A cell handed to the table encoder ([interface{}] in Go). *)
Inductive value : Type :=
| VString (s : string)
| VInt (n : Z)
| VFloat (x : Fmt.float64).

Record Filter : Type := mkFilter {
  fCatalog : string;
  fSchema : string;
  fParent : string;
  fReference : string;
  fName : string;
  fTypes : list string;
  fWithSystem : bool
}.

(** [md.Filter{}]: every field at its zero value. *)
Definition Filter0 : Filter :=
  mkFilter EmptyString EmptyString EmptyString EmptyString EmptyString [] false.

(** Modelled from the spec: the entity records of the metadata package,
    which is not among the sources; each has the fields the writer reads. *)
Record Table : Type := mkTable {
  tCatalog : string; tSchema : string; tName : string; tType : string;
  tRows : Z; tSize : string; tComment : string
}.

Record Column : Type := mkColumn {
  cName : string; cDataType : string; cIsNullable : string; cDefault : string;
  cColumnSize : Z; cDecimalDigits : Z; cNumPrecRadix : Z; cCharOctetLength : Z
}.

Record Index : Type := mkIndex {
  iCatalog : string; iSchema : string; iTable : string; iName : string;
  iIsPrimary : string; iIsUnique : string; iType : string; iColumns : string
}.

Record IndexColumn : Type := mkIndexColumn {
  icName : string; icDataType : string
}.

Record Constraint : Type := mkConstraint {
  kCatalog : string; kSchema : string; kTable : string; kName : string;
  kType : string; kCheckClause : string; kForeignTable : string;
  kUpdateRule : string; kDeleteRule : string
}.

Record ConstraintColumn : Type := mkConstraintColumn {
  ccName : string; ccForeignName : string
}.

Record Sequence : Type := mkSequence {
  sSchema : string; sName : string; sAttrs : list value
}.

Record Trigger : Type := mkTrigger {
  trName : string; trDefinition : string
}.

Record Function : Type := mkFunction {
  fnCatalog : string; fnSchema : string; fnName : string;
  fnResultType : string; fnArgTypes : string; fnType : string;
  fnVolatility : string; fnSecurity : string; fnLanguage : string;
  fnSource : string; fnSpecificName : string
}.

Record FunctionColumn : Type := mkFunctionColumn {
  fcName : string; fcType : string; fcDataType : string;
  fcOrdinalPosition : Z
}.

Record ColumnStat : Type := mkColumnStat {
  csSchema : string; csTable : string; csName : string;
  csAvgWidth : Z; csNullFrac : Fmt.float64; csNumDistinct : Z;
  csMin : string; csMax : string; csMean : string;
  csTopN : list string; csTopNFreqs : list Fmt.float64
}.

(** [md.YES]. *)
Definition YES : string := "YES".

(** Modelled from the spec: the result set of the metadata package (section
    4.2), which is not among the sources.  It buffers the rows; [current] is
    the 1-based position of the current row, 0 before the first [Next]; the
    filter, when one is installed, decides which rows [Next] stops at and
    [Len] counts; the columns and the projector are what the encoder
    renders (a projector is Go code and may panic). *)
Record ResultSet (A : Type) : Type := mkResultSet {
  results : list A;
  current : nat;
  rfilter : option (A -> bool);
  columns : list string;
  scanValues : A -> outcome (list value)
}.
Arguments mkResultSet {A}.
Arguments results {A}.
Arguments current {A}.
Arguments rfilter {A}.
Arguments columns {A}.
Arguments scanValues {A}.

Section ResultSetOps.
Context {A : Type}.

Definition passes (res : ResultSet A) (x : A) : bool :=
  match rfilter res with
  | Some f => f x
  | None => true
  end.

(** The position [Next] stops at: [rows] are the rows after position [pos];
    past the last row the position is the length plus one. *)
Fixpoint advance (f : A -> bool) (rows : list A) (pos : nat) : nat :=
  match rows with
  | [] => S pos
  | x :: rows' => if f x then S pos else advance f rows' (S pos)
  end.

Definition Next (res : ResultSet A) : bool * ResultSet A :=
  let c := advance (passes res) (skipn (current res) (results res)) (current res) in
  ((c <=? length (results res))%nat,
   mkResultSet (results res) c (rfilter res) (columns res) (scanValues res)).

(** [Get] is [results[current-1]]: a panic when that is out of range. *)
Definition Get (res : ResultSet A) : outcome A :=
  match current res with
  | O => Panicked
  | S i => index (results res) i
  end.

(** [Get] returns a pointer into the buffer: an assignment to a field of
    the row it returned writes the buffered row. *)
Definition Put (res : ResultSet A) (x : A) : ResultSet A :=
  mkResultSet (<[pred (current res) := x]> (results res)) (current res)
    (rfilter res) (columns res) (scanValues res).

Definition Len (res : ResultSet A) : nat :=
  length (List.filter (passes res) (results res)).

Definition SetFilter (res : ResultSet A) (f : A -> bool) : ResultSet A :=
  mkResultSet (results res) (current res) (Some f) (columns res) (scanValues res).

Definition Reset (res : ResultSet A) : ResultSet A :=
  mkResultSet (results res) 0 (rfilter res) (columns res) (scanValues res).

Definition SetColumns (res : ResultSet A) (cols : list string) : ResultSet A :=
  mkResultSet (results res) (current res) (rfilter res) cols (scanValues res).

Definition SetScanValues (res : ResultSet A)
  (scan : A -> outcome (list value))
  : ResultSet A :=
  mkResultSet (results res) (current res) (rfilter res) (columns res) scan.

(** The rows a consumer that calls [Next] until it fails still sees. *)
Definition remaining (res : ResultSet A) : list A :=
  List.filter (passes res) (skipn (current res) (results res)).

End ResultSetOps.

(** A result set as the metadata package's constructors build it. *)
Definition NewResultSet {A : Type} (cols : list string)
  (scan : A -> outcome (list value)) (rows : list A) : ResultSet A :=
  mkResultSet rows 0 None cols scan.

(** Modelled from the spec: [md.NewSequenceSet], which renders a sequence by
    its engine-specific attributes. *)
Definition NewSequenceSet (rows : list Sequence) : ResultSet Sequence :=
  NewResultSet [] (fun s => Returned (sAttrs s)) rows.

(** What a reader's query returns: Go's pair of a result set pointer and an
    error, either of which may be [nil]. *)
Definition QueryResult (A : Type) : Type :=
  (option (ResultSet A) * option error)%type.

(** A reader: each capability is an optional interface, present or not. *)
Record Reader : Type := mkReader {
  TableReader : option (Filter -> QueryResult Table);
  ColumnReader : option (Filter -> QueryResult Column);
  IndexReader : option (Filter -> QueryResult Index);
  IndexColumnReader : option (Filter -> QueryResult IndexColumn);
  ConstraintReader : option (Filter -> QueryResult Constraint);
  ConstraintColumnReader : option (Filter -> QueryResult ConstraintColumn);
  SequenceReader : option (Filter -> QueryResult Sequence);
  TriggerReader : option (Filter -> QueryResult Trigger);
  FunctionReader : option (Filter -> QueryResult Function);
  FunctionColumnReader : option (Filter -> QueryResult FunctionColumn);
  ColumnStatReader : option (Filter -> QueryResult ColumnStat)
}.

(** ** The monad of the writer's calls *)

Inductive Query : Type :=
| QTables (f : Filter)
| QColumns (f : Filter)
| QIndexes (f : Filter)
| QIndexColumns (f : Filter)
| QConstraints (f : Filter)
| QConstraintColumns (f : Filter)
| QSequences (f : Filter)
| QTriggers (f : Filter)
| QFunctions (f : Filter)
| QFunctionColumns (f : Filter)
| QColumnStats (f : Filter).

(** What a command does, in order: a catalog query through the reader, one
    [fmt.Fprint*] call on the output, or one table handed to the encoder
    (its print parameters, column headers and projected rows). *)
Inductive Event : Type :=
| EvQuery (q : Query)
| EvWrite (s : string)
| EvEncode (params : gmap string string) (cols : list string)
    (rows : list (list value)).

Definition M (A : Type) : Type := (list Event * outcome A)%type.

Definition ret {A : Type} (a : A) : M A := ([], Returned a).

Definition bind {A B : Type} (m : M A) (k : A -> M B) : M B :=
  match m with
  | (t, Returned a) => let (t', o) := k a in ((t ++ t')%list, o)
  | (t, Failed e) => (t, Failed e)
  | (t, Panicked) => (t, Panicked)
  end.

Declare Scope go_scope.
Delimit Scope go_scope with go.
Notation "x <- m ;; k" := (bind m (fun x => k))
  (at level 20, m at level 99, k at level 200, only parsing) : go_scope.
Notation "' p <- m ;; k" := (bind m (fun x => match x with p => k end))
  (at level 20, p pattern, m at level 99, k at level 200, only parsing)
  : go_scope.
Notation "m ;; k" := (bind m (fun _ => k))
  (at level 100, k at level 200, right associativity, only parsing)
  : go_scope.
Local Open Scope go_scope.

Definition emit (ev : Event) : M unit := ([ev], Returned tt).
Definition fail {A : Type} (e : error) : M A := ([], Failed e).
Definition panic {A : Type} : M A := ([], Panicked).
Definition lift {A : Type} (o : outcome A) : M A := ([], o).

(** [return fmt.Errorf("ctx: %w", err)] on the error path of a call. *)
Definition wrap {A : Type} (ctx : string) (m : M A) : M A :=
  match m with
  | (t, Failed e) => (t, Failed (ErrWrap ctx e))
  | _ => m
  end.

(** [err = f(...)] with the error kept in a variable instead of returned. *)
Definition try {A : Type} (m : M A) : M (option error) :=
  match m with
  | (t, Returned _) => (t, Returned None)
  | (t, Failed e) => (t, Returned (Some e))
  | (t, Panicked) => (t, Panicked)
  end.

(** [w.r.(md.XReader)] without the comma-ok form: a panic when the reader
    lacks the capability. *)
Definition assertCap {A : Type} (cap : option A) : M A :=
  match cap with Some c => ret c | None => panic end.

(** A method call on a result set pointer: a panic when it is [nil]. *)
Definition deref {A : Type} (res : option (ResultSet A)) : M (ResultSet A) :=
  match res with Some rs => ret rs | None => panic end.

(** One catalog query through a capability of the reader. *)
Definition doQuery {A : Type} (q : Filter -> Query)
  (rd : Filter -> QueryResult A) (f : Filter) : M (QueryResult A) :=
  emit (EvQuery (q f)) ;; ret (rd f).

(** [fmt.Fprintf(out, ...)] and [fmt.Fprintln(out, ...)]: one write of the
    formatted text to an output that takes every write. *)
Definition Fprint (s : string) : M unit := emit (EvWrite s).

(** [for res.Next() { x := res.Get(); body }] with the loop's local state
    [acc]: the body returns the row as it left it and the next state, or
    fails, which is the function's [return err].  No loop runs more often
    than the buffer has rows; the fuel a caller gives is one more. *)
Fixpoint forNext {A St : Type} (fuel : nat) (res : ResultSet A) (acc : St)
  (body : St -> A -> M (A * St)) : M (ResultSet A * St) :=
  match fuel with
  | O => panic
  | S fuel' =>
      let (more, res1) := Next res in
      if more then
        x <- lift (Get res1) ;;
        '(x', acc') <- body acc x ;;
        forNext fuel' (Put res1 x') acc' body
      else ret (res1, acc)
  end.

Definition rangeNext {A St : Type} (res : ResultSet A) (acc : St)
  (body : St -> A -> M (A * St)) : M (ResultSet A * St) :=
  forNext (S (length (results res))) res acc body.

(** Modelled from the spec: the table encoder [tblfmt.EncodeAll], which is
    not among the sources.  It reads the result set from its cursor on with
    [Next] and the projector, and renders the rows under the headers. *)
Fixpoint scanAll {A : Type} (scan : A -> outcome (list value)) (rows : list A)
  : outcome (list (list value)) :=
  match rows with
  | [] => Returned []
  | x :: rows' =>
      match scan x with
      | Returned v =>
          match scanAll scan rows' with
          | Returned vs => Returned (v :: vs)
          | Failed e => Failed e
          | Panicked => Panicked
          end
      | Failed e => Failed e
      | Panicked => Panicked
      end
  end.

Definition EncodeAll {A : Type} (res : ResultSet A)
  (params : gmap string string) : M unit :=
  rows <- lift (scanAll (scanValues res) (remaining res)) ;;
  emit (EvEncode params (columns res) rows).

(** ** The writer *)

(** [IngresWriter]: the reader, the type-code tables (a Go map; the list is
    the order its [range] visits the keys), the system schemas (a set of
    names), and the print parameters [env.Pall()] answers.  The output
    [w.w] is the trace of [M]. *)
Record IngresWriter : Type := mkIngresWriter {
  r : Reader;
  tableTypes : list (ascii * list string);
  funcTypes : list (ascii * list string);
  systemSchemas : gset string;
  Pall : gmap string string
}.

(** Modelled from the spec: the message format [text.RelationNotFound] of
    the text package, which is not among the sources. *)
Definition RelationNotFound (pattern : string) : string :=
  "Did not find any relation named " +:+ quoted pattern +:+ ".".

(** [_, ok := w.systemSchemas[schema]; return !ok]. *)
Definition notSystem {A : Type} (w : IngresWriter) (schema : A -> string)
  (x : A) : bool :=
  negb (bool_decide (schema x ∈ systemSchemas w)).

(** [for k, v := range table { if strings.ContainsRune(codes, k) { types =
    append(types, v...) } }]. *)
Definition selectTypes (table : list (ascii * list string)) (codes : string)
  : list string :=
  flat_map (fun kv => if Strings.ContainsRune codes (fst kv) then snd kv else [])
    table.

(** [err != nil && err != text.ErrNotSupported]. *)
Definition hardError (err : option error) : option error :=
  match err with
  | Some e => if isErrNotSupported e then None else Some e
  | None => None
  end.

Definition qualifiedIdentifier (schema name : string) : string :=
  if String.eqb schema EmptyString then quoted name
  else quoted (schema +:+ "." +:+ name).

(** The argument fragment of one function column. *)
Definition argFragment (c : FunctionColumn) : string :=
  let typ :=
    if negb (String.eqb (fcType c) "IN") && negb (String.eqb (fcType c) EmptyString)
    then fcType c +:+ " " else EmptyString in
  let name :=
    if negb (String.eqb (fcName c) EmptyString) then fcName c +:+ " "
    else fcName c in
  typ +:+ name +:+ fcDataType c.

Definition getFunctionColumns (w : IngresWriter) (c s f : string) : M string :=
  rd <- assertCap (FunctionColumnReader (r w)) ;;
  '(cols, err) <- doQuery QFunctionColumns rd
    (mkFilter c s f EmptyString EmptyString [] false) ;;
  match err with
  | Some e => fail e
  | None =>
      cols <- deref cols ;;
      '(_, args) <- rangeNext cols []
        (fun args c =>
           (* skip result params *)
           if (fcOrdinalPosition c =? 0)%Z then ret (c, args)
           else ret (c, args ++ [argFragment c])%list) ;;
      ret (Strings.Join args ", ")
  end.

Definition setArgTypes (f : Function) (args : string) : Function :=
  mkFunction (fnCatalog f) (fnSchema f) (fnName f) (fnResultType f) args
    (fnType f) (fnVolatility f) (fnSecurity f) (fnLanguage f) (fnSource f)
    (fnSpecificName f).

Definition functionColumns (verbose : bool) : list string :=
  (["Schema"; "Name"; "Result data type"; "Argument data types"; "Type"] ++
   if verbose then ["Volatility"; "Security"; "Language"; "Source code"] else [])%list.

Definition functionScan (verbose : bool) (f : Function) : outcome (list value) :=
  Returned
    ([VString (fnSchema f); VString (fnName f); VString (fnResultType f);
      VString (fnArgTypes f); VString (fnType f)] ++
     if verbose then
       [VString (fnVolatility f); VString (fnSecurity f);
        VString (fnLanguage f); VString (fnSource f)]
     else [])%list.

Definition DescribeFunctions (w : IngresWriter) (driver : string)
  (funcTypes' pattern : string) (verbose showSystem : bool) : M unit :=
  match FunctionReader (r w) with
  | None => fail (ErrNotSupportedByDriver "\df" driver)
  | Some rd =>
      let types := selectTypes (funcTypes w) funcTypes' in
      '(sp, tp) <- wrap "failed to parse search pattern" (lift (parsePattern pattern)) ;;
      '(res, err) <- doQuery QFunctions rd
        (mkFilter EmptyString sp EmptyString EmptyString tp types showSystem) ;;
      match err with
      | Some e => fail (ErrWrap "failed to list functions" e)
      | None =>
          res <- deref res ;;
          let res :=
            if negb showSystem
            then SetFilter res (notSystem w fnSchema) else res in
          res <-
            match FunctionColumnReader (r w) with
            | Some _ =>
                '(res, _) <- rangeNext res tt
                  (fun _ f =>
                     args <- wrap
                       ("failed to get columns of function " +:+ fnSchema f +:+
                        "." +:+ fnSpecificName f)
                       (getFunctionColumns w (fnCatalog f) (fnSchema f)
                          (fnSpecificName f)) ;;
                     ret (setArgTypes f args, tt)) ;;
                ret (Reset res)
            | None => ret res
            end ;;
          let res := SetColumns res (functionColumns verbose) in
          let res := SetScanValues res (functionScan verbose) in
          EncodeAll res (<["title" := "List of functions"]> (Pall w))
      end
  end.

Definition getIndexColumns (w : IngresWriter) (c s t i : string) : M string :=
  rd <- assertCap (IndexColumnReader (r w)) ;;
  '(cols, err) <- doQuery QIndexColumns rd
    (mkFilter c s t EmptyString i [] false) ;;
  match err with
  | Some e => fail e
  | None =>
      cols <- deref cols ;;
      '(_, result) <- rangeNext cols []
        (fun result c => ret (c, result ++ [icName c])%list) ;;
      ret (Strings.Join result ", ")
  end.

Definition getConstraintColumns (w : IngresWriter) (c s t n : string)
  : M (string * string) :=
  rd <- assertCap (ConstraintColumnReader (r w)) ;;
  '(cols, err) <- doQuery QConstraintColumns rd
    (mkFilter c s t EmptyString n [] false) ;;
  match err with
  | Some e => fail e
  | None =>
      cols <- deref cols ;;
      '(_, (columns, foreignColumns)) <- rangeNext cols ([], [])
        (fun acc c =>
           ret (c, (fst acc ++ [ccName c], snd acc ++ [ccForeignName c]))%list) ;;
      ret (Strings.Join columns ", ", Strings.Join foreignColumns ", ")
  end.

Definition setColumns (i : Index) (cols : string) : Index :=
  mkIndex (iCatalog i) (iSchema i) (iTable i) (iName i) (iIsPrimary i)
    (iIsUnique i) (iType i) cols.

Definition indexLine (i : Index) : string :=
  let primary :=
    if String.eqb (iIsPrimary i) YES then "PRIMARY_KEY, " else EmptyString in
  let unique :=
    if String.eqb (iIsUnique i) YES then "UNIQUE, " else EmptyString in
  "  " +:+ quoted (iName i) +:+ " " +:+ primary +:+ unique +:+ iType i +:+
  " (" +:+ iColumns i +:+ ")" +:+ newline.

Definition describeTableIndexes (w : IngresWriter) (sp tp : string) : M unit :=
  match IndexReader (r w) with
  | None => ret tt
  | Some rd =>
      '(res, err) <- doQuery QIndexes rd
        (mkFilter EmptyString sp tp EmptyString EmptyString [] false) ;;
      match hardError err with
      | Some e => fail (ErrWrap ("failed to list indexes for table " +:+ tp) e)
      | None =>
          match res with
          | None => ret tt
          | Some res =>
              if (Len res =? 0)%nat then ret tt
              else
                Fprint ("Indexes:" +:+ newline) ;;
                rangeNext res tt
                  (fun _ i =>
                     cols <- wrap ("failed to get columns of index " +:+ iName i)
                       (getIndexColumns w (iCatalog i) (iSchema i) (iTable i)
                          (iName i)) ;;
                     let i := setColumns i cols in
                     Fprint (indexLine i) ;;
                     ret (i, tt)) ;;
                ret tt
          end
      end
  end.

Definition triggerLine (t : Trigger) : string :=
  "  " +:+ quoted (trName t) +:+ " " +:+ trDefinition t +:+ newline.

Definition describeTableTriggers (w : IngresWriter) (sp tp : string) : M unit :=
  match TriggerReader (r w) with
  | None => ret tt
  | Some rd =>
      '(res, err) <- doQuery QTriggers rd
        (mkFilter EmptyString sp tp EmptyString EmptyString [] false) ;;
      match hardError err with
      | Some e => fail (ErrWrap ("failed to list triggers for table " +:+ tp) e)
      | None =>
          match res with
          | None => ret tt
          | Some res =>
              if (Len res =? 0)%nat then ret tt
              else
                Fprint ("Triggers:" +:+ newline) ;;
                rangeNext res tt
                  (fun _ t => Fprint (triggerLine t) ;; ret (t, tt)) ;;
                ret tt
          end
      end
  end.

Definition describeTableConstraints (w : IngresWriter) (filter : Filter)
  (postFilter : Constraint -> bool) (label : string)
  (printer : Constraint -> M unit) : M unit :=
  match ConstraintReader (r w) with
  | None => ret tt
  | Some rd =>
      '(res, err) <- doQuery QConstraints rd filter ;;
      match hardError err with
      | Some e => fail (ErrWrap "failed to list constraints" e)
      | None =>
          match res with
          | None => ret tt
          | Some res =>
              let res := SetFilter res postFilter in
              if (Len res =? 0)%nat then ret tt
              else
                Fprint (label +:+ newline) ;;
                rangeNext res tt (fun _ c => printer c ;; ret (c, tt)) ;;
                ret tt
          end
      end
  end.

(** The post-filter of the check constraint section. *)
Definition isCheck (c : Constraint) : bool :=
  String.eqb (kType c) "CHECK" &&
  negb (String.eqb (kCheckClause c) EmptyString) &&
  negb (Strings.HasSuffix (kCheckClause c) " IS NOT NULL").

(** The post-filter of the two foreign key sections. *)
Definition isForeignKey (c : Constraint) : bool :=
  String.eqb (kType c) "FOREIGN KEY".

Definition checkLine (c : Constraint) : string :=
  "  " +:+ quoted (kName c) +:+ " " +:+ kType c +:+ " (" +:+ kCheckClause c +:+
  ")" +:+ newline.

Definition foreignKeyLine (c : Constraint) (columns foreignColumns : string)
  : string :=
  "  " +:+ quoted (kName c) +:+ " " +:+ kType c +:+ " (" +:+ columns +:+
  ") REFERENCES " +:+ kForeignTable c +:+ "(" +:+ foreignColumns +:+
  ") ON UPDATE " +:+ kUpdateRule c +:+ " ON DELETE " +:+ kDeleteRule c +:+
  newline.

Definition referencedByLine (c : Constraint) (columns foreignColumns : string)
  : string :=
  "  TABLE " +:+ quoted (kTable c) +:+ " CONSTRAINT " +:+ quoted (kName c) +:+
  " " +:+ kType c +:+ " (" +:+ columns +:+ ") REFERENCES " +:+
  kForeignTable c +:+ "(" +:+ foreignColumns +:+ ") ON UPDATE " +:+
  kUpdateRule c +:+ " ON DELETE " +:+ kDeleteRule c +:+ newline.

Definition checkPrinter (c : Constraint) : M unit := Fprint (checkLine c).

Definition foreignKeyPrinter (w : IngresWriter) (c : Constraint) : M unit :=
  '(columns, foreignColumns) <-
    getConstraintColumns w (kCatalog c) (kSchema c) (kTable c) (kName c) ;;
  Fprint (foreignKeyLine c columns foreignColumns).

Definition referencedByPrinter (w : IngresWriter) (c : Constraint) : M unit :=
  '(columns, foreignColumns) <-
    getConstraintColumns w (kCatalog c) (kSchema c) (kTable c) (kName c) ;;
  Fprint (referencedByLine c columns foreignColumns).

(** The five sections of the summary, as [tableDetailsSummary] calls them. *)
Definition checkSection (w : IngresWriter) (sp tp : string) : M unit :=
  describeTableConstraints w
    (mkFilter EmptyString sp tp EmptyString EmptyString [] false)
    isCheck "Check constraints:" checkPrinter.

Definition foreignKeySection (w : IngresWriter) (sp tp : string) : M unit :=
  describeTableConstraints w
    (mkFilter EmptyString sp tp EmptyString EmptyString [] false)
    isForeignKey "Foreign-key constraints:" (foreignKeyPrinter w).

Definition referencedBySection (w : IngresWriter) (sp tp : string) : M unit :=
  describeTableConstraints w
    (mkFilter EmptyString sp EmptyString tp EmptyString [] false)
    isForeignKey "Referenced by:" (referencedByPrinter w).

(** The summary function: the error of each of the first three sections is
    checked and returned; the error of the fourth is assigned to [err] and
    overwritten by the call of the fifth. *)
Definition tableDetailsSummary (w : IngresWriter) (sp tp : string) (_ : Z)
  : M Z :=
  describeTableIndexes w sp tp ;;
  checkSection w sp tp ;;
  foreignKeySection w sp tp ;;
  _ <- try (referencedBySection w sp tp) ;;
  describeTableTriggers w sp tp ;;
  ret 0%Z.

(** Modelled from the spec: the encoder with a summary registered under the
    key [-1], which the table encoder calls on its output after the table
    body, with the number of rows, and whose error ends the encoding. *)
Definition encodeWithSummary {A : Type} (res : ResultSet A)
  (params : gmap string string) (summary : Z -> M Z) : M unit :=
  EncodeAll res params ;;
  _ <- summary (Z.of_nat (length (remaining res))) ;;
  ret tt.

Definition columnColumns (verbose : bool) : list string :=
  (["Name"; "Type"; "Nullable"; "Default"] ++
   if verbose then ["Size"; "Decimal Digits"; "Radix"; "Octet Length"] else [])%list.

Definition columnScan (verbose : bool) (f : Column) : outcome (list value) :=
  Returned
    ([VString (cName f); VString (cDataType f); VString (cIsNullable f);
      VString (cDefault f)] ++
     if verbose then
       [VInt (cColumnSize f); VInt (cDecimalDigits f); VInt (cNumPrecRadix f);
        VInt (cCharOctetLength f)]
     else [])%list.

Definition describeTableDetails (w : IngresWriter) (typ sp tp : string)
  (verbose showSystem : bool) : M unit :=
  rd <- assertCap (ColumnReader (r w)) ;;
  '(res, err) <- doQuery QColumns rd
    (mkFilter EmptyString sp tp EmptyString EmptyString [] showSystem) ;;
  match err with
  | Some e => fail (ErrWrap ("failed to list columns for table " +:+ tp) e)
  | None =>
      res <- deref res ;;
      let res := SetColumns res (columnColumns verbose) in
      let res := SetScanValues res (columnScan verbose) in
      let params :=
        <["title" := typ +:+ " " +:+ qualifiedIdentifier sp tp +:+ newline]>
          (Pall w) in
      encodeWithSummary res params (tableDetailsSummary w sp tp)
  end.

Definition describeSequences (w : IngresWriter) (sp tp : string)
  (verbose showSystem : bool) : M Z :=
  rd <- assertCap (SequenceReader (r w)) ;;
  '(res, err) <- doQuery QSequences rd
    (mkFilter EmptyString sp EmptyString EmptyString tp [] showSystem) ;;
  match hardError err with
  | Some e => fail e
  | None =>
      match res with
      | None => ret 0%Z
      | Some res =>
          '(_, found) <- rangeNext res 0%Z
            (fun found s =>
               (* wrap current record into a separate recordSet *)
               let rows := NewSequenceSet [s] in
               let params :=
                 <["title" := "Sequence " +:+ quoted (sSchema s +:+ "." +:+ sName s)
                              +:+ newline]>
                   (<["footer" := "off"]> (Pall w)) in
               EncodeAll rows params ;;
               ret (s, found + 1)%Z) ;;
          ret found
      end
  end.

Definition indexSummaryLine (i : Index) : string :=
  let primary :=
    if String.eqb (iIsPrimary i) YES then "primary key, " else EmptyString in
  primary +:+ iType i +:+ ", for table " +:+ iTable i.

Definition describeIndex (w : IngresWriter) (i : Index) : M unit :=
  rd <- assertCap (IndexColumnReader (r w)) ;;
  '(res, err) <- doQuery QIndexColumns rd
    (mkFilter EmptyString (iSchema i) (iTable i) EmptyString (iName i) [] false) ;;
  match err with
  | Some e => fail (ErrWrap "failed to get index columns" e)
  | None =>
      res <- deref res ;;
      if (Len res =? 0)%nat then ret tt
      else
        let res := SetColumns res ["Name"; "Type"] in
        let res := SetScanValues res
          (fun f => Returned [VString (icName f); VString (icDataType f)]) in
        let params :=
          <["title" := "Index " +:+ qualifiedIdentifier (iSchema i) (iName i)
                       +:+ newline]> (Pall w) in
        encodeWithSummary res params
          (fun _ => Fprint (indexSummaryLine i) ;; ret 0%Z)
  end.

(** The three parts of [DescribeTableDetails] (tables, sequences, indexes),
    each answering how many relations it described: the [found++] of its
    loop, or the [foundSeq] of [describeSequences]. *)
Definition describeTables (w : IngresWriter) (sp tp : string)
  (verbose showSystem : bool) : M Z :=
  match TableReader (r w), ColumnReader (r w) with
  | Some tr, Some _ =>
      '(res, err) <- doQuery QTables tr
        (mkFilter EmptyString sp EmptyString EmptyString tp [] showSystem) ;;
      match err with
      | Some e => fail (ErrWrap "failed to list tables" e)
      | None =>
          res <- deref res ;;
          let res :=
            if negb showSystem then SetFilter res (notSystem w tSchema)
            else res in
          '(_, found) <- rangeNext res 0%Z
            (fun found t =>
               wrap ("failed to describe " +:+ tType t +:+ " " +:+ tSchema t +:+
                     "." +:+ tName t)
                 (describeTableDetails w (tType t) (tSchema t) (tName t)
                    verbose showSystem) ;;
               ret (t, found + 1)%Z) ;;
          ret found
      end
  | _, _ => ret 0%Z
  end.

Definition sequencePart (w : IngresWriter) (sp tp : string)
  (verbose showSystem : bool) : M Z :=
  match SequenceReader (r w) with
  | Some _ =>
      wrap "failed to describe sequences"
        (describeSequences w sp tp verbose showSystem)
  | None => ret 0%Z
  end.

Definition describeIndexes (w : IngresWriter) (sp tp : string)
  (showSystem : bool) : M Z :=
  match IndexReader (r w), IndexColumnReader (r w) with
  | Some ir, Some _ =>
      '(res, err) <- doQuery QIndexes ir
        (mkFilter EmptyString sp EmptyString EmptyString tp [] showSystem) ;;
      match hardError err with
      | Some e => fail (ErrWrap ("failed to list indexes for table " +:+ tp) e)
      | None =>
          match res with
          | None => ret 0%Z
          | Some res =>
              let res :=
                if negb showSystem then SetFilter res (notSystem w iSchema)
                else res in
              '(_, found) <- rangeNext res 0%Z
                (fun found i =>
                   wrap ("failed to describe index " +:+ iName i +:+
                         " from table " +:+ iSchema i +:+ "." +:+ iTable i)
                     (describeIndex w i) ;;
                   ret (i, found + 1)%Z) ;;
              ret found
          end
      end
  | _, _ => ret 0%Z
  end.

Definition DescribeTableDetails (w : IngresWriter) (pattern : string)
  (verbose showSystem : bool) : M unit :=
  '(sp, tp) <- wrap "failed to parse search pattern" (lift (parsePattern pattern)) ;;
  let found := 0%Z in
  foundTab <- describeTables w sp tp verbose showSystem ;;
  let found := (found + foundTab)%Z in
  foundSeq <- sequencePart w sp tp verbose showSystem ;;
  let found := (found + foundSeq)%Z in
  foundIdx <- describeIndexes w sp tp showSystem ;;
  let found := (found + foundIdx)%Z in
  (if (found =? 0)%Z then
     Fprint (RelationNotFound pattern) ;;
     Fprint newline
   else ret tt) ;;
  ret tt.

Definition tableColumns (verbose : bool) : list string :=
  (["Name"; "Type"] ++ if verbose then ["Rows"; "Size"; "Comment"] else [])%list.

Definition tableScan (verbose : bool) (f : Table) : outcome (list value) :=
  Returned
    ([VString (tName f); VString (tType f)] ++
     if verbose then [VInt (tRows f); VString (tSize f); VString (tComment f)]
     else [])%list.

Definition ListTables (w : IngresWriter) (driver : string)
  (tableTypes' pattern : string) (verbose showSystem : bool) : M unit :=
  match TableReader (r w) with
  | None => fail (ErrNotSupportedByDriver "\dt" driver)
  | Some rd =>
      let types := selectTypes (tableTypes w) tableTypes' in
      '(sp, tp) <- wrap "failed to parse search pattern" (lift (parsePattern pattern)) ;;
      '(res, err) <- doQuery QTables rd
        (mkFilter EmptyString sp EmptyString EmptyString tp types showSystem) ;;
      match err with
      | Some e => fail (ErrWrap "failed to list tables" e)
      | None =>
          res <- deref res ;;
          let res :=
            if negb showSystem then SetFilter res (notSystem w tSchema)
            else res in
          if (Len res =? 0)%nat then
            Fprint (RelationNotFound pattern) ;;
            Fprint newline ;;
            ret tt
          else
            let res := SetColumns res (tableColumns verbose) in
            let res := SetScanValues res (tableScan verbose) in
            EncodeAll res (<["title" := "List of relations"]> (Pall w))
      end
  end.

(** [s[:n]] on a slice whose capacity is its length: a panic unless
    [0 <= n <= len(s)]. *)
Definition sliceTo {A : Type} (s : list A) (n : Z) : outcome (list A) :=
  if (0 <=? n)%Z && (n <=? Z.of_nat (length s))%Z
  then Returned (firstn (Z.to_nat n) s)
  else Panicked.

(** The distinct fraction of a column: [1.0] unless the row count is not 0
    and differs from the number of distinct values. *)
Definition distFrac (rows numDistinct : Z) : Fmt.float64 :=
  if negb (rows =? 0)%Z && negb (numDistinct =? rows)%Z
  then Fmt.div (Fmt.of_int64 numDistinct) (Fmt.of_int64 rows)
  else Fmt.one.

(** The number of top values shown: [n := k; if n > len(freqs) { n =
    len(freqs) }]. *)
Definition topCount (k : Z) (freqs : list string) : Z :=
  if (k >? Z.of_nat (length freqs))%Z then Z.of_nat (length freqs) else k.

Definition statColumns (verbose : bool) : list string :=
  (["Schema"; "Table"; "Name"; "Average width"; "Nulls fraction";
    "Distinct values"; "Dist. fraction"] ++
   if verbose then
     ["Minimum value"; "Maximum value"; "Mean value"; "Top N common values";
      "Top N values freqs"]
   else [])%list.

Definition statScan (rows : Z) (verbose : bool) (k : Z) (f : ColumnStat)
  : outcome (list value) :=
  let freqs := map Fmt.Sprintf4 (csTopNFreqs f) in
  let n := topCount k freqs in
  let v :=
    [VString (csSchema f); VString (csTable f); VString (csName f);
     VInt (csAvgWidth f); VFloat (csNullFrac f); VInt (csNumDistinct f);
     VString (Fmt.Sprintf4 (distFrac rows (csNumDistinct f)))] in
  if verbose then
    match sliceTo (csTopN f) n, sliceTo freqs n with
    | Returned topN, Returned topFreqs =>
        Returned
          (v ++ [VString (csMin f); VString (csMax f); VString (csMean f);
                 VString (Strings.Join topN ", ");
                 VString (Strings.Join topFreqs ", ")])%list
    | _, _ => Panicked
    end
  else Returned v.

(** The row count [ShowStats] reads off the first table the pattern
    matches; 0 without a table reader or a matching table. *)
Definition tableRows (w : IngresWriter) (sp tp : string) : M Z :=
  match TableReader (r w) with
  | Some tr =>
      '(tables, err) <- doQuery QTables tr
        (mkFilter EmptyString sp EmptyString EmptyString tp [] false) ;;
      match err with
      | Some e => fail (ErrWrap "failed to get table entry" e)
      | None =>
          tables <- deref tables ;;
          let (more, tables) := Next tables in
          if more then t <- lift (Get tables) ;; ret (tRows t)
          else ret 0%Z
      end
  | None => ret 0%Z
  end.

Definition ShowStats (w : IngresWriter) (driver : string)
  (statTypes pattern : string) (verbose : bool) (k : Z) : M unit :=
  match ColumnStatReader (r w) with
  | None => fail (ErrNotSupportedByDriver "\ss" driver)
  | Some rd =>
      '(sp, tp) <- wrap "failed to parse search pattern" (lift (parsePattern pattern)) ;;
      rows <- tableRows w sp tp ;;
      let types := ("basic" :: if verbose then ["extended"] else [])%list in
      '(res, err) <- doQuery QColumnStats rd
        (mkFilter EmptyString sp tp EmptyString EmptyString types false) ;;
      match err with
      | Some e => fail (ErrWrap "failed to get column stats" e)
      | None =>
          res <- deref res ;;
          if (Len res =? 0)%nat then
            Fprint (RelationNotFound pattern) ;;
            Fprint newline ;;
            ret tt
          else
            let res := SetColumns res (statColumns verbose) in
            let res := SetScanValues res (statScan rows verbose k) in
            EncodeAll res (<["title" := "Column stats"]> (Pall w))
      end
  end.

(** ** Reading a trace *)

Definition writes (t : list Event) : list string :=
  flat_map (fun ev => match ev with EvWrite s => [s] | _ => [] end) t.

Definition queries (t : list Event) : list Query :=
  flat_map (fun ev => match ev with EvQuery q => [q] | _ => [] end) t.

Definition encoded (t : list Event) : list (list (list value)) :=
  flat_map (fun ev => match ev with EvEncode _ _ rows => [rows] | _ => [] end) t.


(** ** The loops, read as folds over the rows they visit *)

(** The loop body run over [rows] in order: the rows as the bodies left
    them, and the final state. *)
Fixpoint foldRows {A St : Type} (body : St -> A -> M (A * St)) (acc : St)
  (rows : list A) : M (list A * St) :=
  match rows with
  | [] => ret ([], acc)
  | x :: rows' =>
      '(x', acc') <- body acc x ;;
      '(ys, acc'') <- foldRows body acc' rows' ;;
      ret (x' :: ys, acc'')
  end.

(** [rows] with the rows that pass [f] replaced, in order, by [ys]. *)
Fixpoint patch {A : Type} (f : A -> bool) (rows ys : list A) : list A :=
  match rows with
  | [] => []
  | x :: rows' =>
      if f x then
        match ys with
        | y :: ys' => y :: patch f rows' ys'
        | [] => x :: rows'
        end
      else x :: patch f rows' ys
  end.

Definition passing {A : Type} (filt : option (A -> bool)) (x : A) : bool :=
  match filt with Some f => f x | None => true end.

(** The result set a loop leaves behind: the visited rows as the bodies
    left them, the cursor past the last row. *)
Definition afterLoop {A : Type} (res : ResultSet A) (ys : list A) : ResultSet A :=
  mkResultSet
    (firstn (current res) (results res) ++
     patch (passes res) (skipn (current res) (results res)) ys)
    (S (Nat.max (current res) (length (results res))))
    (rfilter res) (columns res) (scanValues res).

(** ** Vocabulary of the properties *)

(** The cells of a statistics row in the long form. *)
Definition statCells (rows : Z) (k : Z) (f : ColumnStat) : list value :=
  let n := Nat.min (Z.to_nat k) (length (csTopN f)) in
  [VString (csSchema f); VString (csTable f); VString (csName f);
   VInt (csAvgWidth f); VFloat (csNullFrac f); VInt (csNumDistinct f);
   VString (Fmt.Sprintf4 (distFrac rows (csNumDistinct f)));
   VString (csMin f); VString (csMax f); VString (csMean f);
   VString (Strings.Join (firstn n (csTopN f)) ", ");
   VString (Strings.Join (map Fmt.Sprintf4 (firstn n (csTopNFreqs f))) ", ")].

Definition sectionLabels : list string :=
  ["Indexes:" +:+ newline; "Check constraints:" +:+ newline;
   "Foreign-key constraints:" +:+ newline; "Referenced by:" +:+ newline;
   "Triggers:" +:+ newline].

Definition isSectionLabel (s : string) : bool :=
  existsb (String.eqb s) sectionLabels.

(** The section labels a trace writes, in the order it writes them. *)
Definition labelsOf (t : list Event) : list string :=
  List.filter isSectionLabel (writes t).

(** [m] writes at most the labels [L], in the order of [L]. *)
Definition emits {A : Type} (L : list string) (m : M A) : Prop :=
  sublist (labelsOf (fst m)) L.

(** The tables, sequences and indexes a pattern matches: the rows the three
    loops of [DescribeTableDetails] visit. *)
Definition matchedTables (w : IngresWriter) (sp tp : string) (showSystem : bool)
  : list Table :=
  match TableReader (r w), ColumnReader (r w) with
  | Some tr, Some _ =>
      match tr (mkFilter EmptyString sp EmptyString EmptyString tp [] showSystem) with
      | (Some res, None) =>
          remaining (if negb showSystem then SetFilter res (notSystem w tSchema)
                     else res)
      | _ => []
      end
  | _, _ => []
  end.

Definition matchedSequences (w : IngresWriter) (sp tp : string)
  (showSystem : bool) : list Sequence :=
  match SequenceReader (r w) with
  | Some sr =>
      match sr (mkFilter EmptyString sp EmptyString EmptyString tp [] showSystem) with
      | (Some res, err) =>
          match hardError err with None => remaining res | Some _ => [] end
      | _ => []
      end
  | None => []
  end.

Definition matchedIndexes (w : IngresWriter) (sp tp : string) (showSystem : bool)
  : list Index :=
  match IndexReader (r w), IndexColumnReader (r w) with
  | Some ir, Some _ =>
      match ir (mkFilter EmptyString sp EmptyString EmptyString tp [] showSystem) with
      | (Some res, err) =>
          match hardError err with
          | None =>
              remaining (if negb showSystem then SetFilter res (notSystem w iSchema)
                         else res)
          | Some _ => []
          end
      | _ => []
      end
  | _, _ => []
  end.

(** The filter of the function column query for one function. *)
Definition argFilter (f : Function) : Filter :=
  mkFilter (fnCatalog f) (fnSchema f) (fnSpecificName f) EmptyString EmptyString
    [] false.

(** The argument rows of a function column result: all but the result
    parameter, whose ordinal position is 0. *)
Definition argRows (cols : list FunctionColumn) : list FunctionColumn :=
  List.filter (fun c => negb (fcOrdinalPosition c =? 0)%Z) cols.

(** The argument types string the reader's function columns give a
    function. *)
Definition argTypesOf (rc : Filter -> QueryResult FunctionColumn) (f : Function)
  : string :=
  match rc (argFilter f) with
  | (Some cols, _) => Strings.Join (map argFragment (argRows (remaining cols))) ", "
  | (None, _) => EmptyString
  end.

Definition enrich (rc : Filter -> QueryResult FunctionColumn) (f : Function)
  : Function :=
  setArgTypes f (argTypesOf rc f).

(** The cells of a function row. *)
Definition functionCells (verbose : bool) (f : Function) : list value :=
  [VString (fnSchema f); VString (fnName f); VString (fnResultType f);
   VString (fnArgTypes f); VString (fnType f)] ++
  if verbose then
    [VString (fnVolatility f); VString (fnSecurity f); VString (fnLanguage f);
     VString (fnSource f)]
  else [].

(** The function rows a listing shows: all of them, or those outside the
    system schemas. *)
Definition shownFunctions (w : IngresWriter) (showSystem : bool)
  (rows : list Function) : list Function :=
  List.filter (fun f => showSystem || notSystem w fnSchema f) rows.

(** ** Sample catalogs *)

(** A query that succeeds with the given rows. *)
Definition fresh {A : Type} (rows : list A) : QueryResult A :=
  (Some (NewResultSet [] (fun _ => Returned []) rows), None).

(** A sample catalog: the table [public.orders] with one index, two check
    constraints besides a not-null check, one outgoing and one incoming
    foreign key, and one trigger. *)
Definition ordersConstraints : list Constraint :=
  [mkConstraint EmptyString "public" "orders" "orders_qty_check" "CHECK"
     "qty > 0" EmptyString EmptyString EmptyString;
   mkConstraint EmptyString "public" "orders" "orders_id_check" "CHECK"
     "id IS NOT NULL" EmptyString EmptyString EmptyString;
   mkConstraint EmptyString "public" "orders" "orders_customer_fkey"
     "FOREIGN KEY" EmptyString "customers" "NO ACTION" "CASCADE";
   mkConstraint EmptyString "public" "orders" "orders_price_check" "CHECK"
     "price >= 0" EmptyString EmptyString EmptyString].

Definition ordersIncoming : list Constraint :=
  [mkConstraint EmptyString "public" "items" "items_order_fkey" "FOREIGN KEY"
     EmptyString "orders" "NO ACTION" "CASCADE"].

Definition ordersConstraintQuery (f : Filter) : QueryResult Constraint :=
  if String.eqb (fReference f) EmptyString then fresh ordersConstraints
  else fresh ordersIncoming.

Definition ordersConstraintColumnQuery (f : Filter)
  : QueryResult ConstraintColumn :=
  if String.eqb (fName f) "orders_customer_fkey"
  then fresh [mkConstraintColumn "customer_id" "id";
              mkConstraintColumn "customer_region" "region"]
  else fresh [mkConstraintColumn "order_id" "id"].

Definition ordersReader : Reader :=
  mkReader
    (Some (fun _ => fresh
       [mkTable EmptyString "public" "orders" "TABLE" 100 "16 kB" EmptyString]))
    (Some (fun _ => fresh
       [mkColumn "id" "integer" "NO" EmptyString 4 0 10 0;
        mkColumn "qty" "integer" "YES" EmptyString 4 0 10 0]))
    (Some (fun f =>
       if String.eqb (fParent f) "orders" then
         fresh [mkIndex EmptyString "public" "orders" "orders_pkey" "YES" "YES"
                  "btree" EmptyString]
       else fresh []))
    (Some (fun _ => fresh [mkIndexColumn "id" "integer"]))
    (Some ordersConstraintQuery)
    (Some ordersConstraintColumnQuery)
    None
    (Some (fun _ => fresh [mkTrigger "orders_audit" "AFTER INSERT"]))
    None None None.

Definition ordersWriter : IngresWriter :=
  mkIngresWriter ordersReader
    [("t"%char, ["TABLE"; "BASE TABLE"]); ("v"%char, ["VIEW"])]
    [("n"%char, ["FUNCTION"])]
    {[ "information_schema" ]} ∅.

(** The same catalog behind a reader whose constraint query fails when it is
    asked for the foreign keys that reference a table. *)
Definition brokenReader : Reader :=
  mkReader (TableReader ordersReader) (ColumnReader ordersReader)
    (IndexReader ordersReader) (IndexColumnReader ordersReader)
    (Some (fun f =>
       if String.eqb (fReference f) EmptyString then fresh ordersConstraints
       else (None, Some (ErrQuery "connection lost"))))
    (ConstraintColumnReader ordersReader) None (TriggerReader ordersReader)
    None None None.

Definition brokenWriter : IngresWriter :=
  mkIngresWriter brokenReader (tableTypes ordersWriter) (funcTypes ordersWriter)
    (systemSchemas ordersWriter) (Pall ordersWriter).

(** A reader with a table and a column capability that knows one view, of a
    system schema. *)
Definition systemTables (_ : Filter) : QueryResult Table :=
  fresh [mkTable EmptyString "information_schema" "tables" "VIEW" 0 EmptyString
           EmptyString].

Definition systemOnlyWriter : IngresWriter :=
  mkIngresWriter
    (mkReader (Some systemTables) (Some (fun _ => fresh [])) None None None None
       None None None None None)
    (tableTypes ordersWriter) (funcTypes ordersWriter)
    (systemSchemas ordersWriter) (Pall ordersWriter).

(** A catalog of functions: two in the schema [public], one in a system
    schema; the function columns of [add] are its result and two named
    arguments, those of [split] an unnamed argument and an output. *)
Definition sampleFunctions : list Function :=
  [mkFunction EmptyString "public" "add" "integer" EmptyString "FUNCTION"
     EmptyString EmptyString "sql" EmptyString "add_1";
   mkFunction EmptyString "information_schema" "sysfn" "text" EmptyString
     "FUNCTION" EmptyString EmptyString "c" EmptyString "sysfn_1";
   mkFunction EmptyString "public" "split" "record" EmptyString "PROCEDURE"
     EmptyString EmptyString "sql" EmptyString "split_1"].

Definition sampleFunctionQuery (_ : Filter) : QueryResult Function :=
  fresh sampleFunctions.

Definition sampleFunctionColumnQuery (f : Filter) : QueryResult FunctionColumn :=
  if String.eqb (fParent f) "add_1" then
    fresh [mkFunctionColumn EmptyString "OUT" "integer" 0;
           mkFunctionColumn "a" "IN" "integer" 1;
           mkFunctionColumn "b" EmptyString "integer" 2]
  else
    fresh [mkFunctionColumn EmptyString "IN" "text" 1;
           mkFunctionColumn "parts" "OUT" "integer" 2].

Definition functionsWriter : IngresWriter :=
  mkIngresWriter
    (mkReader None None None None None None None None
       (Some sampleFunctionQuery) (Some sampleFunctionColumnQuery) None)
    (tableTypes ordersWriter) (funcTypes ordersWriter)
    (systemSchemas ordersWriter) (Pall ordersWriter).

(** Column statistics of [public.orders], a table of 100 rows: ten top
    values with their frequencies for [status], none for [id]. *)
Definition tenth (n : Z) : Fmt.float64 := Fmt.div (Fmt.of_int64 n) (Fmt.of_int64 1000).

Definition sampleStats : list ColumnStat :=
  [mkColumnStat "public" "orders" "status" 8 (tenth 0) 25 "a" "j" EmptyString
     ["a"; "b"; "c"; "d"; "e"; "f"; "g"; "h"; "i"; "j"]
     (map tenth [300; 200; 125; 100; 75; 60; 50; 40; 30; 20]%Z);
   mkColumnStat "public" "orders" "id" 4 (tenth 0) 100 "1" "100" "50.5" [] []].

Definition sampleStatQuery (_ : Filter) : QueryResult ColumnStat :=
  fresh sampleStats.

Definition statsWriter : IngresWriter :=
  mkIngresWriter
    (mkReader (TableReader ordersReader) None None None None None None None None
       None (Some sampleStatQuery))
    (tableTypes ordersWriter) (funcTypes ordersWriter)
    (systemSchemas ordersWriter) (Pall ordersWriter).

(** A reader with an index capability and no index column capability. *)
Definition indexOnlyWriter : IngresWriter :=
  mkIngresWriter
    (mkReader None None (IndexReader ordersReader) None None None None None None
       None None)
    (tableTypes ordersWriter) (funcTypes ordersWriter)
    (systemSchemas ordersWriter) (Pall ordersWriter).

(** ** The other commands of the writer *)

(** Modelled from the spec: the entity records of the metadata package the
    other commands read.  The two privilege lists of a privilege summary are
    kept as the cells the encoder gets. *)
Record Schema : Type := mkSchema { scSchema : string }.

Record Catalog : Type := mkCatalog { caCatalog : string }.

Record PrivilegeSummary : Type := mkPrivilegeSummary {
  psSchema : string; psName : string; psObjectType : string;
  psObjectPrivileges : value; psColumnPrivileges : value
}.

(** The capabilities of the reader [w.r] that the other commands assert. *)
Record MoreReaders : Type := mkMoreReaders {
  SchemaReader : option (Filter -> QueryResult Schema);
  CatalogReader : option (Filter -> QueryResult Catalog);
  PrivilegeSummaryReader : option (Filter -> QueryResult PrivilegeSummary)
}.

(** [IngresWriter] with the capabilities above and its [listAllDbs] field,
    a function or [nil]. *)
Record FullWriter : Type := mkFullWriter {
  core : IngresWriter;
  more : MoreReaders;
  listAllDbs : option (string -> bool -> M unit)
}.

(** A query through one of the capabilities above; the trace has no event
    for it. *)
Definition callReader {A : Type} (rd : Filter -> QueryResult A) (f : Filter)
  : M (QueryResult A) :=
  ret (rd f).

Definition ListAllDbs (w : FullWriter) (driver pattern : string) (verbose : bool)
  : M unit :=
  match listAllDbs w with
  | Some f => f pattern verbose
  | None =>
      match CatalogReader (more w) with
      | None => fail (ErrNotSupportedByDriver "\l" driver)
      | Some rd =>
          '(res, err) <- callReader rd
            (mkFilter EmptyString EmptyString EmptyString EmptyString pattern []
               false) ;;
          match err with
          | Some e => fail (ErrWrap "failed to list catalogs" e)
          | None =>
              res <- deref res ;;
              EncodeAll res (<["title" := "List of databases"]> (Pall (core w)))
          end
      end
  end.

Definition ListSchemas (w : FullWriter) (driver pattern : string)
  (verbose showSystem : bool) : M unit :=
  match SchemaReader (more w) with
  | None => fail (ErrNotSupportedByDriver "\d" driver)
  | Some rd =>
      '(res, err) <- callReader rd
        (mkFilter EmptyString EmptyString EmptyString EmptyString pattern []
           showSystem) ;;
      match err with
      | Some e => fail (ErrWrap "failed to list schemas" e)
      | None =>
          res <- deref res ;;
          let res :=
            if negb showSystem then SetFilter res (notSystem (core w) scSchema)
            else res in
          EncodeAll res (<["title" := "List of schemas"]> (Pall (core w)))
      end
  end.

Definition indexColumns (verbose : bool) : list string :=
  (["Schema"; "Name"; "Type"; "Table"] ++
   if verbose then ["Primary?"; "Unique?"] else [])%list.

Definition indexScan (verbose : bool) (f : Index) : outcome (list value) :=
  Returned
    ([VString (iSchema f); VString (iName f); VString (iType f);
      VString (iTable f)] ++
     if verbose then [VString (iIsPrimary f); VString (iIsUnique f)] else [])%list.

Definition ListIndexes (w : IngresWriter) (driver pattern : string)
  (verbose showSystem : bool) : M unit :=
  match IndexReader (r w) with
  | None => fail (ErrNotSupportedByDriver "\di" driver)
  | Some rd =>
      '(sp, tp) <- wrap "failed to parse search pattern" (lift (parsePattern pattern)) ;;
      '(res, err) <- doQuery QIndexes rd
        (mkFilter EmptyString sp EmptyString EmptyString tp [] showSystem) ;;
      match err with
      | Some e => fail (ErrWrap "failed to list indexes" e)
      | None =>
          res <- deref res ;;
          let res :=
            if negb showSystem then SetFilter res (notSystem w iSchema)
            else res in
          if (Len res =? 0)%nat then
            Fprint (RelationNotFound pattern) ;;
            Fprint newline ;;
            ret tt
          else
            let res := SetColumns res (indexColumns verbose) in
            let res := SetScanValues res (indexScan verbose) in
            EncodeAll res (<["title" := "List of indexes"]> (Pall w))
      end
  end.

Definition privilegeScan (f : PrivilegeSummary) : outcome (list value) :=
  Returned
    [VString (psSchema f); VString (psName f); VString (psObjectType f);
     psObjectPrivileges f; psColumnPrivileges f].

Definition ListPrivilegeSummaries (w : FullWriter) (driver pattern : string)
  (showSystem : bool) : M unit :=
  match PrivilegeSummaryReader (more w) with
  | None => fail (ErrNotSupportedByDriver "\dp" driver)
  | Some rd =>
      '(sp, tp) <- wrap "failed to parse search pattern" (lift (parsePattern pattern)) ;;
      (* filter for tables, views and sequences *)
      let types := selectTypes (tableTypes (core w)) "tvms" in
      '(res, err) <- callReader rd
        (mkFilter EmptyString sp EmptyString EmptyString tp types showSystem) ;;
      match err with
      | Some e => fail (ErrWrap "failed to list table privileges" e)
      | None =>
          res <- deref res ;;
          let res :=
            if negb showSystem then SetFilter res (notSystem (core w) psSchema)
            else res in
          let res := SetScanValues res privilegeScan in
          EncodeAll res (<["title" := "Access privileges"]> (Pall (core w)))
      end
  end.

(** ** The constructor of the writer and its options *)

(** [WriterOption]: a function that changes the writer under
    construction. *)
Definition WriterOption : Type := FullWriter -> FullWriter.

Definition setSystemSchemas (w : IngresWriter) (schemas : gset string)
  : IngresWriter :=
  mkIngresWriter (r w) (tableTypes w) (funcTypes w) schemas (Pall w).

(** [WithSystemSchemas]: a new map with one key for each schema of the
    list. *)
Definition WithSystemSchemas (schemas : list string) : WriterOption :=
  fun w =>
    mkFullWriter
      (setSystemSchemas (core w)
         (fold_left (fun m s => {[ s ]} ∪ m) schemas ∅))
      (more w) (listAllDbs w).

Definition WithListAllDbs (f : option (string -> bool -> M unit)) : WriterOption :=
  fun w => mkFullWriter (core w) (more w) f.

Definition defaultTableTypes : list (ascii * list string) :=
  [("t"%char, ["TABLE"; "BASE TABLE"; "SYSTEM TABLE"; "SYNONYM";
               "LOCAL TEMPORARY"; "GLOBAL TEMPORARY"]);
   ("v"%char, ["VIEW"; "SYSTEM VIEW"]);
   ("s"%char, ["SEQUENCE"])].

Definition defaultFuncTypes : list (ascii * list string) :=
  [("a"%char, ["AGGREGATE"]); ("n"%char, ["FUNCTION"]); ("p"%char, ["PROCEDURE"]);
   ("t"%char, ["TRIGGER"]); ("w"%char, ["WINDOW"])].

(** [NewIngresWriter]: the default writer over the reader, changed by the
    options in their order.  The print parameters are those of the
    environment. *)
Definition NewIngresWriter (rd : Reader) (rest : MoreReaders)
  (pall : gmap string string) (opts : list WriterOption) : FullWriter :=
  fold_left (fun w o => o w) opts
    (mkFullWriter
       (mkIngresWriter rd defaultTableTypes defaultFuncTypes
          {[ "information_schema" ]} pall)
       rest None).

(** ** The registration of the driver *)

(** [Version] and [User] of the driver: one row queried and scanned into
    [out]; [db] answers the scanned string and the error of the scan. *)
Definition dbmsinfo (db : string -> string * option error) (query : string)
  : string * option error :=
  let (out, err) := db query in
  let out :=
    match err with
    | Some _ => "<unknown>"
    | None => if String.eqb out EmptyString then "<unknown>" else out
    end in
  (out, None).

Definition Version (db : string -> string * option error) : string * option error :=
  dbmsinfo db "SELECT DBMSINFO('_VERSION');".

Definition User (db : string -> string * option error) : string * option error :=
  dbmsinfo db "SELECT DBMSINFO('username');".

(** ** The test helpers of the ClickHouse reader *)

(** One [t.Errorf] of [checkNames]. *)
Inductive TestError : Type :=
| AlreadyDeclared (typ name : string)
| Missing (typ name : string)
| Unexpected (typ name : string).

(** The argument of [checkNames] and [getName]: a result set of one of the
    four kinds [getName] knows, or of another kind. *)
Inductive AnySet : Type :=
| SchemaSet (res : ResultSet Schema)
| TableSet (res : ResultSet Table)
| FunctionSet (res : ResultSet Function)
| ColumnSet (res : ResultSet Column)
| OtherSet (res : ResultSet unit).

Definition NextAny (res : AnySet) : bool * AnySet :=
  match res with
  | SchemaSet x => let (b, x') := Next x in (b, SchemaSet x')
  | TableSet x => let (b, x') := Next x in (b, TableSet x')
  | FunctionSet x => let (b, x') := Next x in (b, FunctionSet x')
  | ColumnSet x => let (b, x') := Next x in (b, ColumnSet x')
  | OtherSet x => let (b, x') := Next x in (b, OtherSet x')
  end.

Definition bufferLength (res : AnySet) : nat :=
  match res with
  | SchemaSet x => length (results x)
  | TableSet x => length (results x)
  | FunctionSet x => length (results x)
  | ColumnSet x => length (results x)
  | OtherSet x => length (results x)
  end.

Definition nameOf {A : Type} (name : A -> string) (o : outcome A) : outcome string :=
  match o with
  | Returned x => Returned (name x)
  | Failed e => Failed e
  | Panicked => Panicked
  end.

(** [getName]: the name of the current row; a panic for a set of an unknown
    type. *)
Definition getName (res : AnySet) : outcome string :=
  match res with
  | SchemaSet x => nameOf scSchema (Get x)
  | TableSet x => nameOf tName (Get x)
  | FunctionSet x => nameOf fnName (Get x)
  | ColumnSet x => nameOf cName (Get x)
  | OtherSet _ => Panicked
  end.

(** The body of the first loop of [checkNames] for one name. *)
Definition declare (typ : string) (st : gset string * list TestError)
  (name : string) : gset string * list TestError :=
  (({[ name ]} ∪ fst st),
   if bool_decide (name ∈ fst st)
   then (snd st ++ [AlreadyDeclared typ name])%list else snd st).

Fixpoint namesLoop (fuel : nat) (typ : string) (res : AnySet)
  (st : gset string * list TestError) : M (gset string * list TestError) :=
  match fuel with
  | O => panic
  | S fuel' =>
      let (more, res1) := NextAny res in
      if more then
        name <- lift (getName res1) ;;
        namesLoop fuel' typ res1 (declare typ st name)
      else ret st
  end.

(** [checkNames]: the names the set yields against the expected ones.  The
    two [range] loops over the maps visit their keys in some order; here it
    is the order of [elements]. *)
Definition checkNames (typ : string) (res : AnySet) (exp : list string)
  : M (list TestError) :=
  let n := fold_left (fun m s => {[ s ]} ∪ m) exp (∅ : gset string) in
  '(names, errs) <- namesLoop (S (bufferLength res)) typ res (∅, []) ;;
  let missing :=
    List.filter (fun name => negb (bool_decide (name ∈ names))) (elements n) in
  let unexpected :=
    List.filter (fun name => negb (bool_decide (name ∈ n))) (elements names) in
  ret (errs ++ map (Missing typ) missing ++ map (Unexpected typ) unexpected)%list.

(** ** Vocabulary of the further properties *)

(** The rows a listing shows: all of them, or those outside the system
    schemas. *)
Definition shownRows {A : Type} (w : IngresWriter) (schema : A -> string)
  (showSystem : bool) (rows : list A) : list A :=
  List.filter (fun x => showSystem || notSystem w schema x) rows.

(** The cells of a table row, of an index row and of a privilege row. *)
Definition tableCells (verbose : bool) (f : Table) : list value :=
  ([VString (tName f); VString (tType f)] ++
   if verbose then [VInt (tRows f); VString (tSize f); VString (tComment f)]
   else [])%list.

Definition indexCells (verbose : bool) (f : Index) : list value :=
  ([VString (iSchema f); VString (iName f); VString (iType f);
    VString (iTable f)] ++
   if verbose then [VString (iIsPrimary f); VString (iIsUnique f)] else [])%list.

Definition privilegeCells (f : PrivilegeSummary) : list value :=
  [VString (psSchema f); VString (psName f); VString (psObjectType f);
   psObjectPrivileges f; psColumnPrivileges f].

(** The cells of a statistics row in the short form. *)
Definition statBasicCells (rows : Z) (f : ColumnStat) : list value :=
  [VString (csSchema f); VString (csTable f); VString (csName f);
   VInt (csAvgWidth f); VFloat (csNullFrac f); VInt (csNumDistinct f);
   VString (Fmt.Sprintf4 (distFrac rows (csNumDistinct f)))].

(** The filters of the column queries for one index and one constraint. *)
Definition indexColumnFilter (i : Index) : Filter :=
  mkFilter (iCatalog i) (iSchema i) (iTable i) EmptyString (iName i) [] false.

Definition constraintColumnFilter (c : Constraint) : Filter :=
  mkFilter (kCatalog c) (kSchema c) (kTable c) EmptyString (kName c) [] false.

(** The column names the reader's index columns give an index, joined. *)
Definition indexColumnsOf (rc : Filter -> QueryResult IndexColumn) (i : Index)
  : string :=
  match rc (indexColumnFilter i) with
  | (Some cols, _) => Strings.Join (map icName (remaining cols)) ", "
  | (None, _) => EmptyString
  end.

(** The two column lists the reader's constraint columns give a
    constraint, joined. *)
Definition constraintColumnsOf (rc : Filter -> QueryResult ConstraintColumn)
  (c : Constraint) : string * string :=
  match rc (constraintColumnFilter c) with
  | (Some cols, _) =>
      (Strings.Join (map ccName (remaining cols)) ", ",
       Strings.Join (map ccForeignName (remaining cols)) ", ")
  | (None, _) => (EmptyString, EmptyString)
  end.

(** The cells of a column row. *)
Definition columnCells (verbose : bool) (f : Column) : list value :=
  ([VString (cName f); VString (cDataType f); VString (cIsNullable f);
    VString (cDefault f)] ++
   if verbose then
     [VInt (cColumnSize f); VInt (cDecimalDigits f); VInt (cNumPrecRadix f);
      VInt (cCharOctetLength f)]
   else [])%list.

(** The print parameters of one sequence. *)
Definition sequenceParams (w : IngresWriter) (s : Sequence) : gmap string string :=
  <["title" := "Sequence " +:+ quoted (sSchema s +:+ "." +:+ sName s) +:+ newline]>
    (<["footer" := "off"]> (Pall w)).

(** The filter of the index column query of [describeIndex], which names
    no catalog. *)
Definition describeIndexFilter (i : Index) : Filter :=
  mkFilter EmptyString (iSchema i) (iTable i) EmptyString (iName i) [] false.

(** What [describeIndex] prints for an index with the columns [rows]. *)
Definition indexDescription (w : IngresWriter) (i : Index)
  (rows : list IndexColumn) : list Event :=
  match rows with
  | [] => []
  | _ =>
      [EvEncode
         (<["title" := "Index " +:+ qualifiedIdentifier (iSchema i) (iName i)
                       +:+ newline]> (Pall w))
         ["Name"; "Type"]
         (map (fun c => [VString (icName c); VString (icDataType c)]) rows);
       EvWrite (indexSummaryLine i)]
  end.



(** The two options of the package. *)
Inductive packageOption : WriterOption -> Prop :=
| optSystemSchemas (schemas : list string) :
    packageOption (WithSystemSchemas schemas)
| optListAllDbs (f : option (string -> bool -> M unit)) :
    packageOption (WithListAllDbs f).

(** ** Further sample catalogs *)

(** Two sequences, one of them in a system schema. *)
Definition sampleSequences : list Sequence :=
  [mkSequence "public" "orders_id_seq" [VString "bigint"; VInt 1; VInt 1];
   mkSequence "information_schema" "sys_seq" [VString "integer"; VInt 1; VInt 10]].

Definition sequencesWriter : IngresWriter :=
  mkIngresWriter
    (mkReader None None None None None None (Some (fun _ => fresh sampleSequences))
       None None None None)
    (tableTypes ordersWriter) (funcTypes ordersWriter)
    (systemSchemas ordersWriter) (Pall ordersWriter).

(** Two indexes of [public.orders]: a primary key on [id], and an
    expression index for which the reader knows no column. *)
Definition sampleIndexes : list Index :=
  [mkIndex EmptyString "public" "orders" "orders_pkey" "YES" "YES" "btree"
     EmptyString;
   mkIndex EmptyString "public" "orders" "orders_expr_idx" "NO" "NO" "btree"
     EmptyString].

Definition sampleIndexColumns (i : Index) : list IndexColumn :=
  if String.eqb (iName i) "orders_pkey" then [mkIndexColumn "id" "integer"]
  else [].

Definition sampleIndexColumnQuery (f : Filter) : QueryResult IndexColumn :=
  if String.eqb (fName f) "orders_pkey" then fresh [mkIndexColumn "id" "integer"]
  else fresh [].

Definition indexesWriter : IngresWriter :=
  mkIngresWriter
    (mkReader None None (Some (fun _ => fresh sampleIndexes))
       (Some sampleIndexColumnQuery) None None None None None None None)
    (tableTypes ordersWriter) (funcTypes ordersWriter)
    (systemSchemas ordersWriter) (Pall ordersWriter).

(** The same indexes behind a reader whose index column query is not
    supported. *)
Definition brokenIndexWriter : IngresWriter :=
  mkIngresWriter
    (mkReader None None (Some (fun _ => fresh sampleIndexes))
       (Some (fun _ => (None, Some ErrNotSupported))) None None None None None
       None None)
    (tableTypes ordersWriter) (funcTypes ordersWriter)
    (systemSchemas ordersWriter) (Pall ordersWriter).

(** A reader with the sequence and the index capabilities whose queries
    are not supported. *)
Definition unsupportedWriter : IngresWriter :=
  mkIngresWriter
    (mkReader None None (Some (fun _ => (None, Some ErrNotSupported)))
       (Some (fun _ => fresh [])) None None
       (Some (fun _ => (None, Some ErrNotSupported))) None None None None)
    (tableTypes ordersWriter) (funcTypes ordersWriter)
    (systemSchemas ordersWriter) (Pall ordersWriter).

(** The sample functions behind a reader without function columns. *)
Definition plainFunctionsWriter : IngresWriter :=
  mkIngresWriter
    (mkReader None None None None None None None None
       (Some sampleFunctionQuery) None None)
    (tableTypes ordersWriter) (funcTypes ordersWriter)
    (systemSchemas ordersWriter) (Pall ordersWriter).


(* ================================================================= *)
(** * Properties *)

Local Open Scope list_scope.

(** ** The loop of a result set is a fold over its remaining rows *)

Lemma insert_middle {A} (pre : list A) x y suf :
  <[length pre := y]> (pre ++ x :: suf) = pre ++ y :: suf.
Proof. induction pre as [|a pre IH]; simpl; [reflexivity | now rewrite IH]. Qed.

Lemma skipn_middle {A} (pre suf : list A) : skipn (length pre) (pre ++ suf) = suf.
Proof. induction pre; simpl; auto. Qed.

Lemma index_middle {A} (pre : list A) x suf :
  index (pre ++ x :: suf) (length pre) = Returned x.
Proof. unfold index. induction pre; simpl; auto. Qed.

Lemma Next_skip {A} (pre : list A) x suf filt cols scan :
  passing filt x = false ->
  Next (mkResultSet (pre ++ x :: suf) (length pre) filt cols scan) =
  Next (mkResultSet ((pre ++ [x]) ++ suf) (length (pre ++ [x])) filt cols scan).
Proof.
  intros Hx. unfold Next. cbn [results current rfilter columns scanValues].
  rewrite !skipn_middle. cbn [advance].
  change (passes (mkResultSet (pre ++ x :: suf) (length pre) filt cols scan))
    with (passing filt).
  change (passes (mkResultSet ((pre ++ [x]) ++ suf) (length (pre ++ [x])) filt cols scan))
    with (passing filt).
  rewrite Hx. rewrite <- !app_assoc. cbn [app].
  rewrite !length_app. cbn [length]. rewrite Nat.add_1_r. reflexivity.
Qed.

Lemma forNext_spec {A St} (body : St -> A -> M (A * St)) filt cols scan :
  forall (suf pre : list A) (fuel : nat) (acc : St),
  (length suf < fuel)%nat ->
  forNext fuel (mkResultSet (pre ++ suf) (length pre) filt cols scan) acc body =
  ('(ys, acc') <- foldRows body acc (List.filter (passing filt) suf) ;;
   ret (mkResultSet (pre ++ patch (passing filt) suf ys)
          (S (length (pre ++ suf))) filt cols scan, acc')).
Proof.
  induction suf as [|x suf IH]; intros pre fuel acc Hfuel.
  - destruct fuel as [|fuel]; [simpl in Hfuel; lia|].
    cbn [forNext]. unfold Next. cbn [results current rfilter columns scanValues].
    rewrite skipn_middle. cbn [advance List.filter foldRows].
    replace (S (length pre) <=? length (pre ++ []))%nat with false
      by (symmetry; apply Nat.leb_gt; rewrite length_app; simpl; lia).
    cbn [bind ret patch app]. rewrite !app_nil_r. reflexivity.
  - destruct fuel as [|fuel]; [simpl in Hfuel; lia|].
    simpl in Hfuel. cbn [List.filter].
    destruct (passing filt x) eqn:Hx.
    + cbn [forNext]. unfold Next.
      cbn [results current rfilter columns scanValues].
      rewrite skipn_middle. cbn [advance].
      change (passes (mkResultSet (pre ++ x :: suf) (length pre) filt cols scan) x)
        with (passing filt x).
      rewrite Hx.
      replace (S (length pre) <=? length (pre ++ x :: suf))%nat with true
        by (symmetry; apply Nat.leb_le; rewrite length_app; simpl; lia).
      unfold Get. cbn [current results]. rewrite index_middle.
      cbn [foldRows]. unfold lift, bind at 1. cbn [app].
      destruct (body acc x) as [t [[x' acc']|e|]]; cbn [bind]; try reflexivity.
      unfold Put. cbn [results current rfilter columns scanValues pred].
      rewrite insert_middle.
      specialize (IH (pre ++ [x']) fuel acc').
      rewrite <- !app_assoc in IH. cbn [app] in IH.
      rewrite length_app in IH. cbn [length] in IH.
      rewrite Nat.add_1_r in IH. rewrite IH by lia. clear IH.
      cbn [patch]. rewrite Hx.
      destruct (foldRows body acc' (List.filter (passing filt) suf)) as [t' [[ys acc'']|e|]];
        cbn [bind ret]; try reflexivity.
      rewrite !length_app. cbn [length]. rewrite <- ?app_assoc. reflexivity.
    + specialize (IH (pre ++ [x]) (S fuel) acc).
      transitivity
        (forNext (S fuel)
           (mkResultSet ((pre ++ [x]) ++ suf) (length (pre ++ [x])) filt cols scan)
           acc body).
      * cbn [forNext]. rewrite (Next_skip pre x suf filt cols scan Hx). reflexivity.
      * rewrite IH by lia.
        destruct (foldRows body acc (List.filter (passing filt) suf))
          as [t' [[ys acc'']|e|]]; cbn [bind ret]; try reflexivity.
        cbn [patch]. rewrite Hx. rewrite <- !app_assoc. reflexivity.
Qed.

Lemma rangeNext_spec {A St} (res : ResultSet A) (acc : St) body :
  rangeNext res acc body =
  ('(ys, acc') <- foldRows body acc (remaining res) ;;
   ret (afterLoop res ys, acc')).
Proof.
  destruct res as [rows c filt cols scan].
  unfold rangeNext, remaining, afterLoop.
  cbn [results current rfilter columns scanValues].
  change (passes (mkResultSet rows c filt cols scan)) with (passing filt).
  destruct (Nat.le_gt_cases c (length rows)) as [Hc|Hc].
  - pose proof (forNext_spec body filt cols scan (skipn c rows) (firstn c rows)
                  (S (length rows)) acc) as H.
    rewrite firstn_skipn in H. rewrite length_firstn in H.
    rewrite Nat.min_l in H by exact Hc.
    rewrite H by (rewrite length_skipn; lia).
    rewrite Nat.max_r by exact Hc. reflexivity.
  - cbn [forNext]. unfold Next.
    cbn [results current rfilter columns scanValues].
    rewrite skipn_all2 by lia. cbn [advance List.filter foldRows].
    replace (S c <=? length rows)%nat with false
      by (symmetry; apply Nat.leb_gt; lia).
    cbn [bind ret patch app]. rewrite firstn_all2 by lia.
    rewrite app_nil_r. rewrite Nat.max_l by lia. reflexivity.
Qed.

(** ** The monad laws, and the trace and the outcome of [bind] *)

Lemma bind_ret_l {A B} (a : A) (k : A -> M B) : bind (ret a) k = k a.
Proof. unfold bind, ret. destruct (k a). reflexivity. Qed.

Lemma bind_ret_r {A} (m : M A) : bind m ret = m.
Proof.
  destruct m as [t [a|e|]]; cbn [bind ret]; try reflexivity.
  now rewrite app_nil_r.
Qed.

Lemma bind_assoc {A B C} (m : M A) (f : A -> M B) (g : B -> M C) :
  bind (bind m f) g = bind m (fun x => bind (f x) g).
Proof.
  destruct m as [t [a|e|]]; cbn [bind]; try reflexivity.
  destruct (f a) as [t1 [b|e|]]; cbn [bind]; try reflexivity.
  destruct (g b) as [t2 o]. now rewrite app_assoc.
Qed.

Lemma bind_trace {A B} (m : M A) (k : A -> M B) :
  fst (bind m k) =
  match snd m with
  | Returned a => fst m ++ fst (k a)
  | _ => fst m
  end.
Proof.
  destruct m as [t [a|e|]]; cbn [bind fst snd]; try reflexivity.
  destruct (k a); reflexivity.
Qed.

Lemma bind_outcome {A B} (m : M A) (k : A -> M B) :
  snd (bind m k) =
  match snd m with
  | Returned a => snd (k a)
  | Failed e => Failed e
  | Panicked => Panicked
  end.
Proof.
  destruct m as [t [a|e|]]; cbn [bind fst snd]; try reflexivity.
  destruct (k a); reflexivity.
Qed.

(** ** Strings *)

Lemma append_nil_l (s : string) : EmptyString +:+ s = s.
Proof. reflexivity. Qed.

Lemma append_cons (x : ascii) (a s : string) :
  String x a +:+ s = String x (a +:+ s).
Proof. reflexivity. Qed.

Lemma IndexByte_none s c :
  Strings.IndexByte s c = None <-> forall i, String.get i s <> Some c.
Proof.
  induction s as [|x s IH]; cbn [Strings.IndexByte].
  - split; [intros _ i; destruct i; discriminate | reflexivity].
  - destruct (Ascii.eqb x c) eqn:E.
    + apply Ascii.eqb_eq in E. subst x. split; [discriminate|].
      intros H. exfalso. apply (H 0%nat). reflexivity.
    + apply Ascii.eqb_neq in E.
      destruct (Strings.IndexByte s c) eqn:Hi.
      * split; [discriminate|]. intros H. exfalso.
        destruct IH as [_ IH].
        enough (Some n = None) by discriminate.
        apply IH. intros i. apply (H (S i)).
      * split; [|reflexivity]. intros _ i. destruct i as [|i]; cbn [String.get].
        -- intros [= ->]. now apply E.
        -- now apply IH.
Qed.

Lemma IndexByte_first a c b :
  (forall i, String.get i a <> Some c) ->
  Strings.IndexByte (a +:+ String c b) c = Some (String.length a).
Proof.
  induction a as [|x a IH]; intros H;
    rewrite ?append_nil_l, ?append_cons; cbn [Strings.IndexByte String.length].
  - now rewrite Ascii.eqb_refl.
  - destruct (Ascii.eqb x c) eqn:E.
    + apply Ascii.eqb_eq in E. subst x. exfalso. apply (H 0%nat). reflexivity.
    + rewrite IH; [reflexivity|]. intros i. apply (H (S i)).
Qed.

Lemma IndexByte_split s c m :
  Strings.IndexByte s c = Some m ->
  exists a b, s = a +:+ String c b /\ String.length a = m /\
              forall i, String.get i a <> Some c.
Proof.
  revert m. induction s as [|x s IH]; intros m; cbn [Strings.IndexByte]; [discriminate|].
  destruct (Ascii.eqb x c) eqn:E.
  - intros [= <-]. apply Ascii.eqb_eq in E. subst x.
    exists EmptyString, s. repeat split. intros i; destruct i; discriminate.
  - destruct (Strings.IndexByte s c) as [i|]; [|discriminate].
    intros [= <-]. destruct (IH i eq_refl) as (a & b & -> & Hl & Hn).
    exists (String x a), b. repeat split; [cbn; now rewrite Hl|].
    intros [|j]; cbn [String.get]; [|apply Hn].
    intros [= ->]. apply Ascii.eqb_neq in E. now apply E.
Qed.

Lemma substring_prefix a b :
  substring 0 (String.length a) (a +:+ b) = a.
Proof.
  induction a as [|x a IH]; rewrite ?append_nil_l, ?append_cons; cbn.
  - destruct b; reflexivity.
  - now rewrite IH.
Qed.

Lemma substring_full b : substring 0 (String.length b) b = b.
Proof. induction b as [|x b IH]; cbn; [reflexivity | now rewrite IH]. Qed.

Lemma substring_suffix a c b :
  substring (S (String.length a)) (String.length (a +:+ String c b) - S (String.length a))
    (a +:+ String c b) = b.
Proof.
  induction a as [|x a IH]; rewrite ?append_nil_l, ?append_cons;
    cbn [String.length substring].
  - cbn. rewrite Nat.sub_0_r. apply substring_full.
  - exact IH.
Qed.

Lemma star_length s : String.length (star s) = String.length s.
Proof. unfold star. induction s; cbn; congruence. Qed.

Lemma star_get s i :
  String.get i (star s) =
  option_map (fun c => if Ascii.eqb c "*" then "%"%char else c) (String.get i s).
Proof.
  unfold star. revert i. induction s as [|x s IH]; intros [|i]; cbn; auto.
Qed.

Lemma parsePattern_dot a b :
  (forall i, String.get i a <> Some "."%char) ->
  parsePattern (a +:+ String "." b) = Returned (star a, star b).
Proof.
  intros H. unfold parsePattern, Strings.ContainsRune, Strings.SplitN2.
  rewrite (IndexByte_first a "." b H). cbn [index nth_error].
  now rewrite substring_prefix, substring_suffix.
Qed.

Lemma parsePattern_nodot s :
  (forall i, String.get i s <> Some "."%char) ->
  parsePattern s = Returned (EmptyString, star s).
Proof.
  intros H. unfold parsePattern, Strings.ContainsRune.
  apply IndexByte_none in H. now rewrite H.
Qed.

Lemma parsePattern_total pattern :
  exists sp tp, parsePattern pattern = Returned (sp, tp).
Proof.
  destruct (Strings.IndexByte pattern ".") as [m|] eqn:E.
  - apply IndexByte_split in E. destruct E as (a & b & -> & _ & Hn).
    exists (star a), (star b). now apply parsePattern_dot.
  - exists EmptyString, (star pattern). apply parsePattern_nodot.
    now apply IndexByte_none.
Qed.

(** C3. For every input, [parsePattern] returns, without an error and
    without a panic.  An input with a dot is split at its first dot into the
    schema fragment and the name fragment; an input without one is the name
    fragment, under the empty schema fragment.  In each fragment every star
    is a percent sign and every other byte is as it was.  The three
    patterns of the specification parse as it says. *)
Theorem parsePattern_spec (pattern : string) :
  (exists sp tp, parsePattern pattern = Returned (sp, tp)) /\
  (forall a b,
     pattern = a +:+ String "." b ->
     (forall i, String.get i a <> Some "."%char) ->
     parsePattern pattern = Returned (star a, star b)) /\
  ((forall i, String.get i pattern <> Some "."%char) ->
   parsePattern pattern = Returned (EmptyString, star pattern)) /\
  (forall s,
     String.length (star s) = String.length s /\
     forall i, String.get i (star s) =
               option_map (fun c => if Ascii.eqb c "*" then "%"%char else c)
                 (String.get i s)) /\
  parsePattern "tutorial.hits_v1" = Returned ("tutorial", "hits_v1") /\
  parsePattern "hits_v1" = Returned (EmptyString, "hits_v1") /\
  parsePattern "tut*.h*" = Returned ("tut%", "h%").
Proof.
  split; [apply parsePattern_total|].
  split; [intros a b -> H; now apply parsePattern_dot|].
  split; [apply parsePattern_nodot|].
  split; [intros s; split; [apply star_length | apply star_get]|].
  repeat split; reflexivity.
Qed.

(** ** Suffixes *)

Lemma length_append (a b : string) :
  String.length (a +:+ b) = (String.length a + String.length b)%nat.
Proof.
  induction a as [|x a IH]; [reflexivity|].
  rewrite append_cons. cbn [String.length]. now rewrite IH.
Qed.

Lemma substring_skip (p s : string) (n : nat) :
  substring (String.length p) n (p +:+ s) = substring 0 n s.
Proof.
  induction p as [|x p IH]; [reflexivity|].
  rewrite append_cons. cbn [String.length substring]. exact IH.
Qed.

Lemma substring_split (s : string) :
  forall n, (n <= String.length s)%nat ->
  s = substring 0 n s +:+ substring n (String.length s - n) s.
Proof.
  induction s as [|c s IH]; intros [|n] Hn; cbn [String.length] in *.
  - reflexivity.
  - lia.
  - cbn [substring Nat.sub]. rewrite append_nil_l.
    now rewrite substring_full.
  - cbn [substring Nat.sub]. rewrite append_cons. f_equal. apply IH. lia.
Qed.

Lemma HasSuffix_spec (s suffix : string) :
  Strings.HasSuffix s suffix = true <-> exists p, s = p +:+ suffix.
Proof.
  unfold Strings.HasSuffix. rewrite andb_true_iff, Nat.leb_le, String.eqb_eq.
  split.
  - intros [Hl He].
    exists (substring 0 (String.length s - String.length suffix) s).
    pose proof (substring_split s (String.length s - String.length suffix)) as H.
    replace (String.length s - (String.length s - String.length suffix))%nat
      with (String.length suffix) in H by lia.
    rewrite He in H. apply H. lia.
  - intros [p ->]. rewrite length_append. split; [lia|].
    replace (String.length p + String.length suffix - String.length suffix)%nat
      with (String.length p) by lia.
    rewrite substring_skip. apply substring_full.
Qed.

(** ** Statistics *)

Lemma append_assoc (a b c : string) : (a +:+ b) +:+ c = a +:+ (b +:+ c).
Proof.
  induction a as [|x a IH]; [reflexivity|].
  rewrite !append_cons. now rewrite IH.
Qed.

Lemma Sprintf4_shape (x : Fmt.float64) :
  match x with
  | S754_finite _ _ _ | S754_zero _ =>
      exists int frac,
        Fmt.Sprintf4 x = int +:+ "." +:+ frac /\ String.length frac = 4%nat
  | _ => True
  end.
Proof.
  destruct x as [s|s| |s m e]; try exact I.
  - exists (Fmt.sign s +:+ "0"), "0000". split; [|reflexivity].
    unfold Fmt.Sprintf4. now rewrite append_assoc.
  - exists (Fmt.sign s +:+ Fmt.decimal (Fmt.scaled4 m e / 10000)),
      (Fmt.frac4 (Fmt.scaled4 m e mod 10000)).
    split; [|reflexivity]. unfold Fmt.Sprintf4. now rewrite append_assoc.
Qed.

(** [%.4f] on a few doubles: a quarter, a third, two ties between
    neighbours (which go to the even digit), a negative value that rounds
    to zero and keeps its sign, and the largest [int64]. *)
Lemma Sprintf4_examples :
  Fmt.Sprintf4 (Fmt.div (Fmt.of_int64 1) (Fmt.of_int64 4)) = "0.2500" /\
  Fmt.Sprintf4 (Fmt.div (Fmt.of_int64 1) (Fmt.of_int64 3)) = "0.3333" /\
  Fmt.Sprintf4 (Fmt.div (Fmt.of_int64 1) (Fmt.of_int64 32)) = "0.0312" /\
  Fmt.Sprintf4 (Fmt.div (Fmt.of_int64 3) (Fmt.of_int64 32)) = "0.0938" /\
  Fmt.Sprintf4 (Fmt.div (Fmt.of_int64 (-1)) (Fmt.of_int64 300000)) = "-0.0000" /\
  Fmt.Sprintf4 (Fmt.of_int64 9223372036854775807) = "9223372036854775808.0000".
Proof. repeat split; vm_compute; reflexivity. Qed.

Lemma sliceTo_firstn {A} (s : list A) (n : Z) :
  (0 <= n <= Z.of_nat (length s))%Z ->
  sliceTo s n = Returned (firstn (Z.to_nat n) s).
Proof.
  intros [H0 H1]. unfold sliceTo.
  apply Z.leb_le in H0, H1. now rewrite H0, H1.
Qed.

Lemma topCount_min (k : Z) (freqs : list string) :
  (0 <= k)%Z ->
  topCount k freqs = Z.of_nat (Nat.min (Z.to_nat k) (length freqs)).
Proof.
  intros Hk. unfold topCount.
  destruct (k >? Z.of_nat (length freqs))%Z eqn:E.
  - apply Z.gtb_lt in E. lia.
  - rewrite Z.gtb_ltb in E. apply Z.ltb_ge in E. lia.
Qed.

Lemma statScan_verbose (rows k : Z) (f : ColumnStat) :
  (0 <= k)%Z ->
  length (csTopN f) = length (csTopNFreqs f) ->
  statScan rows true k f = Returned (statCells rows k f).
Proof.
  intros Hk Hlen. unfold statScan, statCells.
  rewrite (topCount_min k _ Hk). rewrite length_map, <- Hlen.
  set (n := Nat.min (Z.to_nat k) (length (csTopN f))).
  rewrite !sliceTo_firstn by (rewrite ?length_map; lia).
  rewrite Nat2Z.id. rewrite firstn_map. reflexivity.
Qed.

Lemma scanAll_map {A} (scan : A -> outcome (list value)) (g : A -> list value)
  (rows : list A) :
  (forall x, In x rows -> scan x = Returned (g x)) ->
  scanAll scan rows = Returned (map g rows).
Proof.
  induction rows as [|x rows IH]; intros H; cbn [scanAll map]; [reflexivity|].
  rewrite (H x) by now left. rewrite IH; [reflexivity|].
  intros y Hy. apply H. now right.
Qed.

Lemma remaining_incl {A} (res : ResultSet A) x :
  In x (remaining res) -> In x (results res).
Proof.
  unfold remaining. intros H. apply filter_In in H. destruct H as [H _].
  revert H. generalize (current res). intros n. revert n.
  induction (results res) as [|y l IH]; intros [|n]; cbn; auto.
  intros H. right. now apply (IH n).
Qed.

(** C7. With a limit [k] of at least 0 and top values and frequencies of
    the same length in every row, the long form of [ShowStats] hands the
    encoder one row of cells for each statistics row; its last two cells
    are the first [min k length] top values and the first [min k length]
    frequencies, in their order, each list joined with a comma and a
    space. *)
Theorem ShowStats_top_n (w : IngresWriter) (driver statTypes pattern : string)
  (k : Z) (rd : Filter -> QueryResult ColumnStat) (sp tp : string)
  (tq : list Event) (rows : Z) (res : ResultSet ColumnStat) :
  ColumnStatReader (r w) = Some rd ->
  parsePattern pattern = Returned (sp, tp) ->
  tableRows w sp tp = (tq, Returned rows) ->
  rd (mkFilter EmptyString sp tp EmptyString EmptyString ["basic"; "extended"] false)
    = (Some res, None) ->
  Len res <> 0%nat ->
  (forall f, In f (results res) -> length (csTopN f) = length (csTopNFreqs f)) ->
  (0 <= k)%Z ->
  ShowStats w driver statTypes pattern true k =
    (tq ++
     [EvQuery (QColumnStats
        (mkFilter EmptyString sp tp EmptyString EmptyString ["basic"; "extended"] false));
      EvEncode (<["title" := "Column stats"]> (Pall w)) (statColumns true)
        (map (statCells rows k) (remaining res))],
     Returned tt) /\
  forall f, In f (remaining res) ->
    let n := Nat.min (Z.to_nat k) (length (csTopN f)) in
    nth_error (statCells rows k f) 10 =
      Some (VString (Strings.Join (firstn n (csTopN f)) ", ")) /\
    nth_error (statCells rows k f) 11 =
      Some (VString (Strings.Join (map Fmt.Sprintf4 (firstn n (csTopNFreqs f))) ", ")) /\
    length (firstn n (csTopN f)) = n /\
    length (firstn n (csTopNFreqs f)) = n /\
    n = Nat.min (Z.to_nat k) (length (csTopNFreqs f)).
Proof.
  intros Hcap Hpat Hrows Hq Hlen Heq Hk. split.
  - unfold ShowStats. rewrite Hcap, Hpat. cbn [lift wrap bind app].
    rewrite Hrows. cbn [bind doQuery emit ret app]. rewrite Hq.
    cbn [deref ret bind app].
    destruct (Len res =? 0)%nat eqn:E; [apply Nat.eqb_eq in E; contradiction|].
    unfold EncodeAll.
    assert (Hrem : remaining (SetScanValues (SetColumns res (statColumns true))
                                 (statScan rows true k)) = remaining res) by reflexivity.
    rewrite Hrem. cbn [scanValues SetScanValues columns SetColumns].
    rewrite (scanAll_map _ (statCells rows k)).
    + cbn [lift bind emit app]. reflexivity.
    + intros f Hf. apply statScan_verbose; [exact Hk|].
      apply Heq. now apply remaining_incl.
  - intros f Hf n. pose proof (Heq f (remaining_incl _ _ Hf)) as He.
    subst n. rewrite <- He.
    repeat split; try reflexivity; rewrite length_firstn; lia.
Qed.

(** ** The order of the summary sections *)

Lemma writes_app t1 t2 : writes (t1 ++ t2) = writes t1 ++ writes t2.
Proof. unfold writes. apply flat_map_app. Qed.

Lemma labelsOf_app t1 t2 : labelsOf (t1 ++ t2) = labelsOf t1 ++ labelsOf t2.
Proof. unfold labelsOf. rewrite writes_app. apply List.filter_app. Qed.

Lemma emits_weaken {A} (L L' : list string) (m : M A) :
  sublist L L' -> emits L m -> emits L' m.
Proof. unfold emits. intros H1 H2. now transitivity L. Qed.

Lemma emits_bind {A B} (L1 L2 : list string) (m : M A) (k : A -> M B) :
  emits L1 m -> (forall a, emits L2 (k a)) -> emits (L1 ++ L2) (bind m k).
Proof.
  unfold emits. intros H1 H2. rewrite bind_trace.
  destruct (snd m) as [a|e|].
  - rewrite labelsOf_app. apply sublist_app; [exact H1 | apply H2].
  - transitivity L1; [exact H1 | apply sublist_inserts_r; reflexivity].
  - transitivity L1; [exact H1 | apply sublist_inserts_r; reflexivity].
Qed.

Lemma quiet_bind {A B} (m : M A) (k : A -> M B) :
  emits [] m -> (forall a, emits [] (k a)) -> emits [] (bind m k).
Proof. intros H1 H2. exact (emits_bind [] [] m k H1 H2). Qed.

Lemma emits_bind_l {A B} (L : list string) (m : M A) (k : A -> M B) :
  emits [] m -> (forall a, emits L (k a)) -> emits L (bind m k).
Proof. intros H1 H2. exact (emits_bind [] L m k H1 H2). Qed.

Lemma quiet_ret {A} (a : A) : emits [] (ret a).
Proof. unfold emits. cbn. constructor. Qed.

Lemma quiet_notrace {A} (o : outcome A) (L : list string) : emits L ([], o).
Proof. unfold emits. cbn. apply sublist_nil_l. Qed.

Lemma quiet_doQuery {A} q (rd : Filter -> QueryResult A) f :
  emits [] (doQuery q rd f).
Proof. unfold emits. cbn. constructor. Qed.

Lemma emits_wrap {A} L ctx (m : M A) : emits L m -> emits L (wrap ctx m).
Proof. unfold emits, wrap. now destruct m as [t [a|e|]]. Qed.

Lemma emits_try {A} L (m : M A) : emits L m -> emits L (try m).
Proof. unfold emits, try. now destruct m as [t [a|e|]]. Qed.

Lemma quiet_Fprint (s : string) :
  isSectionLabel s = false -> emits [] (Fprint s).
Proof.
  unfold emits, Fprint, emit, labelsOf, writes.
  cbn [fst flat_map app List.filter]. intros ->. constructor.
Qed.

Lemma emits_Fprint (s : string) : emits [s] (Fprint s).
Proof.
  unfold emits, Fprint, emit, labelsOf, writes.
  cbn [fst flat_map app List.filter].
  destruct (isSectionLabel s); [reflexivity | apply sublist_nil_l].
Qed.

Lemma quiet_foldRows {A St} (body : St -> A -> M (A * St)) :
  (forall acc x, emits [] (body acc x)) ->
  forall rows acc, emits [] (foldRows body acc rows).
Proof.
  intros Hb. induction rows as [|x rows IH]; intros acc; cbn [foldRows].
  - apply quiet_ret.
  - apply quiet_bind; [apply Hb|]. intros [x' acc'].
    apply quiet_bind; [apply IH|]. intros [ys acc'']. apply quiet_ret.
Qed.

Lemma quiet_rangeNext {A St} (res : ResultSet A) (acc : St) body :
  (forall acc x, emits [] (body acc x)) -> emits [] (rangeNext res acc body).
Proof.
  intros Hb. rewrite rangeNext_spec.
  apply quiet_bind; [now apply quiet_foldRows|]. intros [ys acc']. apply quiet_ret.
Qed.

Ltac quiet :=
  repeat first
    [ apply quiet_ret | apply quiet_notrace | apply quiet_doQuery
    | apply emits_wrap | apply quiet_rangeNext; intros
    | apply quiet_bind; [|intros]
    | match goal with
      | |- emits _ (match ?x with _ => _ end) => destruct x
      | |- emits _ (let (_, _) := ?x in _) => destruct x
      | |- emits _ (assertCap ?c) => destruct c; cbn [assertCap]
      | |- emits _ (deref ?c) => destruct c; cbn [deref]
      | |- emits _ (fail _) => apply quiet_notrace
      | |- emits _ panic => apply quiet_notrace
      | |- emits _ (lift _) => apply quiet_notrace
      end
    | apply quiet_Fprint; reflexivity ].

Lemma quiet_getIndexColumns w c s t i : emits [] (getIndexColumns w c s t i).
Proof. unfold getIndexColumns. quiet. Qed.

Lemma quiet_getConstraintColumns w c s t n :
  emits [] (getConstraintColumns w c s t n).
Proof. unfold getConstraintColumns. quiet. Qed.

Lemma emits_describeTableIndexes w sp tp :
  emits ["Indexes:" +:+ newline] (describeTableIndexes w sp tp).
Proof.
  unfold describeTableIndexes.
  destruct (IndexReader (r w)) as [rd|]; [|apply quiet_notrace].
  apply emits_bind_l; [apply quiet_doQuery|]. intros [res err].
  destruct (hardError err); [apply quiet_notrace|].
  destruct res as [res|]; [|apply quiet_notrace].
  destruct (Len res =? 0)%nat; [apply quiet_notrace|].
  apply (emits_bind [_] []); [apply emits_Fprint|]. intros _.
  apply quiet_bind; [|intros; apply quiet_ret].
  apply quiet_rangeNext. intros _ i.
  apply quiet_bind; [apply emits_wrap, quiet_getIndexColumns|]. intros cols.
  quiet.
Qed.

Lemma emits_describeTableTriggers w sp tp :
  emits ["Triggers:" +:+ newline] (describeTableTriggers w sp tp).
Proof.
  unfold describeTableTriggers.
  destruct (TriggerReader (r w)) as [rd|]; [|apply quiet_notrace].
  apply emits_bind_l; [apply quiet_doQuery|]. intros [res err].
  destruct (hardError err); [apply quiet_notrace|].
  destruct res as [res|]; [|apply quiet_notrace].
  destruct (Len res =? 0)%nat; [apply quiet_notrace|].
  apply (emits_bind [_] []); [apply emits_Fprint|]. intros _.
  quiet.
Qed.

Lemma emits_describeTableConstraints w filter postFilter label printer :
  (forall c, emits [] (printer c)) ->
  emits [label +:+ newline]
    (describeTableConstraints w filter postFilter label printer).
Proof.
  intros Hp. unfold describeTableConstraints.
  destruct (ConstraintReader (r w)) as [rd|]; [|apply quiet_notrace].
  apply emits_bind_l; [apply quiet_doQuery|]. intros [res err].
  destruct (hardError err); [apply quiet_notrace|].
  destruct res as [res|]; [|apply quiet_notrace].
  destruct (Len _ =? 0)%nat; [apply quiet_notrace|].
  apply (emits_bind [_] []); [apply emits_Fprint|]. intros _.
  apply quiet_bind; [|intros; apply quiet_ret].
  apply quiet_rangeNext. intros _ c.
  apply quiet_bind; [apply Hp | intros; apply quiet_ret].
Qed.

Lemma quiet_checkPrinter c : emits [] (checkPrinter c).
Proof. unfold checkPrinter. quiet. Qed.

Lemma quiet_foreignKeyPrinter w c : emits [] (foreignKeyPrinter w c).
Proof.
  unfold foreignKeyPrinter.
  apply quiet_bind; [apply quiet_getConstraintColumns|]. intros [a b]. quiet.
Qed.

Lemma quiet_referencedByPrinter w c : emits [] (referencedByPrinter w c).
Proof.
  unfold referencedByPrinter.
  apply quiet_bind; [apply quiet_getConstraintColumns|]. intros [a b]. quiet.
Qed.

Lemma emits_tableDetailsSummary w sp tp n :
  emits sectionLabels (tableDetailsSummary w sp tp n).
Proof.
  unfold tableDetailsSummary, sectionLabels.
  apply (emits_bind [_] [_; _; _; _]); [apply emits_describeTableIndexes|]. intros _.
  apply (emits_bind [_] [_; _; _]);
    [apply emits_describeTableConstraints, quiet_checkPrinter|]. intros _.
  apply (emits_bind [_] [_; _]);
    [apply emits_describeTableConstraints, quiet_foreignKeyPrinter|]. intros _.
  apply (emits_bind [_] [_]);
    [apply emits_try, emits_describeTableConstraints, quiet_referencedByPrinter|].
  intros _.
  apply (emits_bind [_] []); [apply emits_describeTableTriggers|]. intros _.
  apply quiet_ret.
Qed.

Lemma scanAll_returned {A} (g : A -> list value) (rows : list A) :
  scanAll (fun x => Returned (g x)) rows = Returned (map g rows).
Proof. apply scanAll_map. reflexivity. Qed.

Lemma describeTableDetails_trace w typ sp tp verbose showSystem :
  exists pre,
    writes pre = [] /\ encoded pre = [] /\
    (fst (describeTableDetails w typ sp tp verbose showSystem) = pre \/
     exists params cols rows n,
       fst (describeTableDetails w typ sp tp verbose showSystem) =
       pre ++ EvEncode params cols rows :: fst (tableDetailsSummary w sp tp n)).
Proof.
  unfold describeTableDetails.
  destruct (ColumnReader (r w)) as [rd|]; cbn [assertCap ret panic bind].
  2:{ exists []. cbn. split; [reflexivity|split; [reflexivity|left; reflexivity]]. }
  unfold doQuery. cbn [emit bind ret app].
  set (q := EvQuery (QColumns
    (mkFilter EmptyString sp tp EmptyString EmptyString [] showSystem))).
  destruct (rd _) as [res err].
  destruct err as [e|].
  { exists [q]. cbn. split; [reflexivity|split; [reflexivity|left; reflexivity]]. }
  destruct res as [res|]; cbn [deref ret panic bind app].
  2:{ exists [q]. cbn. split; [reflexivity|split; [reflexivity|left; reflexivity]]. }
  unfold encodeWithSummary, EncodeAll.
  cbn [scanValues SetScanValues columns SetColumns].
  unfold columnScan. rewrite scanAll_returned. cbn [lift bind emit app].
  exists [q]. split; [reflexivity|]. split; [reflexivity|]. right.
  do 4 eexists.
  match goal with |- context [tableDetailsSummary w sp tp ?n] =>
    destruct (tableDetailsSummary w sp tp n) as [t [a|e|]] eqn:E end;
    cbn [bind ret fst app]; rewrite ?app_nil_r; rewrite ?E; reflexivity.
Qed.

(** C4. What [describeTableDetails] prints for a table is the column body and
    after it the summary: every section label the summary writes is written
    after the table has gone to the encoder, and the labels it writes are, in
    this order and each at most once, Indexes, Check constraints, Foreign-key
    constraints, Referenced by, Triggers.  For the sample table all five are
    written. *)
Theorem summary_sections_in_order (w : IngresWriter) (typ sp tp : string)
  (verbose showSystem : bool) :
  (exists pre,
     writes pre = [] /\ encoded pre = [] /\
     (fst (describeTableDetails w typ sp tp verbose showSystem) = pre \/
      exists params cols rows n,
        fst (describeTableDetails w typ sp tp verbose showSystem) =
        pre ++ EvEncode params cols rows :: fst (tableDetailsSummary w sp tp n))) /\
  (forall n, sublist (labelsOf (fst (tableDetailsSummary w sp tp n))) sectionLabels) /\
  labelsOf (fst (tableDetailsSummary ordersWriter "public" "orders" 2)) = sectionLabels.
Proof.
  split; [apply describeTableDetails_trace|].
  split; [intros n; apply emits_tableDetailsSummary|].
  vm_compute. reflexivity.
Qed.

(** ** Outcomes of the summary *)

(** X1. How the summary ends, section by section: the error of the indexes,
    the check constraints, the foreign keys and the triggers is the
    summary's; the error of the referenced-by section is not. *)
Lemma tableDetailsSummary_outcome w sp tp n :
  snd (tableDetailsSummary w sp tp n) =
  match snd (describeTableIndexes w sp tp) with
  | Returned _ =>
      match snd (checkSection w sp tp) with
      | Returned _ =>
          match snd (foreignKeySection w sp tp) with
          | Returned _ =>
              match snd (referencedBySection w sp tp) with
              | Panicked => Panicked
              | _ =>
                  match snd (describeTableTriggers w sp tp) with
                  | Returned _ => Returned 0%Z
                  | Failed e => Failed e
                  | Panicked => Panicked
                  end
              end
          | Failed e => Failed e
          | Panicked => Panicked
          end
      | Failed e => Failed e
      | Panicked => Panicked
      end
  | Failed e => Failed e
  | Panicked => Panicked
  end.
Proof.
  unfold tableDetailsSummary. rewrite bind_outcome.
  destruct (snd (describeTableIndexes w sp tp)); try reflexivity.
  rewrite bind_outcome.
  destruct (snd (checkSection w sp tp)); try reflexivity.
  rewrite bind_outcome.
  destruct (snd (foreignKeySection w sp tp)); try reflexivity.
  rewrite bind_outcome. unfold try.
  destruct (referencedBySection w sp tp) as [t [a'|e'|]]; cbn [snd];
    try reflexivity;
    rewrite bind_outcome;
    destruct (snd (describeTableTriggers w sp tp)); reflexivity.
Qed.

(** The trace of the summary is the traces of its five sections, in
    order, as long as each returns (the referenced-by section may also
    fail). *)
Lemma tableDetailsSummary_trace w sp tp n :
  snd (describeTableIndexes w sp tp) = Returned tt ->
  snd (checkSection w sp tp) = Returned tt ->
  snd (foreignKeySection w sp tp) = Returned tt ->
  snd (referencedBySection w sp tp) <> Panicked ->
  fst (tableDetailsSummary w sp tp n) =
    fst (describeTableIndexes w sp tp) ++ fst (checkSection w sp tp) ++
    fst (foreignKeySection w sp tp) ++ fst (referencedBySection w sp tp) ++
    fst (describeTableTriggers w sp tp).
Proof.
  unfold tableDetailsSummary. intros H1 H2 H3 H4.
  rewrite bind_trace, H1. f_equal.
  rewrite bind_trace, H2. f_equal.
  rewrite bind_trace, H3. f_equal.
  rewrite bind_trace. unfold try.
  destruct (referencedBySection w sp tp) as [t [a|e|]]; cbn [fst snd] in *;
    try contradiction; f_equal; rewrite bind_trace;
    destruct (snd (describeTableTriggers w sp tp)); cbn [ret fst];
    now rewrite ?app_nil_r.
Qed.

(** X2. A section whose capability the reader lacks prints nothing, issues
    no query and returns. *)
Lemma sections_without_capability w sp tp filter postFilter label printer :
  (IndexReader (r w) = None -> describeTableIndexes w sp tp = ([], Returned tt)) /\
  (ConstraintReader (r w) = None ->
   describeTableConstraints w filter postFilter label printer = ([], Returned tt)) /\
  (TriggerReader (r w) = None -> describeTableTriggers w sp tp = ([], Returned tt)).
Proof.
  unfold describeTableIndexes, describeTableConstraints, describeTableTriggers.
  split; [|split]; intros ->; reflexivity.
Qed.

(** X3. A section whose query answers the not-supported sentinel, and no
    result set, prints nothing and returns. *)
Lemma sections_not_supported w sp tp filter postFilter label printer :
  (forall rd, IndexReader (r w) = Some rd ->
     rd (mkFilter EmptyString sp tp EmptyString EmptyString [] false)
       = (None, Some ErrNotSupported) ->
     writes (fst (describeTableIndexes w sp tp)) = [] /\
     snd (describeTableIndexes w sp tp) = Returned tt) /\
  (forall rd, ConstraintReader (r w) = Some rd ->
     rd filter = (None, Some ErrNotSupported) ->
     writes (fst (describeTableConstraints w filter postFilter label printer)) = [] /\
     snd (describeTableConstraints w filter postFilter label printer) = Returned tt) /\
  (forall rd, TriggerReader (r w) = Some rd ->
     rd (mkFilter EmptyString sp tp EmptyString EmptyString [] false)
       = (None, Some ErrNotSupported) ->
     writes (fst (describeTableTriggers w sp tp)) = [] /\
     snd (describeTableTriggers w sp tp) = Returned tt).
Proof.
  unfold describeTableIndexes, describeTableConstraints, describeTableTriggers.
  split; [|split]; intros rd -> Hq; unfold doQuery; cbn [emit bind ret app];
    rewrite Hq; split; reflexivity.
Qed.

(** A section whose query answers any other error returns that error,
    wrapped. *)
Lemma sections_query_error w sp tp filter postFilter label printer e :
  isErrNotSupported e = false ->
  (forall rd res, IndexReader (r w) = Some rd ->
     rd (mkFilter EmptyString sp tp EmptyString EmptyString [] false) = (res, Some e) ->
     snd (describeTableIndexes w sp tp) =
       Failed (ErrWrap ("failed to list indexes for table " +:+ tp) e)) /\
  (forall rd res, ConstraintReader (r w) = Some rd ->
     rd filter = (res, Some e) ->
     snd (describeTableConstraints w filter postFilter label printer) =
       Failed (ErrWrap "failed to list constraints" e)) /\
  (forall rd res, TriggerReader (r w) = Some rd ->
     rd (mkFilter EmptyString sp tp EmptyString EmptyString [] false) = (res, Some e) ->
     snd (describeTableTriggers w sp tp) =
       Failed (ErrWrap ("failed to list triggers for table " +:+ tp) e)).
Proof.
  intros He.
  unfold describeTableIndexes, describeTableConstraints, describeTableTriggers.
  split; [|split]; intros rd res -> Hq; unfold doQuery; cbn [emit bind ret app];
    rewrite Hq; unfold hardError; rewrite He; reflexivity.
Qed.

(** The index section asserts the index column capability without testing
    for it: a reader that lists an index and lacks that capability makes the
    section panic after its label. *)
Lemma index_section_asserts_index_columns :
  describeTableIndexes indexOnlyWriter "public" "orders" =
    ([EvQuery (QIndexes
        (mkFilter EmptyString "public" "orders" EmptyString EmptyString [] false));
      EvWrite ("Indexes:" +:+ newline)],
     Panicked).
Proof. vm_compute. reflexivity. Qed.

(** C1. On the sample catalog behind the reader whose constraint query fails
    for incoming foreign keys, the referenced-by section returns the query's
    error, and the summary prints the other four sections and returns
    without an error: the error does not reach the caller of
    [describeTableDetails]. *)
Theorem referenced_by_error_is_dropped :
  snd (referencedBySection brokenWriter "public" "orders") =
    Failed (ErrWrap "failed to list constraints" (ErrQuery "connection lost")) /\
  snd (tableDetailsSummary brokenWriter "public" "orders" 2) = Returned 0%Z /\
  labelsOf (fst (tableDetailsSummary brokenWriter "public" "orders" 2)) =
    ["Indexes:" +:+ newline; "Check constraints:" +:+ newline;
     "Foreign-key constraints:" +:+ newline; "Triggers:" +:+ newline] /\
  snd (describeTableDetails brokenWriter "TABLE" "public" "orders" false false) =
    Returned tt.
Proof. repeat split; vm_compute; reflexivity. Qed.

(** ** The check constraint section *)

Lemma foldRows_print {A} (line : A -> string) (rows : list A) :
  foldRows (fun (_ : unit) (x : A) => Fprint (line x) ;; ret (x, tt)) tt rows =
  (map (fun x => EvWrite (line x)) rows, Returned (rows, tt)).
Proof.
  induction rows as [|x rows IH]; [reflexivity|].
  cbn [foldRows]. unfold Fprint, emit. cbn [bind ret app].
  change (foldRows _ tt rows) with
    (foldRows (fun (_ : unit) (x : A) => Fprint (line x) ;; ret (x, tt)) tt rows).
  rewrite IH. cbn [bind ret app map]. now rewrite app_nil_r.
Qed.

(** C5. When the reader has the constraint capability and its query for the
    constraints of the table returns a fresh result set, the check
    constraint section prints its label and one line for each row it shows,
    in the order of the result set, and nothing when it shows none.  A row
    of the result set is shown if and only if its type is CHECK, its check
    clause is not empty, and its check clause does not end with
    [" IS NOT NULL"], which is how the writer tells a bare not-null check. *)
Theorem check_section_rows (w : IngresWriter) (sp tp : string)
  (rd : Filter -> QueryResult Constraint) (cols : list string)
  (scan : Constraint -> outcome (list value)) (rows : list Constraint)
  (err : option error) :
  ConstraintReader (r w) = Some rd ->
  rd (mkFilter EmptyString sp tp EmptyString EmptyString [] false)
    = (Some (NewResultSet cols scan rows), err) ->
  hardError err = None ->
  let shown := List.filter isCheck rows in
  checkSection w sp tp =
    (EvQuery (QConstraints
       (mkFilter EmptyString sp tp EmptyString EmptyString [] false)) ::
     match shown with
     | [] => []
     | _ => EvWrite ("Check constraints:" +:+ newline) ::
            map (fun c => EvWrite (checkLine c)) shown
     end,
     Returned tt) /\
  forall c,
    In c shown <->
    In c rows /\ kType c = "CHECK" /\ kCheckClause c <> EmptyString /\
    ~ (exists p, kCheckClause c = p +:+ " IS NOT NULL").
Proof.
  intros Hcap Hq Herr shown. split.
  - unfold checkSection, describeTableConstraints. rewrite Hcap.
    unfold doQuery. cbn [emit bind ret app]. rewrite Hq, Herr.
    unfold Len.
    change (passes (SetFilter (NewResultSet cols scan rows) isCheck)) with isCheck.
    change (results (SetFilter (NewResultSet cols scan rows) isCheck)) with rows.
    fold shown.
    destruct shown as [|c shown'] eqn:E; [reflexivity|].
    cbn [length Nat.eqb]. rewrite rangeNext_spec.
    unfold remaining.
    change (passes (SetFilter (NewResultSet cols scan rows) isCheck)) with isCheck.
    change (skipn _ _) with rows.
    fold shown. rewrite E.
    unfold checkPrinter. rewrite foldRows_print.
    unfold Fprint, emit. cbn [bind ret app]. now rewrite !app_nil_r.
  - intros c. unfold shown. rewrite filter_In. unfold isCheck.
    rewrite !andb_true_iff, !negb_true_iff, String.eqb_eq, String.eqb_neq.
    rewrite <- HasSuffix_spec, not_true_iff_false. tauto.
Qed.

(** ** Constraint columns *)

Lemma foldRows_columns (rows : list ConstraintColumn) :
  forall acc : list string * list string,
  foldRows
    (fun acc c => ret (c, (fst acc ++ [ccName c], snd acc ++ [ccForeignName c])))
    acc rows =
  ([], Returned (rows, (fst acc ++ map ccName rows,
                        snd acc ++ map ccForeignName rows))).
Proof.
  induction rows as [|c rows IH]; intros [a b]; cbn [foldRows ret bind fst snd map].
  - now rewrite !app_nil_r.
  - rewrite IH. cbn [bind ret fst snd app]. now rewrite <- !app_assoc.
Qed.

Lemma getConstraintColumns_rows w c s t n rd res :
  ConstraintColumnReader (r w) = Some rd ->
  rd (mkFilter c s t EmptyString n [] false) = (Some res, None) ->
  getConstraintColumns w c s t n =
    ([EvQuery (QConstraintColumns (mkFilter c s t EmptyString n [] false))],
     Returned (Strings.Join (map ccName (remaining res)) ", ",
               Strings.Join (map ccForeignName (remaining res)) ", ")).
Proof.
  intros Hcap Hq. unfold getConstraintColumns. rewrite Hcap.
  unfold doQuery. cbn [assertCap emit bind ret app]. rewrite Hq.
  cbn [deref bind ret app]. rewrite rangeNext_spec, foldRows_columns.
  reflexivity.
Qed.

(** C10. When the reader has the capability and its query returns a result
    set, [getConstraintColumns] returns the two lists joined with a comma
    and a space; both have one element per remaining constraint column row,
    and at each position stand the column name and the foreign column name
    of the same row.  The lines of the two foreign key sections print
    these two lists. *)
Theorem constraint_columns_paired (w : IngresWriter) (c s t n : string)
  (rd : Filter -> QueryResult ConstraintColumn) (res : ResultSet ConstraintColumn) :
  ConstraintColumnReader (r w) = Some rd ->
  rd (mkFilter c s t EmptyString n [] false) = (Some res, None) ->
  let rows := remaining res in
  let columns := map ccName rows in
  let foreignColumns := map ccForeignName rows in
  getConstraintColumns w c s t n =
    ([EvQuery (QConstraintColumns (mkFilter c s t EmptyString n [] false))],
     Returned (Strings.Join columns ", ", Strings.Join foreignColumns ", ")) /\
  length columns = length rows /\
  length foreignColumns = length rows /\
  (forall i row,
     nth_error rows i = Some row ->
     nth_error columns i = Some (ccName row) /\
     nth_error foreignColumns i = Some (ccForeignName row)) /\
  (forall k,
     kCatalog k = c -> kSchema k = s -> kTable k = t -> kName k = n ->
     writes (fst (foreignKeyPrinter w k)) =
       [foreignKeyLine k (Strings.Join columns ", ") (Strings.Join foreignColumns ", ")] /\
     writes (fst (referencedByPrinter w k)) =
       [referencedByLine k (Strings.Join columns ", ")
          (Strings.Join foreignColumns ", ")]).
Proof.
  intros Hcap Hq rows columns foreignColumns.
  split; [now apply (getConstraintColumns_rows w c s t n rd res)|].
  split; [apply length_map|]. split; [apply length_map|]. split.
  - intros i row Hi. unfold columns, foreignColumns.
    rewrite !nth_error_map, Hi. split; reflexivity.
  - intros k <- <- <- <-. unfold foreignKeyPrinter, referencedByPrinter.
    rewrite (getConstraintColumns_rows w _ _ _ _ rd res Hcap Hq).
    split; reflexivity.
Qed.

(** ** Empty listings *)

(** C9. When the reader has the table capability, its query returns a
    result set and no row of it passes the system schema filter (none at all
    when system objects are shown), [ListTables] writes the relation not
    found message and a newline, and returns without an error. *)
Theorem ListTables_empty (w : IngresWriter) (driver tableTypes' pattern : string)
  (verbose showSystem : bool) (rd : Filter -> QueryResult Table)
  (sp tp : string) (res : ResultSet Table) :
  TableReader (r w) = Some rd ->
  parsePattern pattern = Returned (sp, tp) ->
  rd (mkFilter EmptyString sp EmptyString EmptyString tp
        (selectTypes (tableTypes w) tableTypes') showSystem) = (Some res, None) ->
  Len (if negb showSystem then SetFilter res (notSystem w tSchema) else res) = 0%nat ->
  ListTables w driver tableTypes' pattern verbose showSystem =
    ([EvQuery (QTables (mkFilter EmptyString sp EmptyString EmptyString tp
                          (selectTypes (tableTypes w) tableTypes') showSystem));
      EvWrite (RelationNotFound pattern); EvWrite newline],
     Returned tt).
Proof.
  intros Hcap Hpat Hq Hlen. unfold ListTables. rewrite Hcap, Hpat.
  unfold doQuery. cbn [lift wrap emit bind ret app]. rewrite Hq.
  cbn [deref bind ret app]. rewrite Hlen. reflexivity.
Qed.

(** ** What [DescribeTableDetails] finds *)

Lemma foldRows_count {A} (act : A -> M unit) (rows : list A) :
  forall (acc : Z) t ys n,
  foldRows (fun found x => act x ;; ret (x, (found + 1)%Z)) acc rows
    = (t, Returned (ys, n)) ->
  n = (acc + Z.of_nat (length rows))%Z /\ (rows = [] -> t = []).
Proof.
  induction rows as [|x rows IH]; intros acc t ys n; cbn [foldRows].
  - intros [= <- <- <-]. split; [cbn; lia | reflexivity].
  - destruct (act x) as [t1 [[]|e|]]; cbn [bind ret app]; try discriminate.
    destruct (foldRows _ (acc + 1)%Z rows) as [t2 [[ys' n']|e|]] eqn:E;
      cbn [bind ret app]; try discriminate.
    intros [= <- <- <-]. apply IH in E. destruct E as [-> _].
    split; [cbn [length]; lia | discriminate].
Qed.

Lemma rangeNext_count {A} (act : A -> M unit) (res : ResultSet A) t res' n :
  rangeNext res 0%Z (fun found x => act x ;; ret (x, (found + 1)%Z))
    = (t, Returned (res', n)) ->
  n = Z.of_nat (length (remaining res)) /\ (remaining res = [] -> t = []).
Proof.
  rewrite rangeNext_spec.
  destruct (foldRows _ 0%Z (remaining res)) as [t1 [[ys n1]|e|]] eqn:E;
    cbn [bind ret]; try discriminate.
  intros [= <- _ <-]. apply foldRows_count in E. destruct E as [-> Ht].
  split; [lia|]. intros H. rewrite (Ht H). reflexivity.
Qed.

Lemma length_zero_nil {A} (l : list A) : Z.of_nat (length l) = 0%Z -> l = [].
Proof. destruct l; [reflexivity | cbn; lia]. Qed.

Lemma describeTables_found w sp tp verbose showSystem t n :
  describeTables w sp tp verbose showSystem = (t, Returned n) ->
  n = Z.of_nat (length (matchedTables w sp tp showSystem)) /\
  (n = 0%Z -> writes t = []).
Proof.
  unfold describeTables, matchedTables.
  destruct (TableReader (r w)) as [tr|]; [|intros [= <- <-]; split; reflexivity].
  destruct (ColumnReader (r w)) as [cr|]; [|intros [= <- <-]; split; reflexivity].
  unfold doQuery. cbn [emit bind ret app].
  destruct (tr _) as [res [e|]]; [discriminate|].
  destruct res as [res|]; cbn [deref bind ret panic app]; [|discriminate].
  set (res' := if negb showSystem then _ else _).
  destruct (rangeNext res' 0%Z _) as [t1 [[res'' n1]|e|]] eqn:E;
    cbn [bind ret app]; try discriminate.
  intros [= <- <-].
  apply (rangeNext_count
    (fun t0 => wrap _ (describeTableDetails w (tType t0) (tSchema t0) (tName t0)
                         verbose showSystem))) in E.
  destruct E as [-> Ht]. split; [reflexivity|].
  intros H0. apply length_zero_nil in H0. rewrite (Ht H0). reflexivity.
Qed.

Lemma sequencePart_found w sp tp verbose showSystem t n :
  sequencePart w sp tp verbose showSystem = (t, Returned n) ->
  n = Z.of_nat (length (matchedSequences w sp tp showSystem)) /\
  (n = 0%Z -> writes t = []).
Proof.
  unfold sequencePart, matchedSequences, describeSequences.
  destruct (SequenceReader (r w)) as [sr|]; [|intros [= <- <-]; split; reflexivity].
  unfold doQuery. cbn [assertCap emit bind ret app].
  destruct (sr _) as [res err].
  destruct (hardError err) as [e|]; [discriminate|].
  destruct res as [res|]; cbn [wrap]; [|intros [= <- <-]; split; reflexivity].
  destruct (rangeNext res 0%Z _) as [t1 [[res'' n1]|e|]] eqn:E;
    cbn [bind ret app wrap]; try discriminate.
  intros [= <- <-].
  apply (rangeNext_count
    (fun s => EncodeAll (NewSequenceSet [s])
       (<["title" := "Sequence " +:+ quoted (sSchema s +:+ "." +:+ sName s) +:+ newline]>
          (<["footer" := "off"]> (Pall w))))) in E.
  destruct E as [-> Ht]. split; [reflexivity|].
  intros H0. apply length_zero_nil in H0. rewrite (Ht H0). reflexivity.
Qed.

Lemma describeIndexes_found w sp tp showSystem t n :
  describeIndexes w sp tp showSystem = (t, Returned n) ->
  n = Z.of_nat (length (matchedIndexes w sp tp showSystem)) /\
  (n = 0%Z -> writes t = []).
Proof.
  unfold describeIndexes, matchedIndexes.
  destruct (IndexReader (r w)) as [ir|]; [|intros [= <- <-]; split; reflexivity].
  destruct (IndexColumnReader (r w)) as [icr|];
    [|intros [= <- <-]; split; reflexivity].
  unfold doQuery. cbn [emit bind ret app].
  destruct (ir _) as [res err].
  destruct (hardError err) as [e|]; [discriminate|].
  destruct res as [res|]; [|intros [= <- <-]; split; reflexivity].
  set (res' := if negb showSystem then _ else _).
  destruct (rangeNext res' 0%Z _) as [t1 [[res'' n1]|e|]] eqn:E;
    cbn [bind ret app]; try discriminate.
  intros [= <- <-].
  apply (rangeNext_count (fun i => wrap _ (describeIndex w i))) in E.
  destruct E as [-> Ht]. split; [reflexivity|].
  intros H0. apply length_zero_nil in H0. rewrite (Ht H0). reflexivity.
Qed.

(** C8. When the three parts of [DescribeTableDetails] return, [found] is
    the number of tables plus the number of sequences plus the number of
    indexes the pattern matched, and [DescribeTableDetails] returns without
    an error; what it did is the three parts in this order, followed by the
    relation not found message and a newline when that sum is 0, and by
    nothing otherwise.  When the sum is 0 the message is all it writes;
    otherwise it writes what the parts wrote. *)
Theorem relation_not_found_when_nothing_matched (w : IngresWriter)
  (pattern : string) (verbose showSystem : bool) (sp tp : string)
  (tT tS tI : list Event) (nT nS nI : Z) :
  parsePattern pattern = Returned (sp, tp) ->
  describeTables w sp tp verbose showSystem = (tT, Returned nT) ->
  sequencePart w sp tp verbose showSystem = (tS, Returned nS) ->
  describeIndexes w sp tp showSystem = (tI, Returned nI) ->
  let found := (nT + nS + nI)%Z in
  nT = Z.of_nat (length (matchedTables w sp tp showSystem)) /\
  nS = Z.of_nat (length (matchedSequences w sp tp showSystem)) /\
  nI = Z.of_nat (length (matchedIndexes w sp tp showSystem)) /\
  DescribeTableDetails w pattern verbose showSystem =
    (tT ++ tS ++ tI ++
     (if (found =? 0)%Z
      then [EvWrite (RelationNotFound pattern); EvWrite newline] else []),
     Returned tt) /\
  (found = 0%Z ->
   writes (fst (DescribeTableDetails w pattern verbose showSystem)) =
     [RelationNotFound pattern; newline]) /\
  (found <> 0%Z ->
   writes (fst (DescribeTableDetails w pattern verbose showSystem)) =
     writes tT ++ writes tS ++ writes tI).
Proof.
  intros Hpat ET ES EI found.
  assert (Hrun : DescribeTableDetails w pattern verbose showSystem =
    (tT ++ tS ++ tI ++
     (if (found =? 0)%Z
      then [EvWrite (RelationNotFound pattern); EvWrite newline] else []),
     Returned tt)).
  { unfold DescribeTableDetails. rewrite Hpat. cbn [lift wrap bind app].
    rewrite ET. cbn [bind]. rewrite ES. cbn [bind]. rewrite EI. cbn [bind].
    rewrite !Z.add_0_l. fold found.
    destruct (found =? 0)%Z; reflexivity. }
  apply describeTables_found in ET. destruct ET as [HnT HwT].
  apply sequencePart_found in ES. destruct ES as [HnS HwS].
  apply describeIndexes_found in EI. destruct EI as [HnI HwI].
  split; [exact HnT|]. split; [exact HnS|]. split; [exact HnI|].
  split; [exact Hrun|]. rewrite Hrun. cbn [fst]. split.
  - intros H0. rewrite H0. cbn [Z.eqb]. unfold found in H0.
    rewrite !writes_app, HwT, HwS, HwI by lia. reflexivity.
  - intros H0. apply Z.eqb_neq in H0. rewrite H0.
    rewrite !writes_app. cbn [writes flat_map]. now rewrite app_nil_r.
Qed.

(** When one of the three parts returns an error, [DescribeTableDetails]
    returns an error after what the parts did so far, and writes no
    message of its own. *)
Lemma DescribeTableDetails_aborts (w : IngresWriter) (pattern : string)
  (verbose showSystem : bool) (sp tp : string) (e : error) :
  parsePattern pattern = Returned (sp, tp) ->
  (snd (describeTables w sp tp verbose showSystem) = Failed e ->
   DescribeTableDetails w pattern verbose showSystem =
     (fst (describeTables w sp tp verbose showSystem), Failed e)) /\
  (forall nT,
     snd (describeTables w sp tp verbose showSystem) = Returned nT ->
     snd (sequencePart w sp tp verbose showSystem) = Failed e ->
     DescribeTableDetails w pattern verbose showSystem =
       (fst (describeTables w sp tp verbose showSystem) ++
        fst (sequencePart w sp tp verbose showSystem), Failed e)) /\
  (forall nT nS,
     snd (describeTables w sp tp verbose showSystem) = Returned nT ->
     snd (sequencePart w sp tp verbose showSystem) = Returned nS ->
     snd (describeIndexes w sp tp showSystem) = Failed e ->
     DescribeTableDetails w pattern verbose showSystem =
       (fst (describeTables w sp tp verbose showSystem) ++
        fst (sequencePart w sp tp verbose showSystem) ++
        fst (describeIndexes w sp tp showSystem), Failed e)).
Proof.
  intros Hpat. unfold DescribeTableDetails. rewrite Hpat.
  cbn [lift wrap bind app].
  destruct (describeTables w sp tp verbose showSystem) as [tT oT].
  destruct (sequencePart w sp tp verbose showSystem) as [tS oS].
  destruct (describeIndexes w sp tp showSystem) as [tI oI].
  cbn [fst snd]. split; [|split].
  - intros ->. reflexivity.
  - intros nT -> ->. reflexivity.
  - intros nT nS -> -> ->. reflexivity.
Qed.

(** ** Function arguments *)

Lemma foldRows_args (cols : list FunctionColumn) :
  forall args : list string,
  foldRows
    (fun args c =>
       if (fcOrdinalPosition c =? 0)%Z then ret (c, args)
       else ret (c, args ++ [argFragment c]))
    args cols =
  ([], Returned (cols, args ++ map argFragment (argRows cols))).
Proof.
  induction cols as [|c cols IH]; intros args;
    cbn [foldRows argRows List.filter map].
  - unfold ret. now rewrite app_nil_r.
  - destruct (fcOrdinalPosition c =? 0)%Z; cbn [negb bind ret app].
    + rewrite IH. reflexivity.
    + rewrite IH. cbn [bind ret app map]. unfold argRows.
      now rewrite <- app_assoc.
Qed.

Lemma getFunctionColumns_args w (f : Function) rc cols :
  FunctionColumnReader (r w) = Some rc ->
  rc (argFilter f) = (Some cols, None) ->
  getFunctionColumns w (fnCatalog f) (fnSchema f) (fnSpecificName f) =
    ([EvQuery (QFunctionColumns (argFilter f))], Returned (argTypesOf rc f)).
Proof.
  intros Hcap Hq. unfold getFunctionColumns, argTypesOf. rewrite Hcap.
  unfold doQuery. cbn [assertCap emit bind ret app].
  fold (argFilter f). rewrite Hq. cbn [deref bind ret app].
  rewrite rangeNext_spec, foldRows_args. reflexivity.
Qed.

Lemma foldRows_enrich w rc (rows : list Function) :
  FunctionColumnReader (r w) = Some rc ->
  (forall f, In f rows -> exists cols, rc (argFilter f) = (Some cols, None)) ->
  foldRows
    (fun (_ : unit) f =>
       args <- wrap
         ("failed to get columns of function " +:+ fnSchema f +:+ "." +:+
          fnSpecificName f)
         (getFunctionColumns w (fnCatalog f) (fnSchema f) (fnSpecificName f)) ;;
       ret (setArgTypes f args, tt)) tt rows =
  (map (fun f => EvQuery (QFunctionColumns (argFilter f))) rows,
   Returned (map (enrich rc) rows, tt)).
Proof.
  intros Hcap. induction rows as [|f rows IH]; intros H; [reflexivity|].
  cbn [foldRows]. destruct (H f) as [cols Hq]; [now left|].
  rewrite (getFunctionColumns_args w f rc cols Hcap Hq).
  cbn [wrap bind ret app].
  match goal with |- context [foldRows ?b tt rows] =>
    change (foldRows b tt rows) with
      (foldRows
         (fun (_ : unit) f =>
            args <- wrap
              ("failed to get columns of function " +:+ fnSchema f +:+ "." +:+
               fnSpecificName f)
              (getFunctionColumns w (fnCatalog f) (fnSchema f) (fnSpecificName f)) ;;
            ret (setArgTypes f args, tt)) tt rows)
  end.
  rewrite IH by (intros g Hg; apply H; now right).
  cbn [bind ret app map]. now rewrite app_nil_r.
Qed.

Lemma patch_map {A} (p : A -> bool) (g : A -> A) (rows : list A) :
  patch p rows (map g (List.filter p rows)) =
  map (fun x => if p x then g x else x) rows.
Proof.
  induction rows as [|x rows IH]; [reflexivity|].
  cbn [patch List.filter map]. destruct (p x); cbn [map]; now rewrite IH.
Qed.

Lemma filter_patched {A} (p : A -> bool) (g : A -> A) (rows : list A) :
  (forall x, p (g x) = p x) ->
  List.filter p (map (fun x => if p x then g x else x) rows) =
  map g (List.filter p rows).
Proof.
  intros Hg. induction rows as [|x rows IH]; [reflexivity|].
  cbn [List.filter map]. destruct (p x) eqn:E.
  - rewrite Hg, E. cbn [map]. now rewrite IH.
  - rewrite E. exact IH.
Qed.

Lemma functionScan_cells verbose (rows : list Function) :
  scanAll (functionScan verbose) rows = Returned (map (functionCells verbose) rows).
Proof. apply scanAll_map. reflexivity. Qed.

Lemma enrich_loop w rc (filt : option (Function -> bool)) cols scan rows :
  FunctionColumnReader (r w) = Some rc ->
  (forall f, In f (List.filter (passing filt) rows) ->
     exists c, rc (argFilter f) = (Some c, None)) ->
  (forall f, passing filt (enrich rc f) = passing filt f) ->
  exists res',
    rangeNext (mkResultSet rows 0 filt cols scan) tt
      (fun (_ : unit) f =>
         args <- wrap
           ("failed to get columns of function " +:+ fnSchema f +:+ "." +:+
            fnSpecificName f)
           (getFunctionColumns w (fnCatalog f) (fnSchema f) (fnSpecificName f)) ;;
         ret (setArgTypes f args, tt)) =
    (map (fun f => EvQuery (QFunctionColumns (argFilter f)))
       (List.filter (passing filt) rows),
     Returned (res', tt)) /\
    remaining (Reset res') = map (enrich rc) (List.filter (passing filt) rows) /\
    columns res' = cols /\ scanValues res' = scan.
Proof.
  intros Hcap Hq Hp. rewrite rangeNext_spec.
  change (remaining (mkResultSet rows 0 filt cols scan))
    with (List.filter (passing filt) rows).
  rewrite (foldRows_enrich w rc _ Hcap Hq). cbn [bind ret].
  eexists. split; [rewrite app_nil_r; reflexivity|].
  split; [|split; reflexivity].
  unfold remaining, Reset, afterLoop.
  cbn [results current rfilter columns scanValues skipn firstn app].
  change (passes (mkResultSet rows 0 filt cols scan)) with (passing filt).
  rewrite patch_map.
  match goal with |- List.filter ?p _ = _ => change p with (passing filt) end.
  now apply filter_patched.
Qed.

(** C6. With both capabilities, a query for the functions that returns a
    fresh result set, and a function column query that returns a result set
    for each function shown, [DescribeFunctions] issues the function query,
    then one function column query for each function shown, in order, and
    then hands the encoder every function shown, from the first on, with its
    argument types replaced by the fragments of its function columns joined
    with a comma and a space.  The rows of ordinal position 0 give no
    fragment; a fragment is the mode and a space unless the mode is IN or
    empty, the name and a space unless the name is empty, and the data
    type. *)
Theorem DescribeFunctions_enriches (w : IngresWriter)
  (driver funcTypes' pattern : string) (verbose showSystem : bool)
  (rd : Filter -> QueryResult Function)
  (rc : Filter -> QueryResult FunctionColumn) (sp tp : string)
  (cols : list string) (scan : Function -> outcome (list value))
  (rows : list Function) :
  FunctionReader (r w) = Some rd ->
  FunctionColumnReader (r w) = Some rc ->
  parsePattern pattern = Returned (sp, tp) ->
  rd (mkFilter EmptyString sp EmptyString EmptyString tp
        (selectTypes (funcTypes w) funcTypes') showSystem)
    = (Some (NewResultSet cols scan rows), None) ->
  (forall f, In f (shownFunctions w showSystem rows) ->
     exists c, rc (argFilter f) = (Some c, None)) ->
  DescribeFunctions w driver funcTypes' pattern verbose showSystem =
    (EvQuery (QFunctions
       (mkFilter EmptyString sp EmptyString EmptyString tp
          (selectTypes (funcTypes w) funcTypes') showSystem)) ::
     map (fun f => EvQuery (QFunctionColumns (argFilter f)))
       (shownFunctions w showSystem rows) ++
     [EvEncode (<["title" := "List of functions"]> (Pall w))
        (functionColumns verbose)
        (map (fun f => functionCells verbose (enrich rc f))
           (shownFunctions w showSystem rows))],
     Returned tt) /\
  (forall f c,
     rc (argFilter f) = (Some c, None) ->
     fnArgTypes (enrich rc f) =
       Strings.Join
         (map argFragment
            (List.filter (fun a => negb (fcOrdinalPosition a =? 0)%Z) (remaining c)))
         ", ") /\
  (forall a,
     argFragment a =
       (if String.eqb (fcType a) "IN" || String.eqb (fcType a) EmptyString
        then EmptyString else fcType a +:+ " ") +:+
       (if String.eqb (fcName a) EmptyString then EmptyString
        else fcName a +:+ " ") +:+
       fcDataType a).
Proof.
  intros Hrd Hrc Hpat Hq Hcols. split; [|split].
  - unfold DescribeFunctions. rewrite Hrd, Hpat.
    unfold doQuery. cbn [lift wrap emit bind ret app]. rewrite Hq, Hrc.
    cbn [deref bind ret app].
    set (filt := if showSystem then None else Some (notSystem w fnSchema)).
    assert (Hshown : shownFunctions w showSystem rows
                     = List.filter (passing filt) rows).
    { unfold shownFunctions, filt. destruct showSystem; reflexivity. }
    assert (Hres : (if negb showSystem
                    then SetFilter (NewResultSet cols scan rows) (notSystem w fnSchema)
                    else NewResultSet cols scan rows)
                   = mkResultSet rows 0 filt cols scan).
    { unfold filt. destruct showSystem; reflexivity. }
    rewrite Hres. rewrite Hshown in Hcols |- *.
    destruct (enrich_loop w rc filt cols scan rows Hrc Hcols)
      as (res' & Hloop & Hrem & _ & _).
    { intros f. unfold filt. destruct showSystem; reflexivity. }
    rewrite Hloop. cbn [bind ret app]. unfold EncodeAll.
    change (remaining (SetScanValues (SetColumns (Reset res') (functionColumns verbose))
                         (functionScan verbose)))
      with (remaining (Reset res')).
    rewrite Hrem.
    cbn [scanValues SetScanValues columns SetColumns].
    rewrite functionScan_cells, map_map. cbn [lift bind emit app].
    rewrite !app_nil_r. reflexivity.
  - intros f c Hc. unfold enrich, argTypesOf. rewrite Hc. reflexivity.
  - intros a. unfold argFragment.
    destruct (String.eqb (fcType a) "IN"), (String.eqb (fcType a) EmptyString),
      (String.eqb (fcName a) EmptyString) eqn:En; cbn [negb andb orb];
      try reflexivity;
      apply String.eqb_eq in En; rewrite En; reflexivity.
Qed.

(** ** The distinct fraction *)

(** C2, as the specification states it, fails: with a row count of 0 the
    distinct fraction is [1.0] and is rendered as 1.0000, not as 0. *)
Lemma distFrac_zero_rows_is_one :
  distFrac 0 5 = Fmt.one /\
  Fmt.Sprintf4 (distFrac 0 5) = "1.0000" /\
  Fmt.Sprintf4 (distFrac 0 5) <> Fmt.Sprintf4 (Fmt.of_int64 0).
Proof. repeat split; try reflexivity. vm_compute. discriminate. Qed.

(** C2, amended.  The distinct fraction is [1.0] when the row count is 0 and
    when the number of distinct values equals the row count, and the
    quotient of the two as doubles otherwise; the statistics row shows it in
    its seventh cell through [%.4f], which prints a zero or finite double
    with four digits after the point: 1.0000 for [1.0], 0.2500 for 25
    distinct values in 100 rows. *)
Theorem distFrac_spec (rows numDistinct : Z) :
  (rows = 0%Z -> distFrac rows numDistinct = Fmt.one) /\
  (numDistinct = rows -> distFrac rows numDistinct = Fmt.one) /\
  (rows <> 0%Z -> numDistinct <> rows ->
   distFrac rows numDistinct =
     Fmt.div (Fmt.of_int64 numDistinct) (Fmt.of_int64 rows)) /\
  (forall verbose k f cells,
     csNumDistinct f = numDistinct ->
     statScan rows verbose k f = Returned cells ->
     nth_error cells 6 = Some (VString (Fmt.Sprintf4 (distFrac rows numDistinct)))) /\
  (forall x : Fmt.float64,
     match x with
     | S754_finite _ _ _ | S754_zero _ =>
         exists int frac,
           Fmt.Sprintf4 x = int +:+ "." +:+ frac /\ String.length frac = 4%nat
     | _ => True
     end) /\
  Fmt.Sprintf4 Fmt.one = "1.0000" /\
  Fmt.Sprintf4 (distFrac 100 100) = "1.0000" /\
  Fmt.Sprintf4 (distFrac 100 25) = "0.2500".
Proof.
  split; [intros ->; reflexivity|].
  split.
  { intros ->. unfold distFrac. rewrite Z.eqb_refl.
    now rewrite andb_false_r. }
  split.
  { intros H0 H1. unfold distFrac.
    apply Z.eqb_neq in H0, H1. now rewrite H0, H1. }
  split.
  { intros verbose k f cells <-. unfold statScan.
    destruct verbose.
    - destruct (sliceTo (csTopN f) _); try discriminate.
      destruct (sliceTo (map Fmt.Sprintf4 _) _); try discriminate.
      intros [= <-]. reflexivity.
    - intros [= <-]. reflexivity. }
  split; [apply Sprintf4_shape|].
  repeat split; vm_compute; reflexivity.
Qed.

(** ** The theorems at the sample catalogs *)

(** The check constraint section of the sample table: the two check
    constraints, without the not-null check and the foreign key. *)
Lemma check_section_rows_witness :
  writes (fst (checkSection ordersWriter "public" "orders")) =
    ["Check constraints:" +:+ newline;
     "  " +:+ quoted "orders_qty_check" +:+ " CHECK (qty > 0)" +:+ newline;
     "  " +:+ quoted "orders_price_check" +:+ " CHECK (price >= 0)" +:+ newline].
Proof.
  rewrite (proj1 (check_section_rows ordersWriter "public" "orders"
                    ordersConstraintQuery [] (fun _ => Returned []) ordersConstraints
                    None eq_refl eq_refl eq_refl)).
  reflexivity.
Defined.

(** The functions of the sample catalog outside the system schema, with
    their arguments. *)
Lemma DescribeFunctions_enriches_witness :
  encoded (fst (DescribeFunctions functionsWriter "ingres" "n" "*" false false)) =
    [[[VString "public"; VString "add"; VString "integer";
       VString "a integer, b integer"; VString "FUNCTION"];
      [VString "public"; VString "split"; VString "record";
       VString "text, OUT parts integer"; VString "PROCEDURE"]]].
Proof.
  rewrite (proj1 (DescribeFunctions_enriches functionsWriter "ingres" "n" "*"
                    false false sampleFunctionQuery sampleFunctionColumnQuery
                    EmptyString "%" [] (fun _ => Returned []) sampleFunctions
                    eq_refl eq_refl eq_refl eq_refl
                    (fun f _ =>
                       match String.eqb (fParent (argFilter f)) "add_1" as b
                         return exists c,
                           (if b then _ else _) = (Some c, None)
                       with
                       | true => ex_intro _ _ eq_refl
                       | false => ex_intro _ _ eq_refl
                       end))).
  vm_compute. reflexivity.
Defined.

(** The statistics of the sample table with a limit of 3: three of the ten
    top values and frequencies of [status], none of [id]. *)
Lemma ShowStats_top_n_witness :
  encoded (fst (ShowStats statsWriter "ingres" EmptyString "public.orders" true 3)) =
    [[[VString "public"; VString "orders"; VString "status"; VInt 8;
       VFloat (S754_zero false); VInt 25; VString "0.2500"; VString "a";
       VString "j"; VString EmptyString; VString "a, b, c";
       VString "0.3000, 0.2000, 0.1250"];
      [VString "public"; VString "orders"; VString "id"; VInt 4;
       VFloat (S754_zero false); VInt 100; VString "1.0000"; VString "1";
       VString "100"; VString "50.5"; VString EmptyString; VString EmptyString]]].
Proof.
  destruct (ShowStats_top_n statsWriter "ingres" EmptyString "public.orders" 3
              sampleStatQuery "public" "orders"
              (fst (tableRows statsWriter "public" "orders")) 100
              (NewResultSet [] (fun _ => Returned []) sampleStats)
              eq_refl eq_refl eq_refl eq_refl) as [H _].
  - discriminate.
  - intros f [<-|[<-|[]]]; reflexivity.
  - lia.
  - rewrite H. vm_compute. reflexivity.
Defined.

(** A pattern that matches a system view only: nothing is found. *)
Lemma relation_not_found_witness :
  DescribeTableDetails systemOnlyWriter "tab*" false false =
    ([EvQuery (QTables (mkFilter EmptyString EmptyString EmptyString EmptyString
                          "tab%" [] false));
      EvWrite (RelationNotFound "tab*"); EvWrite newline],
     Returned tt).
Proof.
  exact (proj1 (proj2 (proj2 (proj2
    (relation_not_found_when_nothing_matched systemOnlyWriter "tab*" false false
       EmptyString "tab%"
       [EvQuery (QTables (mkFilter EmptyString EmptyString EmptyString
                            EmptyString "tab%" [] false))]
       [] [] 0 0 0 eq_refl eq_refl eq_refl eq_refl))))).
Defined.

(** The same command on the sample table: one relation is found and the
    message is not written. *)
Lemma DescribeTableDetails_orders :
  snd (DescribeTableDetails ordersWriter "public.orders" false false) = Returned tt /\
  length (matchedTables ordersWriter "public" "orders" false) = 1%nat /\
  labelsOf (fst (DescribeTableDetails ordersWriter "public.orders" false false)) =
    sectionLabels /\
  ~ In (RelationNotFound "public.orders")
      (writes (fst (DescribeTableDetails ordersWriter "public.orders" false false))).
Proof.
  repeat split; try (vm_compute; reflexivity).
  vm_compute. intuition discriminate.
Qed.

(** The listing of the same pattern: the system view is filtered out. *)
Lemma ListTables_empty_witness :
  ListTables systemOnlyWriter "ingres" "tv" "tab*" false false =
    ([EvQuery (QTables (mkFilter EmptyString EmptyString EmptyString EmptyString
                          "tab%" ["TABLE"; "BASE TABLE"; "VIEW"] false));
      EvWrite (RelationNotFound "tab*"); EvWrite newline],
     Returned tt).
Proof.
  exact (ListTables_empty systemOnlyWriter "ingres" "tv" "tab*" false false
           systemTables EmptyString "tab%"
           (NewResultSet [] (fun _ => Returned []) 
              [mkTable EmptyString "information_schema" "tables" "VIEW" 0
                 EmptyString EmptyString])
           eq_refl eq_refl eq_refl eq_refl).
Defined.

(** The two columns of the outgoing foreign key of the sample table. *)
Lemma constraint_columns_paired_witness :
  getConstraintColumns ordersWriter EmptyString "public" "orders"
    "orders_customer_fkey" =
    ([EvQuery (QConstraintColumns
        (mkFilter EmptyString "public" "orders" EmptyString "orders_customer_fkey"
           [] false))],
     Returned ("customer_id, customer_region", "id, region")).
Proof.
  exact (proj1 (constraint_columns_paired ordersWriter EmptyString "public" "orders"
                  "orders_customer_fkey" ordersConstraintColumnQuery
                  (NewResultSet [] (fun _ => Returned [])
                     [mkConstraintColumn "customer_id" "id";
                      mkConstraintColumn "customer_region" "region"])
                  eq_refl eq_refl)).
Defined.

(* ================================================================= *)
(** * Further properties *)

#[local] Set Warnings "-clear-no-such-hyp".

(** ** More on patterns and type codes *)

Lemma ContainsRune_spec (s : string) (c : ascii) :
  Strings.ContainsRune s c = true <-> exists i, String.get i s = Some c.
Proof.
  unfold Strings.ContainsRune.
  destruct (Strings.IndexByte s c) as [m|] eqn:E.
  - split; [intros _|reflexivity].
    apply IndexByte_split in E. destruct E as (a & b & -> & <- & _).
    exists (String.length a). clear. induction a as [|x a IH]; [reflexivity|].
    rewrite append_cons. exact IH.
  - split; [discriminate|]. intros [i Hi]. exfalso.
    exact (proj1 (IndexByte_none s c) E i Hi).
Qed.

Lemma star_no_star (s : string) (i : nat) : String.get i (star s) <> Some "*"%char.
Proof.
  rewrite star_get. destruct (String.get i s) as [c|]; [|discriminate].
  cbn [option_map]. destruct (Ascii.eqb c "*") eqn:E; [discriminate|].
  intros [= ->]. now rewrite Ascii.eqb_refl in E.
Qed.

Lemma star_keeps_dots (s : string) (i : nat) :
  String.get i (star s) = Some "."%char -> String.get i s = Some "."%char.
Proof.
  rewrite star_get. destruct (String.get i s) as [c|]; [|discriminate].
  cbn [option_map]. destruct (Ascii.eqb c "*"); [discriminate|trivial].
Qed.

Lemma star_id (s : string) :
  (forall i, String.get i s <> Some "*"%char) -> star s = s.
Proof.
  unfold star. induction s as [|x s IH]; intros H; [reflexivity|].
  cbn [Strings.ReplaceAll]. destruct (Ascii.eqb x "*") eqn:E.
  - apply Ascii.eqb_eq in E. subst x. exfalso. apply (H 0%nat). reflexivity.
  - f_equal. apply IH. intros i. apply (H (S i)).
Qed.

(** X4. The fragments [parsePattern] returns hold no star, and the schema
    fragment holds no dot.  Without a dot in the pattern the schema fragment
    is empty and the name fragment is as long as the pattern; with one, the
    two fragments and the dot make up the length of the pattern. *)
Theorem parsePattern_fragments (pattern : string) :
  match parsePattern pattern with
  | Returned (sp, tp) =>
      (forall i, String.get i sp <> Some "*"%char) /\
      (forall i, String.get i tp <> Some "*"%char) /\
      (forall i, String.get i sp <> Some "."%char) /\
      (((forall i, String.get i pattern <> Some "."%char) /\
        sp = EmptyString /\ String.length tp = String.length pattern) \/
       ((exists i, String.get i pattern = Some "."%char) /\
        String.length sp + 1 + String.length tp = String.length pattern)%nat)
  | _ => False
  end.
Proof.
  destruct (Strings.IndexByte pattern ".") as [m|] eqn:E.
  - apply IndexByte_split in E. destruct E as (a & b & -> & _ & Hn).
    rewrite (parsePattern_dot a b Hn).
    split; [exact (star_no_star _)|]. split; [exact (star_no_star _)|].
    split; [intros i Hi; exact (Hn i (star_keeps_dots a i Hi))|].
    right. split.
    + apply (proj1 (ContainsRune_spec _ _)). unfold Strings.ContainsRune.
      now rewrite (IndexByte_first a "." b Hn).
    + rewrite !star_length, length_append. cbn [String.length]. lia.
  - pose proof (proj1 (IndexByte_none pattern ".") E) as E'. clear E.
    rewrite (parsePattern_nodot pattern E').
    split; [intros [|i]; discriminate|]. split; [exact (star_no_star _)|].
    split; [intros [|i]; discriminate|].
    left. split; [exact E'|]. split; [reflexivity | apply star_length].
Qed.

(** X5. A schema and a name joined by a dot parse back to the schema and
    the name, when the schema holds no dot and neither holds a star. *)
Theorem parsePattern_qualified (schema name : string) :
  (forall i, String.get i schema <> Some "."%char) ->
  (forall i, String.get i schema <> Some "*"%char) ->
  (forall i, String.get i name <> Some "*"%char) ->
  parsePattern (schema +:+ String "." name) = Returned (schema, name).
Proof.
  intros Hd Hs Hn. rewrite (parsePattern_dot schema name Hd).
  now rewrite (star_id schema Hs), (star_id name Hn).
Qed.

Lemma selectTypes_In (table : list (ascii * list string)) (codes ty : string) :
  In ty (selectTypes table codes) <->
  exists k v, In (k, v) table /\ (exists i, String.get i codes = Some k) /\ In ty v.
Proof.
  unfold selectTypes. rewrite in_flat_map. split.
  - intros [[k v] [Hin Hty]]. cbn [fst snd] in Hty.
    destruct (Strings.ContainsRune codes k) eqn:E; [|destruct Hty].
    exists k, v. split; [exact Hin|]. split; [now apply ContainsRune_spec | exact Hty].
  - intros (k & v & Hin & Hc & Hty). exists (k, v). split; [exact Hin|].
    cbn [fst snd]. apply ContainsRune_spec in Hc. now rewrite Hc.
Qed.

(** X6. The types [selectTypes] gathers are those of the table entries whose
    code occurs in the flags.  Another order of the entries of the table
    (the order a [range] over the map takes) gives the same types in
    another order, and flags with the same codes, in any order and any
    number, give the same types. *)
Theorem selectTypes_spec (table table' : list (ascii * list string))
  (codes codes' : string) :
  (forall ty,
     In ty (selectTypes table codes) <->
     exists k v, In (k, v) table /\ (exists i, String.get i codes = Some k) /\
                 In ty v) /\
  (Permutation table table' ->
   Permutation (selectTypes table codes) (selectTypes table' codes)) /\
  ((forall k, (exists i, String.get i codes = Some k) <->
              (exists i, String.get i codes' = Some k)) ->
   selectTypes table codes = selectTypes table codes').
Proof.
  split; [intros ty; apply selectTypes_In|]. split.
  - intros Hp. unfold selectTypes. now rewrite Hp.
  - intros H. unfold selectTypes. apply flat_map_ext. intros [k v]. cbn [fst snd].
    destruct (Strings.ContainsRune codes k) eqn:E1,
             (Strings.ContainsRune codes' k) eqn:E2; try reflexivity.
    + apply ContainsRune_spec, H, ContainsRune_spec in E1. congruence.
    + apply ContainsRune_spec, H, ContainsRune_spec in E2. congruence.
Qed.

(** ** The first row of a result set *)

Lemma advance_spec {A} (f : A -> bool) (suf : list A) :
  forall pos,
  match List.filter f suf with
  | [] => advance f suf pos = S (pos + length suf)
  | x :: _ =>
      exists i, advance f suf pos = S (pos + i) /\ nth_error suf i = Some x /\
                (i < length suf)%nat
  end.
Proof.
  induction suf as [|y suf IH]; intros pos; cbn [List.filter advance length].
  - lia.
  - destruct (f y) eqn:E.
    + exists 0%nat. repeat split; [f_equal; lia | lia].
    + specialize (IH (S pos)). destruct (List.filter f suf) as [|x l].
      * rewrite IH. lia.
      * destruct IH as (i & -> & Hn & Hl). exists (S i).
        repeat split; [f_equal; lia | exact Hn | lia].
Qed.

(** [Next] stops at the first remaining row and [Get] returns it; without a
    remaining row [Next] answers false. *)
Lemma Next_first {A} (res : ResultSet A) :
  match remaining res with
  | [] => fst (Next res) = false
  | x :: _ => fst (Next res) = true /\ Get (snd (Next res)) = Returned x
  end.
Proof.
  unfold remaining, Next. cbn [fst snd].
  pose proof (advance_spec (passes res) (skipn (current res) (results res))
                (current res)) as H.
  pose proof (length_skipn (current res) (results res)) as Hl.
  destruct (List.filter _ _) as [|x l].
  - rewrite H. apply Nat.leb_gt. lia.
  - destruct H as (i & -> & Hn & Hi). split.
    + apply Nat.leb_le. lia.
    + unfold Get, index. cbn [current results].
      rewrite nth_error_skipn in Hn. now rewrite Hn.
Qed.

Lemma tableRows_writes (w : IngresWriter) (sp tp : string) :
  writes (fst (tableRows w sp tp)) = [].
Proof.
  unfold tableRows. destruct (TableReader (r w)) as [tr|]; [|reflexivity].
  unfold doQuery. cbn [emit bind ret app].
  destruct (tr _) as [tables [e|]]; [reflexivity|].
  destruct tables as [tables|]; [|reflexivity]. cbn [deref bind ret app].
  destruct (Next tables) as [[] tables'].
  - now destruct (Get tables').
  - reflexivity.
Qed.

(** X9. The row count [ShowStats] divides by is the row count of the first
    table the table query returns for the pattern, under no system schema
    filter, and 0 when the query returns no table or the reader has no table
    capability; an error of the query is returned wrapped, and no branch
    writes. *)
Theorem tableRows_first (w : IngresWriter) (sp tp : string) :
  (TableReader (r w) = None -> tableRows w sp tp = ([], Returned 0%Z)) /\
  (forall tr tables,
     TableReader (r w) = Some tr ->
     tr (mkFilter EmptyString sp EmptyString EmptyString tp [] false)
       = (Some tables, None) ->
     tableRows w sp tp =
       ([EvQuery (QTables
           (mkFilter EmptyString sp EmptyString EmptyString tp [] false))],
        Returned (match remaining tables with
                  | [] => 0%Z
                  | t :: _ => tRows t
                  end))) /\
  (forall tr tables e,
     TableReader (r w) = Some tr ->
     tr (mkFilter EmptyString sp EmptyString EmptyString tp [] false)
       = (tables, Some e) ->
     tableRows w sp tp =
       ([EvQuery (QTables
           (mkFilter EmptyString sp EmptyString EmptyString tp [] false))],
        Failed (ErrWrap "failed to get table entry" e))) /\
  writes (fst (tableRows w sp tp)) = [].
Proof.
  split; [intros H; unfold tableRows; now rewrite H|]. split; [|split].
  - intros tr tables Hcap Hq. unfold tableRows. rewrite Hcap.
    unfold doQuery. cbn [emit bind ret app]. rewrite Hq.
    cbn [deref bind ret app].
    pose proof (Next_first tables) as H.
    destruct (Next tables) as [more tables'] eqn:EN. cbn [fst snd] in H.
    destruct (remaining tables) as [|t l].
    + rewrite H. reflexivity.
    + destruct H as [-> ->]. reflexivity.
  - intros tr tables e Hcap Hq. unfold tableRows. rewrite Hcap.
    unfold doQuery. cbn [emit bind ret app]. rewrite Hq. reflexivity.
  - apply tableRows_writes.
Qed.

(** ** Commands on a reader that lacks a capability or fails *)

(** X7. A command whose reader lacks the capability it lists with returns
    the not supported by driver error for its backslash command, having
    queried and written nothing; [ListAllDbs] does so only without a
    [listAllDbs] function.  [DescribeTableDetails] has no such error: on a
    reader without the table or the column, without the sequence, and
    without the index or the index column capability it writes the relation
    not found message and returns without an error. *)
Theorem commands_without_capability (w : FullWriter)
  (driver codes pattern : string) (verbose showSystem : bool) (k : Z) :
  (FunctionReader (r (core w)) = None ->
   DescribeFunctions (core w) driver codes pattern verbose showSystem =
     ([], Failed (ErrNotSupportedByDriver "\df" driver))) /\
  (TableReader (r (core w)) = None ->
   ListTables (core w) driver codes pattern verbose showSystem =
     ([], Failed (ErrNotSupportedByDriver "\dt" driver))) /\
  (IndexReader (r (core w)) = None ->
   ListIndexes (core w) driver pattern verbose showSystem =
     ([], Failed (ErrNotSupportedByDriver "\di" driver))) /\
  (ColumnStatReader (r (core w)) = None ->
   ShowStats (core w) driver codes pattern verbose k =
     ([], Failed (ErrNotSupportedByDriver "\ss" driver))) /\
  (SchemaReader (more w) = None ->
   ListSchemas w driver pattern verbose showSystem =
     ([], Failed (ErrNotSupportedByDriver "\d" driver))) /\
  (listAllDbs w = None -> CatalogReader (more w) = None ->
   ListAllDbs w driver pattern verbose =
     ([], Failed (ErrNotSupportedByDriver "\l" driver))) /\
  (PrivilegeSummaryReader (more w) = None ->
   ListPrivilegeSummaries w driver pattern showSystem =
     ([], Failed (ErrNotSupportedByDriver "\dp" driver))) /\
  ((TableReader (r (core w)) = None \/ ColumnReader (r (core w)) = None) ->
   SequenceReader (r (core w)) = None ->
   (IndexReader (r (core w)) = None \/ IndexColumnReader (r (core w)) = None) ->
   DescribeTableDetails (core w) pattern verbose showSystem =
     ([EvWrite (RelationNotFound pattern); EvWrite newline], Returned tt)).
Proof.
  split; [intros H; unfold DescribeFunctions; now rewrite H|].
  split; [intros H; unfold ListTables; now rewrite H|].
  split; [intros H; unfold ListIndexes; now rewrite H|].
  split; [intros H; unfold ShowStats; now rewrite H|].
  split; [intros H; unfold ListSchemas; now rewrite H|].
  split; [intros H1 H2; unfold ListAllDbs; now rewrite H1, H2|].
  split; [intros H; unfold ListPrivilegeSummaries; now rewrite H|].
  intros HT HS HI. unfold DescribeTableDetails.
  destruct (parsePattern_total pattern) as (sp & tp & ->).
  cbn [lift wrap bind app].
  assert (ET : describeTables (core w) sp tp verbose showSystem = ([], Returned 0%Z)).
  { unfold describeTables. destruct HT as [-> | ->]; [reflexivity|].
    now destruct (TableReader (r (core w))). }
  assert (EI : describeIndexes (core w) sp tp showSystem = ([], Returned 0%Z)).
  { unfold describeIndexes. destruct HI as [-> | ->]; [reflexivity|].
    now destruct (IndexReader (r (core w))). }
  rewrite ET. unfold sequencePart. rewrite HS, EI. reflexivity.
Qed.

(** X8. When the query a listing command lists with returns an error, be it
    the not supported sentinel, the command returns it wrapped with the
    name of what it failed to list, and writes nothing. *)
Theorem commands_query_error (w : FullWriter) (driver codes pattern : string)
  (verbose showSystem : bool) (k : Z) (e : error) :
  match parsePattern pattern with
  | Returned (sp, tp) =>
      (forall rd res,
         FunctionReader (r (core w)) = Some rd ->
         rd (mkFilter EmptyString sp EmptyString EmptyString tp
               (selectTypes (funcTypes (core w)) codes) showSystem) = (res, Some e) ->
         snd (DescribeFunctions (core w) driver codes pattern verbose showSystem) =
           Failed (ErrWrap "failed to list functions" e) /\
         writes (fst (DescribeFunctions (core w) driver codes pattern verbose
                        showSystem)) = []) /\
      (forall rd res,
         TableReader (r (core w)) = Some rd ->
         rd (mkFilter EmptyString sp EmptyString EmptyString tp
               (selectTypes (tableTypes (core w)) codes) showSystem) = (res, Some e) ->
         snd (ListTables (core w) driver codes pattern verbose showSystem) =
           Failed (ErrWrap "failed to list tables" e) /\
         writes (fst (ListTables (core w) driver codes pattern verbose showSystem))
           = []) /\
      (forall rd res,
         IndexReader (r (core w)) = Some rd ->
         rd (mkFilter EmptyString sp EmptyString EmptyString tp [] showSystem)
           = (res, Some e) ->
         snd (ListIndexes (core w) driver pattern verbose showSystem) =
           Failed (ErrWrap "failed to list indexes" e) /\
         writes (fst (ListIndexes (core w) driver pattern verbose showSystem)) = []) /\
      (forall rd res tq rows,
         ColumnStatReader (r (core w)) = Some rd ->
         tableRows (core w) sp tp = (tq, Returned rows) ->
         rd (mkFilter EmptyString sp tp EmptyString EmptyString
               ("basic" :: if verbose then ["extended"] else []) false)
           = (res, Some e) ->
         snd (ShowStats (core w) driver codes pattern verbose k) =
           Failed (ErrWrap "failed to get column stats" e) /\
         writes (fst (ShowStats (core w) driver codes pattern verbose k)) = []) /\
      (forall rd res,
         PrivilegeSummaryReader (more w) = Some rd ->
         rd (mkFilter EmptyString sp EmptyString EmptyString tp
               (selectTypes (tableTypes (core w)) "tvms") showSystem)
           = (res, Some e) ->
         ListPrivilegeSummaries w driver pattern showSystem =
           ([], Failed (ErrWrap "failed to list table privileges" e)))
  | _ => False
  end /\
  (forall rd res,
     SchemaReader (more w) = Some rd ->
     rd (mkFilter EmptyString EmptyString EmptyString EmptyString pattern []
           showSystem) = (res, Some e) ->
     ListSchemas w driver pattern verbose showSystem =
       ([], Failed (ErrWrap "failed to list schemas" e))) /\
  (forall rd res,
     listAllDbs w = None -> CatalogReader (more w) = Some rd ->
     rd (mkFilter EmptyString EmptyString EmptyString EmptyString pattern []
           false) = (res, Some e) ->
     ListAllDbs w driver pattern verbose =
       ([], Failed (ErrWrap "failed to list catalogs" e))).
Proof.
  split; [|split].
  - destruct (parsePattern_total pattern) as (sp & tp & Hp). rewrite Hp.
    split; [|split; [|split; [|split]]].
    + intros rd res Hcap Hq. unfold DescribeFunctions. rewrite Hcap, Hp.
      unfold doQuery. cbn [lift wrap emit bind ret app]. rewrite Hq.
      split; reflexivity.
    + intros rd res Hcap Hq. unfold ListTables. rewrite Hcap, Hp.
      unfold doQuery. cbn [lift wrap emit bind ret app]. rewrite Hq.
      split; reflexivity.
    + intros rd res Hcap Hq. unfold ListIndexes. rewrite Hcap, Hp.
      unfold doQuery. cbn [lift wrap emit bind ret app]. rewrite Hq.
      split; reflexivity.
    + intros rd res tq rows Hcap Hrows Hq.
      pose proof (tableRows_writes (core w) sp tp) as Hw.
      rewrite Hrows in Hw. cbn [fst] in Hw.
      unfold ShowStats. rewrite Hcap, Hp. cbn [lift wrap bind app].
      rewrite Hrows. unfold doQuery. cbn [emit bind ret app]. rewrite Hq.
      split; [reflexivity|].
      unfold fail. cbn [fst]. rewrite writes_app, Hw. reflexivity.
    + intros rd res Hcap Hq. unfold ListPrivilegeSummaries. rewrite Hcap, Hp.
      unfold callReader. cbn [lift wrap bind ret app]. rewrite Hq. reflexivity.
  - intros rd res Hcap Hq. unfold ListSchemas. rewrite Hcap.
    unfold callReader. cbn [bind ret app]. rewrite Hq. reflexivity.
  - intros rd res Hl Hcap Hq. unfold ListAllDbs. rewrite Hl, Hcap.
    unfold callReader. cbn [bind ret app]. rewrite Hq. reflexivity.
Qed.

(** ** What the listings show *)

Lemma notSystem_spec {A} (w : IngresWriter) (schema : A -> string) (x : A) :
  notSystem w schema x = true <-> schema x ∉ systemSchemas w.
Proof.
  unfold notSystem. rewrite negb_true_iff, bool_decide_eq_false. reflexivity.
Qed.

Lemma shownRows_remaining {A} (w : IngresWriter) (schema : A -> string)
  (showSystem : bool) cols scan (rows : list A) :
  remaining (if negb showSystem
             then SetFilter (NewResultSet cols scan rows) (notSystem w schema)
             else NewResultSet cols scan rows)
  = shownRows w schema showSystem rows.
Proof. destruct showSystem; reflexivity. Qed.

Lemma shownRows_Len {A} (w : IngresWriter) (schema : A -> string)
  (showSystem : bool) cols scan (rows : list A) :
  Len (if negb showSystem
       then SetFilter (NewResultSet cols scan rows) (notSystem w schema)
       else NewResultSet cols scan rows)
  = length (shownRows w schema showSystem rows).
Proof. destruct showSystem; reflexivity. Qed.

Lemma shownRows_outside {A} (w : IngresWriter) (schema : A -> string)
  (rows : list A) (x : A) :
  In x (shownRows w schema false rows) <-> In x rows /\ schema x ∉ systemSchemas w.
Proof.
  unfold shownRows. rewrite filter_In. cbn [orb]. now rewrite notSystem_spec.
Qed.

Lemma shownRows_all {A} (w : IngresWriter) (schema : A -> string) (rows : list A) :
  shownRows w schema true rows = rows.
Proof.
  unfold shownRows. cbn [orb].
  induction rows as [|x rows IH]; [reflexivity|]. cbn [List.filter]. now rewrite IH.
Qed.

(** X10. When the table query returns a fresh result set, [ListTables] hands
    the encoder the rows it shows, in their order, under the two headers of
    the short form or the five of the long form, each row with as many
    cells as there are headers; when it shows none it writes the relation
    not found message instead.  With [showSystem] it shows every row, and
    without it exactly the rows whose schema is no system schema, whether
    or not the reader filtered them. *)
Theorem ListTables_rows (w : IngresWriter) (driver codes pattern : string)
  (verbose showSystem : bool) (rd : Filter -> QueryResult Table) (sp tp : string)
  (cols : list string) (scan : Table -> outcome (list value)) (rows : list Table) :
  TableReader (r w) = Some rd ->
  parsePattern pattern = Returned (sp, tp) ->
  rd (mkFilter EmptyString sp EmptyString EmptyString tp
        (selectTypes (tableTypes w) codes) showSystem)
    = (Some (NewResultSet cols scan rows), None) ->
  let shown := shownRows w tSchema showSystem rows in
  ListTables w driver codes pattern verbose showSystem =
    (EvQuery (QTables (mkFilter EmptyString sp EmptyString EmptyString tp
                         (selectTypes (tableTypes w) codes) showSystem)) ::
     match shown with
     | [] => [EvWrite (RelationNotFound pattern); EvWrite newline]
     | _ => [EvEncode (<["title" := "List of relations"]> (Pall w))
               (tableColumns verbose) (map (tableCells verbose) shown)]
     end,
     Returned tt) /\
  (forall t, length (tableCells verbose t) = length (tableColumns verbose)) /\
  (showSystem = true -> shown = rows) /\
  (showSystem = false ->
   forall t, In t shown <-> In t rows /\ tSchema t ∉ systemSchemas w).
Proof.
  intros Hcap Hpat Hq shown. split; [|split; [|split]].
  - unfold ListTables. rewrite Hcap, Hpat.
    unfold doQuery. cbn [lift wrap emit bind ret app]. rewrite Hq.
    cbn [deref bind ret app]. rewrite shownRows_Len. fold shown.
    destruct shown as [|t shown'] eqn:E; [reflexivity|].
    cbn [length Nat.eqb]. unfold EncodeAll.
    change (remaining (SetScanValues (SetColumns ?x (tableColumns verbose))
                         (tableScan verbose)))
      with (remaining x).
    rewrite shownRows_remaining. fold shown. rewrite E.
    cbn [scanValues SetScanValues columns SetColumns].
    rewrite (scanAll_map (tableScan verbose) (tableCells verbose))
      by reflexivity.
    reflexivity.
  - intros t. now destruct verbose.
  - intros ->. apply shownRows_all.
  - intros -> t. apply shownRows_outside.
Qed.

(** X11. [ListIndexes] does the same with the index query: the relation not
    found message when it shows no row, and otherwise the rows it shows
    under four headers, or six in the long form, each row with as many
    cells as headers; without [showSystem] no index of a system schema is
    shown. *)
Theorem ListIndexes_rows (w : IngresWriter) (driver pattern : string)
  (verbose showSystem : bool) (rd : Filter -> QueryResult Index) (sp tp : string)
  (cols : list string) (scan : Index -> outcome (list value)) (rows : list Index) :
  IndexReader (r w) = Some rd ->
  parsePattern pattern = Returned (sp, tp) ->
  rd (mkFilter EmptyString sp EmptyString EmptyString tp [] showSystem)
    = (Some (NewResultSet cols scan rows), None) ->
  let shown := shownRows w iSchema showSystem rows in
  ListIndexes w driver pattern verbose showSystem =
    (EvQuery (QIndexes (mkFilter EmptyString sp EmptyString EmptyString tp []
                          showSystem)) ::
     match shown with
     | [] => [EvWrite (RelationNotFound pattern); EvWrite newline]
     | _ => [EvEncode (<["title" := "List of indexes"]> (Pall w))
               (indexColumns verbose) (map (indexCells verbose) shown)]
     end,
     Returned tt) /\
  (forall i, length (indexCells verbose i) = length (indexColumns verbose)) /\
  (showSystem = true -> shown = rows) /\
  (showSystem = false ->
   forall i, In i shown <-> In i rows /\ iSchema i ∉ systemSchemas w).
Proof.
  intros Hcap Hpat Hq shown. split; [|split; [|split]].
  - unfold ListIndexes. rewrite Hcap, Hpat.
    unfold doQuery. cbn [lift wrap emit bind ret app]. rewrite Hq.
    cbn [deref bind ret app]. rewrite shownRows_Len. fold shown.
    destruct shown as [|t shown'] eqn:E; [reflexivity|].
    cbn [length Nat.eqb]. unfold EncodeAll.
    change (remaining (SetScanValues (SetColumns ?x (indexColumns verbose))
                         (indexScan verbose)))
      with (remaining x).
    rewrite shownRows_remaining. fold shown. rewrite E.
    cbn [scanValues SetScanValues columns SetColumns].
    rewrite (scanAll_map (indexScan verbose) (indexCells verbose))
      by reflexivity.
    reflexivity.
  - intros t. now destruct verbose.
  - intros ->. apply shownRows_all.
  - intros -> t. apply shownRows_outside.
Qed.

(** X12. [ListSchemas], [ListAllDbs] and [ListPrivilegeSummaries] hand the
    encoder the rows they show even when there are none: they have no
    relation not found message.  [ListSchemas] and [ListAllDbs] query with
    the pattern as it is given, no star translated, and [ListAllDbs] applies
    no system schema filter.  With a [listAllDbs] function, [ListAllDbs] is
    that function and the reader is not consulted. *)
Theorem listings_without_empty_check (w : FullWriter) (driver pattern : string)
  (verbose showSystem : bool) :
  (forall rd cols scan rows cells,
     SchemaReader (more w) = Some rd ->
     rd (mkFilter EmptyString EmptyString EmptyString EmptyString pattern []
           showSystem) = (Some (NewResultSet cols scan rows), None) ->
     scanAll scan (shownRows (core w) scSchema showSystem rows) = Returned cells ->
     ListSchemas w driver pattern verbose showSystem =
       ([EvEncode (<["title" := "List of schemas"]> (Pall (core w))) cols cells],
        Returned tt)) /\
  (forall rd res cells,
     listAllDbs w = None ->
     CatalogReader (more w) = Some rd ->
     rd (mkFilter EmptyString EmptyString EmptyString EmptyString pattern []
           false) = (Some res, None) ->
     scanAll (scanValues res) (remaining res) = Returned cells ->
     ListAllDbs w driver pattern verbose =
       ([EvEncode (<["title" := "List of databases"]> (Pall (core w)))
           (columns res) cells],
        Returned tt)) /\
  (forall f,
     listAllDbs w = Some f -> ListAllDbs w driver pattern verbose = f pattern verbose) /\
  (forall rd sp tp cols scan rows,
     PrivilegeSummaryReader (more w) = Some rd ->
     parsePattern pattern = Returned (sp, tp) ->
     rd (mkFilter EmptyString sp EmptyString EmptyString tp
           (selectTypes (tableTypes (core w)) "tvms") showSystem)
       = (Some (NewResultSet cols scan rows), None) ->
     ListPrivilegeSummaries w driver pattern showSystem =
       ([EvEncode (<["title" := "Access privileges"]> (Pall (core w))) cols
           (map privilegeCells (shownRows (core w) psSchema showSystem rows))],
        Returned tt)).
Proof.
  split; [|split; [|split]].
  - intros rd cols scan rows cells Hcap Hq Hscan. unfold ListSchemas.
    rewrite Hcap. unfold callReader. cbn [bind ret app]. rewrite Hq.
    cbn [deref bind ret app]. unfold EncodeAll.
    rewrite shownRows_remaining.
    replace (scanValues _) with scan by (now destruct showSystem).
    replace (columns _) with cols by (now destruct showSystem).
    rewrite Hscan. reflexivity.
  - intros rd res cells Hl Hcap Hq Hscan. unfold ListAllDbs.
    rewrite Hl, Hcap. unfold callReader. cbn [bind ret app]. rewrite Hq.
    cbn [deref bind ret app]. unfold EncodeAll. rewrite Hscan. reflexivity.
  - intros f Hl. unfold ListAllDbs. now rewrite Hl.
  - intros rd sp tp cols scan rows Hcap Hpat Hq. unfold ListPrivilegeSummaries.
    rewrite Hcap, Hpat. unfold callReader. cbn [lift wrap bind ret app].
    rewrite Hq. cbn [deref bind ret app]. unfold EncodeAll.
    change (remaining (SetScanValues ?x privilegeScan)) with (remaining x).
    rewrite shownRows_remaining.
    cbn [scanValues SetScanValues columns].
    rewrite (scanAll_map privilegeScan privilegeCells) by reflexivity.
    replace (columns _) with cols by (now destruct showSystem).
    reflexivity.
Qed.

(** ** The statistics rows *)

(** X13. The projector of [ShowStats] in the short form returns seven cells
    whatever the limit and the top value lists are.  In the long form a
    negative limit makes it panic, on the slice expression; with a limit of
    at least 0 it returns twelve cells as long as the top values are at
    least as many as the smaller of the limit and the number of
    frequencies. *)
Theorem statScan_bounds (rows k : Z) (f : ColumnStat) :
  statScan rows false k f = Returned (statBasicCells rows f) /\
  length (statBasicCells rows f) = length (statColumns false) /\
  ((k < 0)%Z -> statScan rows true k f = Panicked) /\
  ((0 <= k)%Z ->
   (Nat.min (Z.to_nat k) (length (csTopNFreqs f)) <= length (csTopN f))%nat ->
   exists cells,
     statScan rows true k f = Returned cells /\
     length cells = length (statColumns true)).
Proof.
  split; [reflexivity|]. split; [reflexivity|]. split.
  - intros Hk. unfold statScan, topCount, sliceTo.
    destruct (k >? _)%Z eqn:E; [apply Z.gtb_lt in E; lia|].
    replace (0 <=? k)%Z with false by (symmetry; apply Z.leb_gt; lia).
    reflexivity.
  - intros Hk Hmin. unfold statScan.
    rewrite (topCount_min k _ Hk). rewrite length_map.
    rewrite !sliceTo_firstn by (rewrite ?length_map; lia).
    eexists. split; reflexivity.
Qed.

(** X14. In the short form, with a statistics query that returns a result
    set, [ShowStats] cannot panic: after the table row count query it
    queries the basic statistics and writes the relation not found message
    when the result set counts no row, and otherwise hands the encoder seven
    cells for each remaining row, the distinct fraction of every row
    computed against the one row count. *)
Theorem ShowStats_short (w : IngresWriter) (driver statTypes pattern : string)
  (k : Z) (rd : Filter -> QueryResult ColumnStat) (sp tp : string)
  (tq : list Event) (rows : Z) (res : ResultSet ColumnStat) :
  ColumnStatReader (r w) = Some rd ->
  parsePattern pattern = Returned (sp, tp) ->
  tableRows w sp tp = (tq, Returned rows) ->
  rd (mkFilter EmptyString sp tp EmptyString EmptyString ["basic"] false)
    = (Some res, None) ->
  ShowStats w driver statTypes pattern false k =
    (tq ++
     EvQuery (QColumnStats
       (mkFilter EmptyString sp tp EmptyString EmptyString ["basic"] false)) ::
     (if (Len res =? 0)%nat
      then [EvWrite (RelationNotFound pattern); EvWrite newline]
      else [EvEncode (<["title" := "Column stats"]> (Pall w)) (statColumns false)
              (map (statBasicCells rows) (remaining res))]),
     Returned tt).
Proof.
  intros Hcap Hpat Hrows Hq. unfold ShowStats. rewrite Hcap, Hpat.
  cbn [lift wrap bind app]. rewrite Hrows.
  unfold doQuery. cbn [emit bind ret app]. rewrite Hq.
  cbn [deref bind ret app].
  destruct (Len res =? 0)%nat; [reflexivity|].
  unfold EncodeAll.
  change (remaining (SetScanValues (SetColumns res (statColumns false))
                       (statScan rows false k)))
    with (remaining res).
  cbn [scanValues SetScanValues columns SetColumns].
  rewrite (scanAll_map (statScan rows false k) (statBasicCells rows))
    by reflexivity.
  reflexivity.
Qed.

(** ** Sequences and indexes of [DescribeTableDetails] *)

Lemma foldRows_each {A} (act : A -> M unit) (ev : A -> list Event) (rows : list A) :
  (forall x, In x rows -> act x = (ev x, Returned tt)) ->
  forall acc : Z,
  foldRows (fun found x => act x ;; ret (x, (found + 1)%Z)) acc rows =
  (flat_map ev rows, Returned (rows, (acc + Z.of_nat (length rows))%Z)).
Proof.
  induction rows as [|x rows IH]; intros H acc.
  - cbn. now rewrite Z.add_0_r.
  - cbn [foldRows]. rewrite (H x) by now left. cbn [bind ret app].
    rewrite app_nil_r.
    rewrite IH by (intros y Hy; apply H; now right).
    cbn [bind ret flat_map length]. rewrite app_nil_r.
    rewrite Nat2Z.inj_succ. f_equal. f_equal. f_equal. lia.
Qed.

Lemma foldRows_unit {A} (body : unit -> A -> M (A * unit))
  (ev : A -> list Event) (g : A -> A) (rows : list A) :
  (forall x, In x rows -> body tt x = (ev x, Returned (g x, tt))) ->
  foldRows body tt rows = (flat_map ev rows, Returned (map g rows, tt)).
Proof.
  induction rows as [|x rows IH]; intros H; [reflexivity|].
  cbn [foldRows]. rewrite (H x) by now left. cbn [bind ret app].
  rewrite IH by (intros y Hy; apply H; now right).
  cbn [bind ret flat_map map]. now rewrite app_nil_r.
Qed.

(** X15. When the sequence query returns a result set, with no error or
    with the not supported sentinel, [describeSequences] hands the encoder
    one table of one row for each remaining sequence, titled with its
    schema and name and with the footer off, and returns their number.  It
    installs no filter: the sequences of the system schemas are among them
    whether or not [showSystem] is set. *)
Theorem describeSequences_each (w : IngresWriter) (sp tp : string)
  (verbose showSystem : bool) (rd : Filter -> QueryResult Sequence)
  (res : ResultSet Sequence) (err : option error) :
  SequenceReader (r w) = Some rd ->
  rd (mkFilter EmptyString sp EmptyString EmptyString tp [] showSystem)
    = (Some res, err) ->
  hardError err = None ->
  describeSequences w sp tp verbose showSystem =
    (EvQuery (QSequences
       (mkFilter EmptyString sp EmptyString EmptyString tp [] showSystem)) ::
     map (fun s => EvEncode (sequenceParams w s) [] [sAttrs s]) (remaining res),
     Returned (Z.of_nat (length (remaining res)))) /\
  (forall s, sequenceParams w s !! "footer" = Some "off").
Proof.
  intros Hcap Hq Herr. split.
  - unfold describeSequences. rewrite Hcap.
    unfold doQuery. cbn [assertCap emit bind ret app]. rewrite Hq, Herr.
    rewrite rangeNext_spec.
    rewrite (foldRows_each
               (fun s => EncodeAll (NewSequenceSet [s]) (sequenceParams w s))
               (fun s => [EvEncode (sequenceParams w s) [] [sAttrs s]]))
      by reflexivity.
    cbn [bind ret app]. rewrite !app_nil_r. rewrite Z.add_0_l.
    f_equal.
  - intros s. unfold sequenceParams.
    rewrite lookup_insert_ne by discriminate. apply lookup_insert_eq.
Qed.

Lemma describeIndex_fresh (w : IngresWriter) (i : Index)
  (rd : Filter -> QueryResult IndexColumn) (cols : list string)
  (scan : IndexColumn -> outcome (list value)) (rows : list IndexColumn) :
  IndexColumnReader (r w) = Some rd ->
  rd (mkFilter EmptyString (iSchema i) (iTable i) EmptyString (iName i) [] false)
    = (Some (NewResultSet cols scan rows), None) ->
  describeIndex w i =
    (EvQuery (QIndexColumns
       (mkFilter EmptyString (iSchema i) (iTable i) EmptyString (iName i) []
          false)) ::
     match rows with
     | [] => []
     | _ =>
         [EvEncode
            (<["title" := "Index " +:+ qualifiedIdentifier (iSchema i) (iName i)
                          +:+ newline]> (Pall w))
            ["Name"; "Type"]
            (map (fun c => [VString (icName c); VString (icDataType c)]) rows);
          EvWrite (indexSummaryLine i)]
     end,
     Returned tt).
Proof.
  intros Hcap Hq. unfold describeIndex. rewrite Hcap.
  unfold doQuery. cbn [assertCap emit bind ret app]. rewrite Hq.
  cbn [deref bind ret app].
  change (Len (NewResultSet cols scan rows))
    with (length (List.filter (fun _ => true) rows)).
  assert (Hf : List.filter (fun _ : IndexColumn => true) rows = rows).
  { clear. induction rows as [|x rows IH]; [reflexivity|]. cbn. now rewrite IH. }
  rewrite Hf.
  destruct rows as [|c rows']; [reflexivity|].
  cbn [length Nat.eqb]. unfold encodeWithSummary, EncodeAll.
  match goal with |- context [remaining ?x] =>
    change (remaining x) with (List.filter (fun _ : IndexColumn => true) (c :: rows'))
  end.
  rewrite Hf. cbn [scanValues SetScanValues columns SetColumns].
  rewrite (scanAll_map _ (fun c => [VString (icName c); VString (icDataType c)]))
    by reflexivity.
  reflexivity.
Qed.

(** X16. When the index query returns a result set, with no error or with
    the not supported sentinel, and the index column query returns a fresh
    result set for every index the loop visits, the index part of
    [DescribeTableDetails] describes the indexes in the order of the result
    set, each by one index column query, then the table of its columns and
    its summary line.  For an index without columns it prints nothing, and
    still counts it: the number returned is the number of indexes visited.
    So on a reader without table and sequence capability, a pattern that
    matches an index is answered without the relation-not-found message,
    even if nothing at all is printed. *)
Theorem describeIndexes_each (w : IngresWriter) (pattern sp tp : string)
  (verbose showSystem : bool) (ir : Filter -> QueryResult Index)
  (rc : Filter -> QueryResult IndexColumn) (res : ResultSet Index)
  (err : option error) (colsOf : Index -> list IndexColumn) :
  IndexReader (r w) = Some ir ->
  IndexColumnReader (r w) = Some rc ->
  ir (mkFilter EmptyString sp EmptyString EmptyString tp [] showSystem)
    = (Some res, err) ->
  hardError err = None ->
  let shown :=
    remaining (if negb showSystem then SetFilter res (notSystem w iSchema)
               else res) in
  (forall i, In i shown ->
     exists cols scan,
       rc (describeIndexFilter i) = (Some (NewResultSet cols scan (colsOf i)), None)) ->
  let trace :=
    EvQuery (QIndexes
      (mkFilter EmptyString sp EmptyString EmptyString tp [] showSystem)) ::
    flat_map
      (fun i =>
         EvQuery (QIndexColumns (describeIndexFilter i)) ::
         indexDescription w i (colsOf i))
      shown in
  describeIndexes w sp tp showSystem =
    (trace, Returned (Z.of_nat (length shown))) /\
  (parsePattern pattern = Returned (sp, tp) ->
   TableReader (r w) = None -> SequenceReader (r w) = None -> shown <> [] ->
   DescribeTableDetails w pattern verbose showSystem = (trace, Returned tt)).
Proof.
  intros Hi Hc Hq Herr shown Hcols trace.
  assert (H : describeIndexes w sp tp showSystem =
              (trace, Returned (Z.of_nat (length shown)))).
  { unfold describeIndexes. rewrite Hi, Hc.
    unfold doQuery. cbn [emit bind ret app]. rewrite Hq, Herr.
    rewrite rangeNext_spec. fold shown.
    rewrite (foldRows_each
               (fun i => wrap ("failed to describe index " +:+ iName i +:+
                               " from table " +:+ iSchema i +:+ "." +:+ iTable i)
                           (describeIndex w i))
               (fun i => EvQuery (QIndexColumns (describeIndexFilter i)) ::
                         indexDescription w i (colsOf i))).
    - cbn [bind ret app]. rewrite !app_nil_r, Z.add_0_l. reflexivity.
    - intros i Hin. destruct (Hcols i Hin) as (cols & scan & Hrc).
      rewrite (describeIndex_fresh w i rc cols scan (colsOf i) Hc Hrc).
      reflexivity. }
  split; [exact H|].
  intros Hp Ht Hs Hne. unfold DescribeTableDetails. rewrite Hp.
  cbn [lift wrap bind app]. unfold describeTables, sequencePart.
  rewrite Ht, Hs, H. cbn [bind ret app].
  destruct shown as [|i0 l]; [contradiction|].
  cbn [length]. rewrite Nat2Z.inj_succ.
  replace (0 + 0 + 0 + Z.succ (Z.of_nat (length l)) =? 0)%Z with false
    by (symmetry; apply Z.eqb_neq; lia).
  cbn [bind ret app]. now rewrite !app_nil_r.
Qed.

(** ** The sections of the table summary *)

Lemma foldRows_names (rows : list IndexColumn) :
  forall acc : list string,
  foldRows (fun result c => ret (c, result ++ [icName c])) acc rows =
  ([], Returned (rows, acc ++ map icName rows)).
Proof.
  induction rows as [|c rows IH]; intros acc; cbn [foldRows ret bind map].
  - now rewrite app_nil_r.
  - rewrite IH. cbn [bind ret app]. now rewrite <- app_assoc.
Qed.

Lemma getIndexColumns_rows w c s t i rd res :
  IndexColumnReader (r w) = Some rd ->
  rd (mkFilter c s t EmptyString i [] false) = (Some res, None) ->
  getIndexColumns w c s t i =
    ([EvQuery (QIndexColumns (mkFilter c s t EmptyString i [] false))],
     Returned (Strings.Join (map icName (remaining res)) ", ")).
Proof.
  intros Hcap Hq. unfold getIndexColumns. rewrite Hcap.
  unfold doQuery. cbn [assertCap emit bind ret app]. rewrite Hq.
  cbn [deref bind ret app]. rewrite rangeNext_spec, foldRows_names.
  reflexivity.
Qed.

Lemma filter_true {A} (rows : list A) : List.filter (fun _ => true) rows = rows.
Proof. induction rows as [|x rows IH]; [reflexivity|]. cbn. now rewrite IH. Qed.

(** X17. When the index query of a table returns a fresh result set, with
    no error or with the not supported sentinel, and the index column query
    returns a result set for each index, the index section of the summary
    prints its label and one line for each index in the order of the result
    set, after one index column query for that index, and nothing when
    there is no index.  The line carries the column names the query gave,
    joined with a comma and a space, and the markers of a primary key and
    of a unique index before the index type. *)
Theorem index_section_rows (w : IngresWriter) (sp tp : string)
  (rd : Filter -> QueryResult Index) (rc : Filter -> QueryResult IndexColumn)
  (cols : list string) (scan : Index -> outcome (list value))
  (rows : list Index) (err : option error) :
  IndexReader (r w) = Some rd ->
  IndexColumnReader (r w) = Some rc ->
  rd (mkFilter EmptyString sp tp EmptyString EmptyString [] false)
    = (Some (NewResultSet cols scan rows), err) ->
  hardError err = None ->
  (forall i, In i rows -> exists res, rc (indexColumnFilter i) = (Some res, None)) ->
  describeTableIndexes w sp tp =
    (EvQuery (QIndexes
       (mkFilter EmptyString sp tp EmptyString EmptyString [] false)) ::
     match rows with
     | [] => []
     | _ =>
         EvWrite ("Indexes:" +:+ newline) ::
         flat_map
           (fun i =>
              [EvQuery (QIndexColumns (indexColumnFilter i));
               EvWrite (indexLine (setColumns i (indexColumnsOf rc i)))])
           rows
     end,
     Returned tt).
Proof.
  intros Hi Hc Hq Herr Hcols.
  unfold describeTableIndexes. rewrite Hi.
  unfold doQuery. cbn [emit bind ret app]. rewrite Hq, Herr.
  change (Len (NewResultSet cols scan rows))
    with (length (List.filter (fun _ => true) rows)).
  rewrite filter_true.
  destruct rows as [|i0 rows']; [reflexivity|].
  cbn [length Nat.eqb]. unfold Fprint at 1, emit. cbn [bind ret app].
  rewrite rangeNext_spec.
  change (remaining (NewResultSet cols scan (i0 :: rows')))
    with (List.filter (fun _ : Index => true) (i0 :: rows')).
  rewrite filter_true.
  rewrite (foldRows_unit _
             (fun i => [EvQuery (QIndexColumns (indexColumnFilter i));
                        EvWrite (indexLine (setColumns i (indexColumnsOf rc i)))])
             (fun i => setColumns i (indexColumnsOf rc i))).
  - cbn [bind ret app]. now rewrite !app_nil_r.
  - intros i Hin. destruct (Hcols i Hin) as [res Hres].
    rewrite (getIndexColumns_rows w _ _ _ _ rc res Hc Hres).
    unfold indexColumnsOf. rewrite Hres. reflexivity.
Qed.

(** X18. When the trigger query of a table returns a fresh result set, with
    no error or with the not supported sentinel, the trigger section of the
    summary prints its label and one line for each trigger, with its quoted
    name and its definition, in the order of the result set, and nothing
    when there is no trigger. *)
Theorem trigger_section_rows (w : IngresWriter) (sp tp : string)
  (rd : Filter -> QueryResult Trigger) (cols : list string)
  (scan : Trigger -> outcome (list value)) (rows : list Trigger)
  (err : option error) :
  TriggerReader (r w) = Some rd ->
  rd (mkFilter EmptyString sp tp EmptyString EmptyString [] false)
    = (Some (NewResultSet cols scan rows), err) ->
  hardError err = None ->
  describeTableTriggers w sp tp =
    (EvQuery (QTriggers
       (mkFilter EmptyString sp tp EmptyString EmptyString [] false)) ::
     match rows with
     | [] => []
     | _ =>
         EvWrite ("Triggers:" +:+ newline) ::
         map (fun t =>
                EvWrite ("  " +:+ quoted (trName t) +:+ " " +:+ trDefinition t
                         +:+ newline))
           rows
     end,
     Returned tt).
Proof.
  intros Hcap Hq Herr.
  unfold describeTableTriggers. rewrite Hcap.
  unfold doQuery. cbn [emit bind ret app]. rewrite Hq, Herr.
  change (Len (NewResultSet cols scan rows))
    with (length (List.filter (fun _ => true) rows)).
  rewrite filter_true.
  destruct rows as [|t0 rows']; [reflexivity|].
  cbn [length Nat.eqb]. unfold Fprint at 1, emit. cbn [bind ret app].
  rewrite rangeNext_spec.
  change (remaining (NewResultSet cols scan (t0 :: rows')))
    with (List.filter (fun _ : Trigger => true) (t0 :: rows')).
  rewrite filter_true, foldRows_print.
  cbn [bind ret app]. now rewrite !app_nil_r.
Qed.

Lemma describeTableConstraints_each (w : IngresWriter) (filter : Filter)
  (postFilter : Constraint -> bool) (label : string)
  (printer : Constraint -> M unit) (tr : Constraint -> list Event)
  (rd : Filter -> QueryResult Constraint) (cols : list string)
  (scan : Constraint -> outcome (list value)) (rows : list Constraint)
  (err : option error) :
  ConstraintReader (r w) = Some rd ->
  rd filter = (Some (NewResultSet cols scan rows), err) ->
  hardError err = None ->
  (forall c, In c (List.filter postFilter rows) -> printer c = (tr c, Returned tt)) ->
  describeTableConstraints w filter postFilter label printer =
    (EvQuery (QConstraints filter) ::
     match List.filter postFilter rows with
     | [] => []
     | shown => EvWrite (label +:+ newline) :: flat_map tr shown
     end,
     Returned tt).
Proof.
  intros Hcap Hq Herr Hp.
  unfold describeTableConstraints. rewrite Hcap.
  unfold doQuery. cbn [emit bind ret app]. rewrite Hq, Herr.
  change (Len (SetFilter (NewResultSet cols scan rows) postFilter))
    with (length (List.filter postFilter rows)).
  rewrite rangeNext_spec.
  change (remaining (SetFilter (NewResultSet cols scan rows) postFilter))
    with (List.filter postFilter rows).
  destruct (List.filter postFilter rows) as [|c0 shown] eqn:E; [reflexivity|].
  cbn [length Nat.eqb]. unfold Fprint at 1, emit. cbn [bind ret app].
  rewrite (foldRows_unit _ tr (fun c => c)).
  - cbn [bind ret app]. now rewrite !app_nil_r.
  - intros c Hin. rewrite (Hp c Hin). cbn [bind ret]. now rewrite app_nil_r.
Qed.

(** X19. When the two constraint queries of a table return fresh result
    sets and the constraint column query returns a result set for every
    foreign key, each of the two foreign key sections of the summary prints
    its label and one line for each row of type FOREIGN KEY, in the order
    of the result set, and nothing when there is none.  Before each line it
    asks the reader for the columns of that constraint, by the catalog,
    schema, table and name of the constraint row; the line carries the two
    column lists this query gave.  The first section asks for the
    constraints of the table, the second for those that reference it. *)
Theorem foreign_key_sections (w : IngresWriter) (sp tp : string)
  (rd : Filter -> QueryResult Constraint)
  (rc : Filter -> QueryResult ConstraintColumn)
  (cols cols' : list string) (scan scan' : Constraint -> outcome (list value))
  (rows rows' : list Constraint) (err err' : option error) :
  ConstraintReader (r w) = Some rd ->
  ConstraintColumnReader (r w) = Some rc ->
  rd (mkFilter EmptyString sp tp EmptyString EmptyString [] false)
    = (Some (NewResultSet cols scan rows), err) ->
  rd (mkFilter EmptyString sp EmptyString tp EmptyString [] false)
    = (Some (NewResultSet cols' scan' rows'), err') ->
  hardError err = None ->
  hardError err' = None ->
  (forall c, isForeignKey c = true ->
     exists res, rc (constraintColumnFilter c) = (Some res, None)) ->
  let section label line shown :=
    match shown with
    | [] => []
    | _ =>
        EvWrite (label +:+ newline) ::
        flat_map
          (fun c =>
             [EvQuery (QConstraintColumns (constraintColumnFilter c));
              EvWrite (line c (fst (constraintColumnsOf rc c))
                         (snd (constraintColumnsOf rc c)))])
          shown
    end in
  foreignKeySection w sp tp =
    (EvQuery (QConstraints
       (mkFilter EmptyString sp tp EmptyString EmptyString [] false)) ::
     section "Foreign-key constraints:" foreignKeyLine
       (List.filter isForeignKey rows),
     Returned tt) /\
  referencedBySection w sp tp =
    (EvQuery (QConstraints
       (mkFilter EmptyString sp EmptyString tp EmptyString [] false)) ::
     section "Referenced by:" referencedByLine
       (List.filter isForeignKey rows'),
     Returned tt).
Proof.
  intros Hcap Hc Hq Hq' Herr Herr' Hcols section.
  assert (Hp : forall line c, isForeignKey c = true ->
            ('(columns, foreignColumns) <-
               getConstraintColumns w (kCatalog c) (kSchema c) (kTable c) (kName c) ;;
             Fprint (line c columns foreignColumns)) =
            ([EvQuery (QConstraintColumns (constraintColumnFilter c));
              EvWrite (line c (fst (constraintColumnsOf rc c))
                         (snd (constraintColumnsOf rc c)))], Returned tt)).
  { intros line c Hfk. destruct (Hcols c Hfk) as [res Hres].
    rewrite (getConstraintColumns_rows w _ _ _ _ rc res Hc Hres).
    unfold constraintColumnsOf. rewrite Hres. reflexivity. }
  split.
  - unfold foreignKeySection.
    rewrite (describeTableConstraints_each w _ isForeignKey _ _
               (fun c => [EvQuery (QConstraintColumns (constraintColumnFilter c));
                          EvWrite (foreignKeyLine c (fst (constraintColumnsOf rc c))
                                     (snd (constraintColumnsOf rc c)))])
               rd cols scan rows err Hcap Hq Herr).
    + unfold section. now destruct (List.filter isForeignKey rows).
    + intros c Hin. apply filter_In in Hin. destruct Hin as [_ Hfk].
      unfold foreignKeyPrinter. exact (Hp foreignKeyLine c Hfk).
  - unfold referencedBySection.
    rewrite (describeTableConstraints_each w _ isForeignKey _ _
               (fun c => [EvQuery (QConstraintColumns (constraintColumnFilter c));
                          EvWrite (referencedByLine c (fst (constraintColumnsOf rc c))
                                     (snd (constraintColumnsOf rc c)))])
               rd cols' scan' rows' err' Hcap Hq' Herr').
    + unfold section. now destruct (List.filter isForeignKey rows').
    + intros c Hin. apply filter_In in Hin. destruct Hin as [_ Hfk].
      unfold referencedByPrinter. exact (Hp referencedByLine c Hfk).
Qed.

Lemma foldRows_unit_fail {A} (body : unit -> A -> M (A * unit))
  (ev : A -> list Event) (g : A -> A) (pre : list A) (x : A) (suf : list A)
  (t : list Event) (e : error) :
  (forall y, In y pre -> body tt y = (ev y, Returned (g y, tt))) ->
  body tt x = (t, Failed e) ->
  foldRows body tt (pre ++ x :: suf) = (flat_map ev pre ++ t, Failed e).
Proof.
  intros Hpre Hx. induction pre as [|y pre IH].
  - cbn [app foldRows flat_map]. rewrite Hx. reflexivity.
  - cbn [app foldRows flat_map]. rewrite (Hpre y) by now left.
    cbn [bind ret]. rewrite IH by (intros z Hz; apply Hpre; now right).
    cbn [bind]. now rewrite <- app_assoc.
Qed.

(** X20. The index column query of the index section tolerates no error,
    the not supported sentinel included.  When it fails for an index, the
    section has printed its label and the lines of the indexes before that
    one, and fails with the error wrapped in a message that names the
    index; the indexes after it are not asked for, and the summary ends
    there with the same error. *)
Theorem index_section_column_error (w : IngresWriter) (sp tp : string)
  (rd : Filter -> QueryResult Index) (rc : Filter -> QueryResult IndexColumn)
  (cols : list string) (scan : Index -> outcome (list value))
  (pre : list Index) (i : Index) (suf : list Index) (err : option error)
  (res : option (ResultSet IndexColumn)) (e : error) (n : Z) :
  IndexReader (r w) = Some rd ->
  IndexColumnReader (r w) = Some rc ->
  rd (mkFilter EmptyString sp tp EmptyString EmptyString [] false)
    = (Some (NewResultSet cols scan (pre ++ i :: suf)), err) ->
  hardError err = None ->
  (forall j, In j pre -> exists cres, rc (indexColumnFilter j) = (Some cres, None)) ->
  rc (indexColumnFilter i) = (res, Some e) ->
  let trace :=
    EvQuery (QIndexes
       (mkFilter EmptyString sp tp EmptyString EmptyString [] false)) ::
     EvWrite ("Indexes:" +:+ newline) ::
     flat_map
       (fun j =>
          [EvQuery (QIndexColumns (indexColumnFilter j));
           EvWrite (indexLine (setColumns j (indexColumnsOf rc j)))])
       pre ++
     [EvQuery (QIndexColumns (indexColumnFilter i))] in
  let failure := ErrWrap ("failed to get columns of index " +:+ iName i) e in
  describeTableIndexes w sp tp = (trace, Failed failure) /\
  tableDetailsSummary w sp tp n = (trace, Failed failure).
Proof.
  intros Hi Hc Hq Herr Hpre Hfail trace failure.
  assert (H : describeTableIndexes w sp tp = (trace, Failed failure)).
  { unfold describeTableIndexes. rewrite Hi.
    unfold doQuery. cbn [emit bind ret app]. rewrite Hq, Herr.
    change (Len (NewResultSet cols scan (pre ++ i :: suf)))
      with (length (List.filter (fun _ => true) (pre ++ i :: suf))).
    rewrite filter_true.
    replace (length (pre ++ i :: suf) =? 0)%nat with false
      by (symmetry; apply Nat.eqb_neq; rewrite length_app; cbn; lia).
    unfold Fprint at 1, emit. cbn [bind ret app].
    rewrite rangeNext_spec.
    change (remaining (NewResultSet cols scan (pre ++ i :: suf)))
      with (List.filter (fun _ : Index => true) (pre ++ i :: suf)).
    rewrite filter_true.
    rewrite (foldRows_unit_fail _
               (fun j => [EvQuery (QIndexColumns (indexColumnFilter j));
                          EvWrite (indexLine (setColumns j (indexColumnsOf rc j)))])
               (fun j => setColumns j (indexColumnsOf rc j)) pre i suf
               [EvQuery (QIndexColumns (indexColumnFilter i))]
               (ErrWrap ("failed to get columns of index " +:+ iName i) e)).
    - reflexivity.
    - intros j Hin. destruct (Hpre j Hin) as [cres Hres].
      rewrite (getIndexColumns_rows w _ _ _ _ rc cres Hc Hres).
      unfold indexColumnsOf. rewrite Hres. reflexivity.
    - unfold getIndexColumns. rewrite Hc.
      unfold doQuery. cbn [assertCap emit bind ret app].
      change (mkFilter (iCatalog i) (iSchema i) (iTable i) EmptyString (iName i)
                [] false) with (indexColumnFilter i).
      rewrite Hfail. reflexivity. }
  split; [exact H|]. unfold tableDetailsSummary. rewrite H. reflexivity.
Qed.

(** ** The parts of [DescribeTableDetails] and the not supported sentinel *)

(** X21. [DescribeTableDetails] treats the not supported sentinel
    differently in its three parts.  From the table query it is an error
    like any other: the command fails with it, wrapped, before it asks for
    sequences or indexes.  From the sequence query and from the index query
    it is skipped: with no table capability and no result set from either
    query, the command finds nothing, prints the relation-not-found message
    and returns without an error. *)
Theorem DescribeTableDetails_not_supported (w : IngresWriter)
  (pattern sp tp : string) (verbose showSystem : bool) :
  parsePattern pattern = Returned (sp, tp) ->
  let flt := mkFilter EmptyString sp EmptyString EmptyString tp [] showSystem in
  (forall tr cr res,
     TableReader (r w) = Some tr -> ColumnReader (r w) = Some cr ->
     tr flt = (res, Some ErrNotSupported) ->
     DescribeTableDetails w pattern verbose showSystem =
       ([EvQuery (QTables flt)],
        Failed (ErrWrap "failed to list tables" ErrNotSupported))) /\
  (forall sr ir rc,
     TableReader (r w) = None ->
     SequenceReader (r w) = Some sr -> sr flt = (None, Some ErrNotSupported) ->
     IndexReader (r w) = Some ir -> IndexColumnReader (r w) = Some rc ->
     ir flt = (None, Some ErrNotSupported) ->
     DescribeTableDetails w pattern verbose showSystem =
       ([EvQuery (QSequences flt); EvQuery (QIndexes flt);
         EvWrite (RelationNotFound pattern); EvWrite newline],
        Returned tt)).
Proof.
  intros Hp flt. split.
  - intros tr cr res Ht Hc Hq.
    unfold DescribeTableDetails. rewrite Hp. cbn [lift wrap bind app].
    unfold describeTables. rewrite Ht, Hc.
    unfold doQuery. cbn [emit bind ret app]. fold flt. rewrite Hq.
    reflexivity.
  - intros sr ir rc Ht Hs Hsq Hi Hc Hiq.
    unfold DescribeTableDetails. rewrite Hp. cbn [lift wrap bind app].
    unfold describeTables, sequencePart, describeSequences, describeIndexes.
    rewrite Ht, Hs, Hi, Hc.
    unfold doQuery. cbn [assertCap emit bind ret app]. fold flt.
    rewrite Hsq, Hiq. reflexivity.
Qed.

(** X22. [describeTableDetails] wraps any error of the column query, the
    not supported sentinel included, in a message that names the table.
    When the query returns a result set and the reader has none of the
    index, constraint and trigger capabilities, it hands the encoder the
    remaining columns under the headers of the chosen form, titled with the
    relation type and the quoted qualified name, and does nothing else. *)
Theorem describeTableDetails_columns_only (w : IngresWriter)
  (typ sp tp : string) (verbose showSystem : bool)
  (rd : Filter -> QueryResult Column) :
  ColumnReader (r w) = Some rd ->
  let flt := mkFilter EmptyString sp tp EmptyString EmptyString [] showSystem in
  (forall res e,
     rd flt = (res, Some e) ->
     describeTableDetails w typ sp tp verbose showSystem =
       ([EvQuery (QColumns flt)],
        Failed (ErrWrap ("failed to list columns for table " +:+ tp) e))) /\
  (forall res,
     rd flt = (Some res, None) ->
     IndexReader (r w) = None -> ConstraintReader (r w) = None ->
     TriggerReader (r w) = None ->
     describeTableDetails w typ sp tp verbose showSystem =
       ([EvQuery (QColumns flt);
         EvEncode
           (<["title" := typ +:+ " " +:+ qualifiedIdentifier sp tp +:+ newline]>
              (Pall w))
           (columnColumns verbose)
           (map (columnCells verbose) (remaining res))],
        Returned tt)).
Proof.
  intros Hcap flt. split.
  - intros res e Hq. unfold describeTableDetails. rewrite Hcap.
    unfold doQuery. cbn [assertCap emit bind ret app]. fold flt. rewrite Hq.
    reflexivity.
  - intros res Hq Hi Hk Ht. unfold describeTableDetails. rewrite Hcap.
    unfold doQuery. cbn [assertCap emit bind ret app]. fold flt. rewrite Hq.
    cbn [deref bind ret app].
    unfold encodeWithSummary, EncodeAll, tableDetailsSummary,
      describeTableIndexes, checkSection, foreignKeySection,
      referencedBySection, describeTableConstraints, describeTableTriggers.
    rewrite Hi, Hk, Ht.
    cbn [scanValues SetScanValues columns SetColumns].
    change (remaining (SetScanValues (SetColumns res (columnColumns verbose))
                         (columnScan verbose))) with (remaining res).
    rewrite (scanAll_map _ (columnCells verbose)) by reflexivity.
    reflexivity.
Qed.

(** ** [DescribeFunctions] without function columns *)

(** X23. With a function capability and no function column capability,
    [DescribeFunctions] issues the function query and no other, and hands
    the encoder the functions it shows with the argument types the reader
    gave them.  With the function column capability, a function column
    query that fails for the first function shown, with any error, ends
    the command with that error, wrapped in a message that names the
    function by its schema and specific name; nothing is handed to the
    encoder. *)
Theorem DescribeFunctions_columns (w : IngresWriter)
  (driver funcTypes' pattern : string) (verbose showSystem : bool)
  (rd : Filter -> QueryResult Function) (sp tp : string)
  (res : ResultSet Function) :
  FunctionReader (r w) = Some rd ->
  parsePattern pattern = Returned (sp, tp) ->
  let flt := mkFilter EmptyString sp EmptyString EmptyString tp
               (selectTypes (funcTypes w) funcTypes') showSystem in
  rd flt = (Some res, None) ->
  let shown :=
    remaining (if negb showSystem then SetFilter res (notSystem w fnSchema)
               else res) in
  (FunctionColumnReader (r w) = None ->
   DescribeFunctions w driver funcTypes' pattern verbose showSystem =
     ([EvQuery (QFunctions flt);
       EvEncode (<["title" := "List of functions"]> (Pall w))
         (functionColumns verbose) (map (functionCells verbose) shown)],
      Returned tt)) /\
  (forall rc f rest cres e,
     FunctionColumnReader (r w) = Some rc ->
     shown = f :: rest ->
     rc (argFilter f) = (cres, Some e) ->
     DescribeFunctions w driver funcTypes' pattern verbose showSystem =
       ([EvQuery (QFunctions flt); EvQuery (QFunctionColumns (argFilter f))],
        Failed (ErrWrap ("failed to get columns of function " +:+ fnSchema f +:+
                         "." +:+ fnSpecificName f) e))).
Proof.
  intros Hrd Hpat flt Hq shown. split.
  - intros Hnone. unfold DescribeFunctions. rewrite Hrd, Hpat.
    unfold doQuery. cbn [lift wrap emit bind ret app]. fold flt.
    rewrite Hq, Hnone. cbn [deref bind ret app]. unfold EncodeAll.
    cbn [scanValues SetScanValues columns SetColumns].
    match goal with |- context [remaining ?x] =>
      change (remaining x) with shown end.
    rewrite functionScan_cells. reflexivity.
  - intros rc f rest cres e Hrc Hshown Hfail.
    unfold DescribeFunctions. rewrite Hrd, Hpat.
    unfold doQuery. cbn [lift wrap emit bind ret app]. fold flt.
    rewrite Hq, Hrc. cbn [deref bind ret app].
    rewrite rangeNext_spec. fold shown. rewrite Hshown.
    cbn [foldRows]. unfold getFunctionColumns. rewrite Hrc.
    unfold doQuery. cbn [assertCap emit bind ret app].
    fold (argFilter f). rewrite Hfail. reflexivity.
Qed.

(** ** The table part of [DescribeTableDetails] *)

Lemma foldRows_each_fail {A} (act : A -> M unit) (ev : A -> list Event)
  (pre : list A) (x : A) (suf : list A) (t : list Event) (e : error) :
  (forall y, In y pre -> act y = (ev y, Returned tt)) ->
  act x = (t, Failed e) ->
  forall acc : Z,
  foldRows (fun found y => act y ;; ret (y, (found + 1)%Z)) acc (pre ++ x :: suf) =
  (flat_map ev pre ++ t, Failed e).
Proof.
  intros Hpre Hx. induction pre as [|y pre IH]; intros acc.
  - cbn [app foldRows flat_map]. rewrite Hx. reflexivity.
  - cbn [app foldRows flat_map]. rewrite (Hpre y) by now left.
    cbn [bind ret]. rewrite app_nil_r.
    rewrite IH by (intros z Hz; apply Hpre; now right).
    cbn [bind]. now rewrite <- app_assoc.
Qed.

(** X24. When the table query returns a result set and every table the
    loop visits is described without an error, the table part of
    [DescribeTableDetails] describes the tables in the order of the result
    set, each by its own type, schema and name, and counts them.  When the
    description of one table fails, the command has described the tables
    before it and fails with that error, wrapped in a message that names
    the type, the schema and the name of the table; it visits no later
    table and asks for no sequence and no index. *)
Theorem DescribeTableDetails_tables (w : IngresWriter)
  (pattern sp tp : string) (verbose showSystem : bool)
  (tr : Filter -> QueryResult Table) (cr : Filter -> QueryResult Column)
  (res : ResultSet Table) (ev : Table -> list Event) :
  parsePattern pattern = Returned (sp, tp) ->
  TableReader (r w) = Some tr ->
  ColumnReader (r w) = Some cr ->
  let flt := mkFilter EmptyString sp EmptyString EmptyString tp [] showSystem in
  tr flt = (Some res, None) ->
  let shown :=
    remaining (if negb showSystem then SetFilter res (notSystem w tSchema)
               else res) in
  let describe t :=
    describeTableDetails w (tType t) (tSchema t) (tName t) verbose showSystem in
  ((forall t, In t shown -> describe t = (ev t, Returned tt)) ->
   describeTables w sp tp verbose showSystem =
     (EvQuery (QTables flt) :: flat_map ev shown,
      Returned (Z.of_nat (length shown)))) /\
  (forall pre t suf trace e,
     shown = pre ++ t :: suf ->
     (forall u, In u pre -> describe u = (ev u, Returned tt)) ->
     describe t = (trace, Failed e) ->
     DescribeTableDetails w pattern verbose showSystem =
       (EvQuery (QTables flt) :: flat_map ev pre ++ trace,
        Failed (ErrWrap ("failed to describe " +:+ tType t +:+ " " +:+
                         tSchema t +:+ "." +:+ tName t) e))).
Proof.
  intros Hp Ht Hc flt Hq shown describe. split.
  - intros Hok. unfold describeTables. rewrite Ht, Hc.
    unfold doQuery. cbn [emit bind ret app]. fold flt. rewrite Hq.
    cbn [deref bind ret app]. rewrite rangeNext_spec. fold shown.
    rewrite (foldRows_each
               (fun t => wrap ("failed to describe " +:+ tType t +:+ " " +:+
                               tSchema t +:+ "." +:+ tName t) (describe t)) ev).
    + cbn [bind ret app]. rewrite !app_nil_r, Z.add_0_l. reflexivity.
    + intros t Hin. rewrite (Hok t Hin). reflexivity.
  - intros pre t suf trace e Hshown Hpre Hfail.
    unfold DescribeTableDetails. rewrite Hp. cbn [lift wrap bind app].
    unfold describeTables. rewrite Ht, Hc.
    unfold doQuery. cbn [emit bind ret app]. fold flt. rewrite Hq.
    cbn [deref bind ret app]. rewrite rangeNext_spec. fold shown.
    rewrite Hshown.
    rewrite (foldRows_each_fail
               (fun t => wrap ("failed to describe " +:+ tType t +:+ " " +:+
                               tSchema t +:+ "." +:+ tName t) (describe t)) ev
               pre t suf trace
               (ErrWrap ("failed to describe " +:+ tType t +:+ " " +:+
                         tSchema t +:+ "." +:+ tName t) e)).
    + reflexivity.
    + intros u Hin. rewrite (Hpre u Hin). reflexivity.
    + rewrite Hfail. reflexivity.
Qed.

(** ** The name check of the metadata tests *)










Lemma filter_nil_iff {A} (p : A -> bool) (l : list A) :
  List.filter p l = [] <-> forall x, In x l -> p x = false.
Proof.
  induction l as [|y l IH]; cbn [List.filter]; [split; [intros _ x [] | auto]|].
  destruct (p y) eqn:E.
  - split; [discriminate|]. intros H. specialize (H y (or_introl eq_refl)).
    congruence.
  - rewrite IH. split.
    + intros H x [<-|Hin]; [exact E | now apply H].
    + intros H x Hin. apply H. now right.
Qed.


(** X26. For a result set of a kind [getName] does not know, [checkNames]
    panics at the first row the set yields. *)
Theorem checkNames_unknown_set (typ : string) (res : ResultSet unit)
  (exp : list string) :
  remaining res <> [] ->
  checkNames typ (OtherSet res) exp = ([], Panicked).
Proof.
  intros Hne. unfold checkNames. cbn [bufferLength namesLoop NextAny].
  pose proof (Next_first res) as H.
  destruct (remaining res) as [|x l]; [contradiction|].
  destruct (Next res) as [more res1]. cbn [fst snd] in H.
  destruct H as [-> _]. reflexivity.
Qed.

(** ** The registration of the driver and the constructor of the writer *)

(** X27. [Version] and [User] never return an error and never return the
    empty string.  They return the answer of the database when the query
    succeeds with an answer that is not empty, and [<unknown>] when the
    query fails, whatever was scanned. *)
Theorem dbmsinfo_never_fails (db : string -> string * option error) :
  (snd (Version db) = None /\ fst (Version db) <> EmptyString) /\
  (snd (User db) = None /\ fst (User db) <> EmptyString) /\
  (forall out,
     out <> EmptyString ->
     (db "SELECT DBMSINFO('_VERSION');" = (out, None) -> fst (Version db) = out) /\
     (db "SELECT DBMSINFO('username');" = (out, None) -> fst (User db) = out)) /\
  (forall out e,
     (db "SELECT DBMSINFO('_VERSION');" = (out, Some e) ->
      fst (Version db) = "<unknown>") /\
     (db "SELECT DBMSINFO('username');" = (out, Some e) ->
      fst (User db) = "<unknown>")).
Proof.
  assert (H : forall q,
            snd (dbmsinfo db q) = None /\ fst (dbmsinfo db q) <> EmptyString /\
            (forall out, out <> EmptyString -> db q = (out, None) ->
                         fst (dbmsinfo db q) = out) /\
            (forall out e, db q = (out, Some e) ->
                           fst (dbmsinfo db q) = "<unknown>")).
  { intros q. unfold dbmsinfo. destruct (db q) as [o [e|]]; cbn [fst snd].
    - split; [reflexivity|]. split; [discriminate|]. split.
      + intros out _ [=].
      + reflexivity.
    - destruct (String.eqb o EmptyString) eqn:E; cbn [fst snd].
      + apply String.eqb_eq in E. subst o.
        split; [reflexivity|]. split; [discriminate|]. split.
        * intros out Hne [= <-]. contradiction.
        * intros out e [=].
      + apply String.eqb_neq in E.
        split; [reflexivity|]. split; [exact E|]. split.
        * now intros out _ [= <-].
        * intros out e [=]. }
  destruct (H "SELECT DBMSINFO('_VERSION');") as (V1 & V2 & V3 & V4).
  destruct (H "SELECT DBMSINFO('username');") as (U1 & U2 & U3 & U4).
  split; [split; assumption|]. split; [split; assumption|]. split.
  - intros out Hne. split; [apply V3 | apply U3]; exact Hne.
  - intros out e. split; [apply V4 | apply U4].
Qed.

Lemma schemas_set (schemas : list string) :
  forall (m : gset string) s,
  s ∈ fold_left (fun m s => {[ s ]} ∪ m) schemas m <-> In s schemas \/ s ∈ m.
Proof.
  induction schemas as [|x schemas IH]; intros m s; cbn [fold_left In].
  - split; [now right | now intros [[]|]].
  - rewrite IH. split.
    + intros [H|H]; [left; now right|].
      apply elem_of_union in H. destruct H as [H|H]; [|now right].
      apply elem_of_singleton in H. left. now left.
    + intros [[H|H]|H]; [| now left |].
      * right. apply elem_of_union. left. now apply elem_of_singleton.
      * right. apply elem_of_union. now right.
Qed.

Lemma options_keep (opts : list WriterOption) :
  Forall packageOption opts ->
  forall w,
  let w' := fold_left (fun w o => o w) opts w in
  r (core w') = r (core w) /\ tableTypes (core w') = tableTypes (core w) /\
  funcTypes (core w') = funcTypes (core w) /\ Pall (core w') = Pall (core w) /\
  more w' = more w.
Proof.
  induction 1 as [|o opts Ho _ IH]; intros w; cbn [fold_left].
  - repeat split.
  - destruct (IH (o w)) as (H1 & H2 & H3 & H4 & H5).
    cbn zeta. rewrite H1, H2, H3, H4, H5. destruct Ho; repeat split.
Qed.

(** X28. [NewIngresWriter] applies its options in their order to a writer
    whose only system schema is information_schema.  With no option that
    remains so.  [WithSystemSchemas] replaces the set instead of extending
    it: after it, as the last option, the system schemas are exactly the
    schemas of its list, so that information_schema is a system schema
    only when the list names it.  The two options of the package leave the
    reader and the two tables of type codes as the constructor set them.
    When [WithListAllDbs] with a function is the last option, [ListAllDbs]
    is that function, whatever the reader can do. *)
Theorem NewIngresWriter_options (rd : Reader) (rest : MoreReaders)
  (pall : gmap string string) (opts : list WriterOption) :
  systemSchemas (core (NewIngresWriter rd rest pall [])) =
    {[ "information_schema" ]} /\
  (forall schemas s,
     s ∈ systemSchemas
           (core (NewIngresWriter rd rest pall (opts ++ [WithSystemSchemas schemas])))
     <-> In s schemas) /\
  (Forall packageOption opts ->
   let w := NewIngresWriter rd rest pall opts in
   r (core w) = rd /\ tableTypes (core w) = defaultTableTypes /\
   funcTypes (core w) = defaultFuncTypes /\ more w = rest) /\
  (forall f driver pattern verbose,
     ListAllDbs (NewIngresWriter rd rest pall (opts ++ [WithListAllDbs (Some f)]))
       driver pattern verbose = f pattern verbose).
Proof.
  split; [reflexivity|]. split; [|split].
  - intros schemas s. unfold NewIngresWriter. rewrite fold_left_app.
    cbn [fold_left WithSystemSchemas core setSystemSchemas systemSchemas].
    rewrite schemas_set. split; [intros [H|H]; [exact H | set_solver] | now left].
  - intros Hopts w.
    destruct (options_keep opts Hopts
                (mkFullWriter
                   (mkIngresWriter rd defaultTableTypes defaultFuncTypes
                      {[ "information_schema" ]} pall) rest None))
      as (H1 & H2 & H3 & _ & H5).
    repeat split; assumption.
  - intros f driver pattern verbose. unfold NewIngresWriter.
    rewrite fold_left_app. reflexivity.
Qed.

(** ** The further theorems at the sample catalogs *)

(** A qualified name parses back to its two parts. *)
Lemma parsePattern_qualified_witness :
  parsePattern "public.orders" = Returned ("public", "orders").
Proof.
  apply (parsePattern_qualified "public" "orders");
    intros i; do 7 (destruct i as [|i]; [discriminate|]); discriminate.
Defined.

(** The listing of the sample table. *)
Lemma ListTables_rows_witness :
  ListTables ordersWriter "ingres" "t" "public.orders" false false =
    ([EvQuery (QTables (mkFilter EmptyString "public" EmptyString EmptyString
                          "orders" ["TABLE"; "BASE TABLE"] false));
      EvEncode (<["title" := "List of relations"]> ∅) ["Name"; "Type"]
        [[VString "orders"; VString "TABLE"]]],
     Returned tt).
Proof.
  exact (proj1 (ListTables_rows ordersWriter "ingres" "t" "public.orders" false
                  false _ "public" "orders" [] (fun _ => Returned [])
                  [mkTable EmptyString "public" "orders" "TABLE" 100 "16 kB"
                     EmptyString]
                  eq_refl eq_refl eq_refl)).
Defined.

(** The listing of the two sample indexes, in the long form. *)
Lemma ListIndexes_rows_witness :
  ListIndexes indexesWriter "ingres" "orders*" true false =
    ([EvQuery (QIndexes (mkFilter EmptyString EmptyString EmptyString EmptyString
                           "orders%" [] false));
      EvEncode (<["title" := "List of indexes"]> ∅)
        ["Schema"; "Name"; "Type"; "Table"; "Primary?"; "Unique?"]
        [[VString "public"; VString "orders_pkey"; VString "btree";
          VString "orders"; VString "YES"; VString "YES"];
         [VString "public"; VString "orders_expr_idx"; VString "btree";
          VString "orders"; VString "NO"; VString "NO"]]],
     Returned tt).
Proof.
  exact (proj1 (ListIndexes_rows indexesWriter "ingres" "orders*" true false _
                  EmptyString "orders%" [] (fun _ => Returned []) sampleIndexes
                  eq_refl eq_refl eq_refl)).
Defined.

(** The statistics of the sample table in the short form. *)
Lemma ShowStats_short_witness :
  encoded (fst (ShowStats statsWriter "ingres" EmptyString "public.orders" false 3)) =
    [[[VString "public"; VString "orders"; VString "status"; VInt 8;
       VFloat (S754_zero false); VInt 25; VString "0.2500"];
      [VString "public"; VString "orders"; VString "id"; VInt 4;
       VFloat (S754_zero false); VInt 100; VString "1.0000"]]].
Proof.
  rewrite (ShowStats_short statsWriter "ingres" EmptyString "public.orders" 3
             sampleStatQuery "public" "orders"
             (fst (tableRows statsWriter "public" "orders")) 100
             (NewResultSet [] (fun _ => Returned []) sampleStats)
             eq_refl eq_refl eq_refl eq_refl).
  vm_compute. reflexivity.
Defined.

(** The two sample sequences: both are described, the one of the system
    schema too. *)
Lemma describeSequences_each_witness :
  describeSequences sequencesWriter EmptyString "%" false false =
    ([EvQuery (QSequences (mkFilter EmptyString EmptyString EmptyString
                             EmptyString "%" [] false));
      EvEncode (sequenceParams sequencesWriter
                  (mkSequence "public" "orders_id_seq"
                     [VString "bigint"; VInt 1; VInt 1]))
        [] [[VString "bigint"; VInt 1; VInt 1]];
      EvEncode (sequenceParams sequencesWriter
                  (mkSequence "information_schema" "sys_seq"
                     [VString "integer"; VInt 1; VInt 10]))
        [] [[VString "integer"; VInt 1; VInt 10]]],
     Returned 2%Z).
Proof.
  exact (proj1 (describeSequences_each sequencesWriter EmptyString "%" false false
                  _ (NewResultSet [] (fun _ => Returned []) sampleSequences) None
                  eq_refl eq_refl eq_refl)).
Defined.

(** The two sample indexes: the second has no column and is counted. *)
Lemma describeIndexes_each_witness :
  describeIndexes indexesWriter EmptyString "orders%" false =
    ([EvQuery (QIndexes (mkFilter EmptyString EmptyString EmptyString EmptyString
                           "orders%" [] false));
      EvQuery (QIndexColumns (mkFilter EmptyString "public" "orders" EmptyString
                                "orders_pkey" [] false));
      EvEncode (<["title" := "Index " +:+ quoted "public.orders_pkey" +:+ newline]> ∅)
        ["Name"; "Type"] [[VString "id"; VString "integer"]];
      EvWrite "primary key, btree, for table orders";
      EvQuery (QIndexColumns (mkFilter EmptyString "public" "orders" EmptyString
                                "orders_expr_idx" [] false))],
     Returned 2%Z).
Proof.
  refine (proj1 (describeIndexes_each indexesWriter "orders*" EmptyString
                   "orders%" false false _ sampleIndexColumnQuery
                   (NewResultSet [] (fun _ => Returned []) sampleIndexes) None
                   sampleIndexColumns eq_refl eq_refl eq_refl eq_refl _)).
  intros i [<-|[<-|[]]]; exists [], (fun _ => Returned []); reflexivity.
Defined.

(** The index section of the sample table. *)
Lemma index_section_rows_witness :
  describeTableIndexes ordersWriter "public" "orders" =
    ([EvQuery (QIndexes (mkFilter EmptyString "public" "orders" EmptyString
                           EmptyString [] false));
      EvWrite ("Indexes:" +:+ newline);
      EvQuery (QIndexColumns (mkFilter EmptyString "public" "orders" EmptyString
                                "orders_pkey" [] false));
      EvWrite ("  " +:+ quoted "orders_pkey" +:+
               " PRIMARY_KEY, UNIQUE, btree (id)" +:+ newline)],
     Returned tt).
Proof.
  refine (index_section_rows ordersWriter "public" "orders" _
            (fun _ => fresh [mkIndexColumn "id" "integer"]) []
            (fun _ => Returned [])
            [mkIndex EmptyString "public" "orders" "orders_pkey" "YES" "YES"
               "btree" EmptyString]
            None eq_refl eq_refl eq_refl eq_refl _).
  intros i _. eexists. reflexivity.
Defined.

(** The trigger section of the sample table. *)
Lemma trigger_section_rows_witness :
  describeTableTriggers ordersWriter "public" "orders" =
    ([EvQuery (QTriggers (mkFilter EmptyString "public" "orders" EmptyString
                            EmptyString [] false));
      EvWrite ("Triggers:" +:+ newline);
      EvWrite ("  " +:+ quoted "orders_audit" +:+ " AFTER INSERT" +:+ newline)],
     Returned tt).
Proof.
  exact (trigger_section_rows ordersWriter "public" "orders" _ []
           (fun _ => Returned []) [mkTrigger "orders_audit" "AFTER INSERT"] None
           eq_refl eq_refl eq_refl).
Defined.

(** The two foreign key sections of the sample table. *)
Lemma foreign_key_sections_witness :
  writes (fst (foreignKeySection ordersWriter "public" "orders")) =
    ["Foreign-key constraints:" +:+ newline;
     "  " +:+ quoted "orders_customer_fkey" +:+
     " FOREIGN KEY (customer_id, customer_region) REFERENCES " +:+
     "customers(id, region) ON UPDATE NO ACTION ON DELETE CASCADE" +:+ newline] /\
  writes (fst (referencedBySection ordersWriter "public" "orders")) =
    ["Referenced by:" +:+ newline;
     "  TABLE " +:+ quoted "items" +:+ " CONSTRAINT " +:+ quoted "items_order_fkey" +:+
     " FOREIGN KEY (order_id) REFERENCES orders(id) ON UPDATE NO ACTION " +:+
     "ON DELETE CASCADE" +:+ newline].
Proof.
  destruct (foreign_key_sections ordersWriter "public" "orders"
              ordersConstraintQuery ordersConstraintColumnQuery
              [] [] (fun _ => Returned []) (fun _ => Returned [])
              ordersConstraints ordersIncoming None None
              eq_refl eq_refl eq_refl eq_refl eq_refl eq_refl) as [H1 H2].
  - intros c _. unfold ordersConstraintColumnQuery.
    destruct (String.eqb _ _); eexists; reflexivity.
  - rewrite H1, H2. split; vm_compute; reflexivity.
Defined.

(** The index section behind the reader without index columns: the label
    is printed and the section fails. *)
Lemma index_section_column_error_witness :
  describeTableIndexes brokenIndexWriter "public" "orders" =
    ([EvQuery (QIndexes (mkFilter EmptyString "public" "orders" EmptyString
                           EmptyString [] false));
      EvWrite ("Indexes:" +:+ newline);
      EvQuery (QIndexColumns (mkFilter EmptyString "public" "orders" EmptyString
                                "orders_pkey" [] false))],
     Failed (ErrWrap "failed to get columns of index orders_pkey" ErrNotSupported)).
Proof.
  refine (proj1 (index_section_column_error brokenIndexWriter "public" "orders" _
                   (fun _ => (None, Some ErrNotSupported)) []
                   (fun _ => Returned []) []
                   (mkIndex EmptyString "public" "orders" "orders_pkey" "YES" "YES"
                      "btree" EmptyString)
                   [mkIndex EmptyString "public" "orders" "orders_expr_idx" "NO"
                      "NO" "btree" EmptyString]
                   None None ErrNotSupported 0 eq_refl eq_refl eq_refl eq_refl _
                   eq_refl)).
  intros j [].
Defined.

(** Sequences and indexes that are not supported: nothing is found. *)
Lemma DescribeTableDetails_not_supported_witness :
  DescribeTableDetails unsupportedWriter "orders" false false =
    ([EvQuery (QSequences (mkFilter EmptyString EmptyString EmptyString
                             EmptyString "orders" [] false));
      EvQuery (QIndexes (mkFilter EmptyString EmptyString EmptyString EmptyString
                           "orders" [] false));
      EvWrite (RelationNotFound "orders"); EvWrite newline],
     Returned tt).
Proof.
  exact (proj2 (DescribeTableDetails_not_supported unsupportedWriter "orders"
                  EmptyString "orders" false false eq_refl)
           _ _ _ eq_refl eq_refl eq_refl eq_refl eq_refl eq_refl).
Defined.

(** A view of a reader without index, constraint and trigger capability:
    the table of its columns and nothing else. *)
Lemma describeTableDetails_columns_only_witness :
  describeTableDetails systemOnlyWriter "VIEW" "information_schema" "tables"
    false false =
    ([EvQuery (QColumns (mkFilter EmptyString "information_schema" "tables"
                           EmptyString EmptyString [] false));
      EvEncode
        (<["title" := "VIEW " +:+ quoted "information_schema.tables" +:+ newline]> ∅)
        ["Name"; "Type"; "Nullable"; "Default"] []],
     Returned tt).
Proof.
  exact (proj2 (describeTableDetails_columns_only systemOnlyWriter "VIEW"
                  "information_schema" "tables" false false _ eq_refl)
           (NewResultSet [] (fun _ => Returned []) []) eq_refl eq_refl eq_refl
           eq_refl).
Defined.

(** The sample functions without function columns: the argument types
    stay empty. *)
Lemma DescribeFunctions_columns_witness :
  DescribeFunctions plainFunctionsWriter "ingres" "n" "*" false false =
    ([EvQuery (QFunctions (mkFilter EmptyString EmptyString EmptyString
                             EmptyString "%" ["FUNCTION"] false));
      EvEncode (<["title" := "List of functions"]> ∅)
        ["Schema"; "Name"; "Result data type"; "Argument data types"; "Type"]
        [[VString "public"; VString "add"; VString "integer"; VString EmptyString;
          VString "FUNCTION"];
         [VString "public"; VString "split"; VString "record"; VString EmptyString;
          VString "PROCEDURE"]]],
     Returned tt).
Proof.
  exact (proj1 (DescribeFunctions_columns plainFunctionsWriter "ingres" "n" "*"
                  false false sampleFunctionQuery EmptyString "%"
                  (NewResultSet [] (fun _ => Returned []) sampleFunctions)
                  eq_refl eq_refl eq_refl) eq_refl).
Defined.

(** The table part for the sample table: one table described. *)
Lemma DescribeTableDetails_tables_witness :
  describeTables ordersWriter "public" "orders" false false =
    (EvQuery (QTables (mkFilter EmptyString "public" EmptyString EmptyString
                         "orders" [] false)) ::
     fst (describeTableDetails ordersWriter "TABLE" "public" "orders" false false),
     Returned 1%Z).
Proof.
  rewrite (proj1 (DescribeTableDetails_tables ordersWriter "public.orders"
                    "public" "orders" false false _ _
                    (NewResultSet [] (fun _ => Returned [])
                       [mkTable EmptyString "public" "orders" "TABLE" 100 "16 kB"
                          EmptyString])
                    (fun t => fst (describeTableDetails ordersWriter (tType t)
                                     (tSchema t) (tName t) false false))
                    eq_refl eq_refl eq_refl eq_refl)).
  - vm_compute. reflexivity.
  - intros t [<-|[]]. vm_compute. reflexivity.
Defined.


(** A set of an unknown kind with one row. *)
Lemma checkNames_unknown_set_witness :
  checkNames "row" (OtherSet (NewResultSet [] (fun _ => Returned []) [tt]))
    ["a"] = ([], Panicked).
Proof.
  apply (checkNames_unknown_set "row" (NewResultSet [] (fun _ => Returned []) [tt])
           ["a"]).
  discriminate.
Defined.

